(** * The streaming session orchestrator of the form-filling web client

    A shallow embedding of the client's page component ([Home]), of the
    chat panel's submit handler and of the left panel's reset handler,
    followed by the properties of the orchestrator that hold on them.

    Conventions of the embedding.
    - React state is a record ([Page]); a state setter is a function on
      that record and takes effect at once.  A functional updater
      ([setMessages (prev => ...)]) reads the current record, a handler's
      closure reads the record as it was when the handler was called.
      React runs an updater when it computes the state, which can be
      after the handler has gone on.  That shows in one place, the
      updater of the loop of [handleSendMessage], which calls a setter
      itself: [fold_log] is that updater run in time, [queue_log] the
      same updater run late.
    - An [async] handler is cut at its suspension points: a part that runs
      when the handler is called, one step per stream event, and a part
      that runs when the stream ends or throws.
    - Calls that leave the component ([saveSessionToStorage],
      [streamAgentFill]) are recorded, with their arguments, in traces.
    - Values drawn from the environment ([generateId()], [new Date()],
      the identifiers minted by [createSession]/[createMessage]) are
      arguments of the functions that draw them.
    - JavaScript strings are [string]s of the bytes of their UTF-8
      encoding, numbers that count fields are integers, [T | null] and
      optional members are [option T]. *)

From stdpp Require Import gmap strings list fin_maps pretty.
From Stdlib Require Import ZArith Strings.Byte Strings.Ascii.

Local Open Scope string_scope.
Local Open Scope Z_scope.

(** ** JavaScript values and truthiness *)

(** The values an [unknown] of [Record<string, unknown>] takes here. *)
Inductive JsValue : Type :=
  | JsNull
  | JsBool (b : bool)
  | JsNumber (n : Z)
  | JsString (s : string).

Abbreviation Uint8Array := (list byte).
Abbreviation Edits := (gmap string JsValue).

(** A string is truthy when it is present and not empty. *)
Definition truthy_str (o : option string) : bool :=
  match o with
  | Some s => negb (String.eqb s "")
  | None => false
  end.

(** [a || d] on strings. *)
Definition or_str (o : option string) (d : string) : string :=
  match o with
  | Some s => if String.eqb s "" then d else s
  | None => d
  end.

(** [a || d] on numbers: zero and [undefined] are falsy. *)
Definition or_num (o : option Z) (d : Z) : Z :=
  match o with
  | Some n => if n =? 0 then d else n
  | None => d
  end.

(** An object or array is truthy when it is not null (an empty one
    included). *)
Definition truthy_obj {A : Type} (o : option A) : bool :=
  match o with
  | Some _ => true
  | None => false
  end.

(** Only a truthy string is kept: [if (s) x = s]. *)
Definition keep_truthy (o : option string) : option string :=
  if truthy_str o then o else None.

(** [s.replace(/\*\*/g, '')]: the matches are found left to right and do
    not overlap. *)
Fixpoint remove_double_stars (s : string) : string :=
  match s with
  | String "*"%char (String "*"%char rest) => remove_double_stars rest
  | String c rest => String c (remove_double_stars rest)
  | EmptyString => EmptyString
  end.

(** [l.join(sep)]. *)
Fixpoint join (sep : string) (l : list string) : string :=
  match l with
  | [] => ""
  | x :: rest =>
      match rest with
      | [] => x
      | _ :: _ => x +:+ sep +:+ join sep rest
      end
  end.

(** *** Strings

    A JavaScript string is a sequence of UTF-16 code units.  It is held
    here as the [string] of the bytes of its UTF-8 encoding, which is also
    how a string literal of this file is read: a code point below U+0080
    is one byte, one below U+0800 two, one below U+10000 three, and a
    code point from U+10000 on, which JavaScript holds as a pair of
    surrogates, four.  A surrogate that [slice] has separated from its
    pair is held as the three bytes of its own value.  Equality,
    concatenation and the search for an ASCII pattern are the same on the
    bytes; [length], [slice] and [trim] are defined below through the
    encoding. *)

(** A byte that continues an encoded code point: [10xxxxxx]. *)
Definition is_continuation (c : ascii) : bool :=
  match c with
  | Ascii _ _ _ _ _ _ false true => true
  | _ => false
  end.

(** The first of four bytes, of a code point that takes two code units:
    [1111xxxx]. *)
Definition is_lead4 (c : ascii) : bool :=
  match c with
  | Ascii _ _ _ _ true true true true => true
  | _ => false
  end.

(** [s.length]: the number of code units. *)
Fixpoint code_units (s : string) : nat :=
  match s with
  | String c rest =>
      ((if is_continuation c then 0 else if is_lead4 c then 2 else 1)
       + code_units rest)%nat
  | EmptyString => 0%nat
  end.

(** The high surrogate of the code point whose four bytes start with [c]
    and go on with [rest], as the three bytes of its value
    [0xD800 + ((cp - 0x10000) >> 10)]: [ED], [1010wwww], [10xxxxyy], where
    [wwww] is the five high bits of the code point less one.  A byte that
    is missing counts as zero. *)
Definition high_surrogate (c : ascii) (rest : string) : string :=
  match c, default zero (String.get 0 rest),
        default zero (String.get 1 rest) with
  | Ascii u0 u1 u2 _ _ _ _ _, Ascii x0 x1 x2 x3 x4 x5 _ _,
    Ascii _ _ _ _ y4 y5 _ _ =>
      let top :=
        (N.b2n x4 + 2 * N.b2n x5 + 4 * N.b2n u0 + 8 * N.b2n u1
         + 16 * N.b2n u2)%N in
      let w := (top - 1)%N in
      String "237"
        (String (Ascii (N.testbit w 0) (N.testbit w 1) (N.testbit w 2)
                   (N.testbit w 3) false true false true)
           (String (Ascii y4 y5 x0 x1 x2 x3 false true) EmptyString))
  end.

(** [s.slice(0, n)]: the first [n] code units.  The bytes that continue a
    code point follow its first byte; a cut between the two surrogates of
    a code point leaves the high one. *)
Fixpoint slice_units (n : nat) (s : string) : string :=
  match s with
  | String c rest =>
      if is_continuation c then String c (slice_units n rest)
      else
        match n with
        | O => EmptyString
        | S n1 =>
            if is_lead4 c then
              match n1 with
              | O => high_surrogate c rest
              | S n2 => String c (slice_units n2 rest)
              end
            else String c (slice_units n1 rest)
        end
  | EmptyString => EmptyString
  end.

(** The white space and the line terminators [String.prototype.trim]
    removes, by the bytes of their encoding.  One byte: U+0009 to U+000D
    and U+0020. *)
Definition is_js_space (c : ascii) : bool :=
  match c with
  | " "%char | "009"%char | "010"%char | "011"%char | "012"%char
  | "013"%char => true
  | _ => false
  end.

(** Two bytes: U+00A0, [C2 A0]. *)
Definition is_js_space2 (c1 c2 : ascii) : bool :=
  Ascii.eqb c1 "194" && Ascii.eqb c2 "160".

(** Three bytes: U+1680 [E1 9A 80]; U+2000 to U+200A [E2 80 80] to
    [E2 80 8A]; U+2028, U+2029 and U+202F [E2 80 A8], [E2 80 A9] and
    [E2 80 AF]; U+205F [E2 81 9F]; U+3000 [E3 80 80]; U+FEFF
    [EF BB BF]. *)
Definition is_js_space3 (c1 c2 c3 : ascii) : bool :=
  (Ascii.eqb c1 "225" && Ascii.eqb c2 "154" && Ascii.eqb c3 "128")
  || (Ascii.eqb c1 "226" && Ascii.eqb c2 "128"
      && (((128 <=? N_of_ascii c3)%N && (N_of_ascii c3 <=? 138)%N)
          || Ascii.eqb c3 "168" || Ascii.eqb c3 "169"
          || Ascii.eqb c3 "175"))
  || (Ascii.eqb c1 "226" && Ascii.eqb c2 "129" && Ascii.eqb c3 "159")
  || (Ascii.eqb c1 "227" && Ascii.eqb c2 "128" && Ascii.eqb c3 "128")
  || (Ascii.eqb c1 "239" && Ascii.eqb c2 "187" && Ascii.eqb c3 "191").

(** [s.trimStart()]: the white space at the start is dropped, code point
    by code point. *)
Fixpoint trim_start (s : string) : string :=
  match s with
  | String c1 rest1 =>
      if is_js_space c1 then trim_start rest1
      else
        match rest1 with
        | String c2 rest2 =>
            if is_js_space2 c1 c2 then trim_start rest2
            else
              match rest2 with
              | String c3 rest3 =>
                  if is_js_space3 c1 c2 c3 then trim_start rest3 else s
              | EmptyString => s
              end
        | EmptyString => s
        end
  | EmptyString => EmptyString
  end.

(** Whether the bytes are those of one white space code point. *)
Definition is_one_space (s : string) : bool :=
  match s with
  | String c1 EmptyString => is_js_space c1
  | String c1 (String c2 EmptyString) => is_js_space2 c1 c2
  | String c1 (String c2 (String c3 EmptyString)) => is_js_space3 c1 c2 c3
  | _ => false
  end.

(** [s.trimEnd()]: a byte is kept unless, with what is kept after it, it
    makes up a white space code point at the end. *)
Fixpoint trim_end (s : string) : string :=
  match s with
  | String c rest =>
      let kept := String c (trim_end rest) in
      if is_one_space kept then EmptyString else kept
  | EmptyString => EmptyString
  end.

Definition trim (s : string) : string := trim_end (trim_start s).

(** What [generateId()] and [new Date()] return at one point of the
    execution. *)
Record Stamp : Type := { fresh_id : string; now : Z }.

(** ** The types of [@/types] *)

Module FieldType.
Inductive t : Type := text | checkbox | dropdown | radio.
End FieldType.

Module FormField.
Record t : Type := {
  field_id : string;
  field_type : FieldType.t;
  page : Z;
  label_context : string;
  current_value : option string;
  options : option (list string);
}.
End FormField.

Module LogType.
Inductive t : Type :=
  thinking | tool_call | tool_result | status | complete | error.

Definition eqb (a b : t) : bool :=
  match a, b with
  | thinking, thinking | tool_call, tool_call | tool_result, tool_result
  | status, status | complete, complete | error, error => true
  | _, _ => false
  end.
End LogType.

(** [toolName] and [toolInput] are never written by the page and are left
    out. *)
Module AgentLogEntry.
Record t : Type := {
  id : string;
  type : LogType.t;
  timestamp : Z;
  content : string;
  details : option string;
}.
End AgentLogEntry.

Module Role.
Inductive t : Type := user | assistant | system.
End Role.

Module Status.
Inductive t : Type := pending | streaming | complete | error.
End Status.

(** [toolCalls] is never written by the page and is left out. *)
Module ChatMessage.
Record t : Type := {
  id : string;
  role : Role.t;
  content : string;
  timestamp : Z;
  status : option Status.t;
  agentLog : option (list AgentLogEntry.t);
}.
End ChatMessage.

(** The discriminator of a stream event; [other] stands for a tag the
    interface does not list, which the [default] branch of
    [createLogEntry] receives. *)
Module EventType.
Inductive t : Type :=
  | init | status | tool_use | user | assistant | complete | pdf_ready
  | error | other (tag : string).
End EventType.

(** [tool_calls] is not read by the page and is left out. *)
Module StreamEvent.
Record t : Type := {
  type : EventType.t;
  message : option string;
  error : option string;
  text : option string;
  friendly : option (list string);
  applied_count : option Z;
  applied_edits : option Edits;
  session_id : option string;
  user_session_id : option string;
  pdf_bytes : option string;
}.

(** An event of the given type with no optional member. *)
Definition bare (ty : EventType.t) : t :=
  {| type := ty; message := None; error := None; text := None;
     friendly := None; applied_count := None; applied_edits := None;
     session_id := None; user_session_id := None; pdf_bytes := None |}.
End StreamEvent.

(** A browser [File]: its name and its content. *)
Record File : Type := { file_name : string; file_bytes : Uint8Array }.

Module Session.
Record t : Type := {
  id : string;
  originalPdf : option File;
  filledPdfBytes : option Uint8Array;
  fields : list FormField.t;
  messages : list ChatMessage.t;
  isProcessing : bool;
}.
End Session.

Inductive PdfDisplayMode : Type := original | filled.

(** The [ContextFile] and [ParseProgress] of the context-file upload
    component, as the page builds them. *)
Record ContextFile : Type := {
  filename : string;
  cf_content : string;
  was_parsed : bool;
}.

Record ParseProgress : Type := {
  current : Z;
  total : Z;
  pp_filename : string;
  pp_status : string;
  pp_error : option string;
}.

(** ** The state of the page

    One field per [useState] of [Home], under the name the component gives
    it. *)
Record Page : Type := {
  sessionId : string;
  file : option File;
  fields : list FormField.t;
  messages : list ChatMessage.t;
  originalPdfBytes : option Uint8Array;
  filledPdfBytes : option Uint8Array;
  pdfDisplayMode : PdfDisplayMode;
  isAnalyzing : bool;
  isProcessing : bool;
  statusMessage : string;
  appliedEdits : option Edits;
  agentSessionId : option string;
  userSessionId : option string;
  contextFiles : list ContextFile;
  isUploadingContext : bool;
  parseProgress : option ParseProgress;
}.

(** The state setters.  [setX v p] is [p] after [setX(v)]. *)
Definition setSessionId (v : string) (p : Page) : Page :=
  {| sessionId := v; file := file p; fields := fields p;
     messages := messages p; originalPdfBytes := originalPdfBytes p;
     filledPdfBytes := filledPdfBytes p;
     pdfDisplayMode := pdfDisplayMode p; isAnalyzing := isAnalyzing p;
     isProcessing := isProcessing p; statusMessage := statusMessage p;
     appliedEdits := appliedEdits p; agentSessionId := agentSessionId p;
     userSessionId := userSessionId p; contextFiles := contextFiles p;
     isUploadingContext := isUploadingContext p;
     parseProgress := parseProgress p |}.

Definition setFile (v : option File) (p : Page) : Page :=
  {| sessionId := sessionId p; file := v; fields := fields p;
     messages := messages p; originalPdfBytes := originalPdfBytes p;
     filledPdfBytes := filledPdfBytes p;
     pdfDisplayMode := pdfDisplayMode p; isAnalyzing := isAnalyzing p;
     isProcessing := isProcessing p; statusMessage := statusMessage p;
     appliedEdits := appliedEdits p; agentSessionId := agentSessionId p;
     userSessionId := userSessionId p; contextFiles := contextFiles p;
     isUploadingContext := isUploadingContext p;
     parseProgress := parseProgress p |}.

Definition setFields (v : list FormField.t) (p : Page) : Page :=
  {| sessionId := sessionId p; file := file p; fields := v;
     messages := messages p; originalPdfBytes := originalPdfBytes p;
     filledPdfBytes := filledPdfBytes p;
     pdfDisplayMode := pdfDisplayMode p; isAnalyzing := isAnalyzing p;
     isProcessing := isProcessing p; statusMessage := statusMessage p;
     appliedEdits := appliedEdits p; agentSessionId := agentSessionId p;
     userSessionId := userSessionId p; contextFiles := contextFiles p;
     isUploadingContext := isUploadingContext p;
     parseProgress := parseProgress p |}.

Definition setMessages (v : list ChatMessage.t) (p : Page) : Page :=
  {| sessionId := sessionId p; file := file p; fields := fields p;
     messages := v; originalPdfBytes := originalPdfBytes p;
     filledPdfBytes := filledPdfBytes p;
     pdfDisplayMode := pdfDisplayMode p; isAnalyzing := isAnalyzing p;
     isProcessing := isProcessing p; statusMessage := statusMessage p;
     appliedEdits := appliedEdits p; agentSessionId := agentSessionId p;
     userSessionId := userSessionId p; contextFiles := contextFiles p;
     isUploadingContext := isUploadingContext p;
     parseProgress := parseProgress p |}.

Definition setOriginalPdfBytes (v : option Uint8Array) (p : Page) : Page :=
  {| sessionId := sessionId p; file := file p; fields := fields p;
     messages := messages p; originalPdfBytes := v;
     filledPdfBytes := filledPdfBytes p;
     pdfDisplayMode := pdfDisplayMode p; isAnalyzing := isAnalyzing p;
     isProcessing := isProcessing p; statusMessage := statusMessage p;
     appliedEdits := appliedEdits p; agentSessionId := agentSessionId p;
     userSessionId := userSessionId p; contextFiles := contextFiles p;
     isUploadingContext := isUploadingContext p;
     parseProgress := parseProgress p |}.

Definition setFilledPdfBytes (v : option Uint8Array) (p : Page) : Page :=
  {| sessionId := sessionId p; file := file p; fields := fields p;
     messages := messages p; originalPdfBytes := originalPdfBytes p;
     filledPdfBytes := v; pdfDisplayMode := pdfDisplayMode p;
     isAnalyzing := isAnalyzing p; isProcessing := isProcessing p;
     statusMessage := statusMessage p; appliedEdits := appliedEdits p;
     agentSessionId := agentSessionId p; userSessionId := userSessionId p;
     contextFiles := contextFiles p;
     isUploadingContext := isUploadingContext p;
     parseProgress := parseProgress p |}.

Definition setPdfDisplayMode (v : PdfDisplayMode) (p : Page) : Page :=
  {| sessionId := sessionId p; file := file p; fields := fields p;
     messages := messages p; originalPdfBytes := originalPdfBytes p;
     filledPdfBytes := filledPdfBytes p; pdfDisplayMode := v;
     isAnalyzing := isAnalyzing p; isProcessing := isProcessing p;
     statusMessage := statusMessage p; appliedEdits := appliedEdits p;
     agentSessionId := agentSessionId p; userSessionId := userSessionId p;
     contextFiles := contextFiles p;
     isUploadingContext := isUploadingContext p;
     parseProgress := parseProgress p |}.

Definition setIsAnalyzing (v : bool) (p : Page) : Page :=
  {| sessionId := sessionId p; file := file p; fields := fields p;
     messages := messages p; originalPdfBytes := originalPdfBytes p;
     filledPdfBytes := filledPdfBytes p;
     pdfDisplayMode := pdfDisplayMode p; isAnalyzing := v;
     isProcessing := isProcessing p; statusMessage := statusMessage p;
     appliedEdits := appliedEdits p; agentSessionId := agentSessionId p;
     userSessionId := userSessionId p; contextFiles := contextFiles p;
     isUploadingContext := isUploadingContext p;
     parseProgress := parseProgress p |}.

Definition setIsProcessing (v : bool) (p : Page) : Page :=
  {| sessionId := sessionId p; file := file p; fields := fields p;
     messages := messages p; originalPdfBytes := originalPdfBytes p;
     filledPdfBytes := filledPdfBytes p;
     pdfDisplayMode := pdfDisplayMode p; isAnalyzing := isAnalyzing p;
     isProcessing := v; statusMessage := statusMessage p;
     appliedEdits := appliedEdits p; agentSessionId := agentSessionId p;
     userSessionId := userSessionId p; contextFiles := contextFiles p;
     isUploadingContext := isUploadingContext p;
     parseProgress := parseProgress p |}.

Definition setStatusMessage (v : string) (p : Page) : Page :=
  {| sessionId := sessionId p; file := file p; fields := fields p;
     messages := messages p; originalPdfBytes := originalPdfBytes p;
     filledPdfBytes := filledPdfBytes p;
     pdfDisplayMode := pdfDisplayMode p; isAnalyzing := isAnalyzing p;
     isProcessing := isProcessing p; statusMessage := v;
     appliedEdits := appliedEdits p; agentSessionId := agentSessionId p;
     userSessionId := userSessionId p; contextFiles := contextFiles p;
     isUploadingContext := isUploadingContext p;
     parseProgress := parseProgress p |}.

Definition setAppliedEdits (v : option Edits) (p : Page) : Page :=
  {| sessionId := sessionId p; file := file p; fields := fields p;
     messages := messages p; originalPdfBytes := originalPdfBytes p;
     filledPdfBytes := filledPdfBytes p;
     pdfDisplayMode := pdfDisplayMode p; isAnalyzing := isAnalyzing p;
     isProcessing := isProcessing p; statusMessage := statusMessage p;
     appliedEdits := v; agentSessionId := agentSessionId p;
     userSessionId := userSessionId p; contextFiles := contextFiles p;
     isUploadingContext := isUploadingContext p;
     parseProgress := parseProgress p |}.

Definition setAgentSessionId (v : option string) (p : Page) : Page :=
  {| sessionId := sessionId p; file := file p; fields := fields p;
     messages := messages p; originalPdfBytes := originalPdfBytes p;
     filledPdfBytes := filledPdfBytes p;
     pdfDisplayMode := pdfDisplayMode p; isAnalyzing := isAnalyzing p;
     isProcessing := isProcessing p; statusMessage := statusMessage p;
     appliedEdits := appliedEdits p; agentSessionId := v;
     userSessionId := userSessionId p; contextFiles := contextFiles p;
     isUploadingContext := isUploadingContext p;
     parseProgress := parseProgress p |}.

Definition setUserSessionId (v : option string) (p : Page) : Page :=
  {| sessionId := sessionId p; file := file p; fields := fields p;
     messages := messages p; originalPdfBytes := originalPdfBytes p;
     filledPdfBytes := filledPdfBytes p;
     pdfDisplayMode := pdfDisplayMode p; isAnalyzing := isAnalyzing p;
     isProcessing := isProcessing p; statusMessage := statusMessage p;
     appliedEdits := appliedEdits p; agentSessionId := agentSessionId p;
     userSessionId := v; contextFiles := contextFiles p;
     isUploadingContext := isUploadingContext p;
     parseProgress := parseProgress p |}.

Definition setContextFiles (v : list ContextFile) (p : Page) : Page :=
  {| sessionId := sessionId p; file := file p; fields := fields p;
     messages := messages p; originalPdfBytes := originalPdfBytes p;
     filledPdfBytes := filledPdfBytes p;
     pdfDisplayMode := pdfDisplayMode p; isAnalyzing := isAnalyzing p;
     isProcessing := isProcessing p; statusMessage := statusMessage p;
     appliedEdits := appliedEdits p; agentSessionId := agentSessionId p;
     userSessionId := userSessionId p; contextFiles := v;
     isUploadingContext := isUploadingContext p;
     parseProgress := parseProgress p |}.

Definition setIsUploadingContext (v : bool) (p : Page) : Page :=
  {| sessionId := sessionId p; file := file p; fields := fields p;
     messages := messages p; originalPdfBytes := originalPdfBytes p;
     filledPdfBytes := filledPdfBytes p;
     pdfDisplayMode := pdfDisplayMode p; isAnalyzing := isAnalyzing p;
     isProcessing := isProcessing p; statusMessage := statusMessage p;
     appliedEdits := appliedEdits p; agentSessionId := agentSessionId p;
     userSessionId := userSessionId p; contextFiles := contextFiles p;
     isUploadingContext := v; parseProgress := parseProgress p |}.

Definition setParseProgress (v : option ParseProgress) (p : Page) : Page :=
  {| sessionId := sessionId p; file := file p; fields := fields p;
     messages := messages p; originalPdfBytes := originalPdfBytes p;
     filledPdfBytes := filledPdfBytes p;
     pdfDisplayMode := pdfDisplayMode p; isAnalyzing := isAnalyzing p;
     isProcessing := isProcessing p; statusMessage := statusMessage p;
     appliedEdits := appliedEdits p; agentSessionId := agentSessionId p;
     userSessionId := userSessionId p; contextFiles := contextFiles p;
     isUploadingContext := isUploadingContext p; parseProgress := v |}.

(** The empty page a first render starts from. *)
Definition initial_page : Page :=
  {| sessionId := ""; file := None; fields := []; messages := [];
     originalPdfBytes := None; filledPdfBytes := None;
     pdfDisplayMode := original; isAnalyzing := false;
     isProcessing := false; statusMessage := ""; appliedEdits := None;
     agentSessionId := None; userSessionId := None; contextFiles := [];
     isUploadingContext := false; parseProgress := None |}.

(** ** Calls that leave the component *)

(** The argument of [streamAgentFill]. *)
Module FillRequest.
Record t : Type := {
  file : File;
  instructions : string;
  filledPdfBytes : option Uint8Array;
  isContinuation : bool;
  previousEdits : option Edits;
  resumeSessionId : option string;
  userSessionId : option string;
}.
End FillRequest.

(** A call [saveSessionToStorage(session, userSessionId)]. *)
Record SaveCall : Type := {
  saved_session : Session.t;
  saved_userSessionId : option string;
}.

(** The page together with the calls its handlers have made so far, the
    latest last. *)
Record Client : Type := {
  page : Page;
  saved : list SaveCall;
  opened : list FillRequest.t;
}.

Definition on_page (f : Page -> Page) (c : Client) : Client :=
  {| page := f (page c); saved := saved c; opened := opened c |}.

Definition saveSessionToStorage (s : Session.t) (u : option string)
    (c : Client) : Client :=
  {| page := page c;
     saved := saved c ++ [{| saved_session := s; saved_userSessionId := u |}];
     opened := opened c |}.

Definition streamAgentFill (r : FillRequest.t) (c : Client) : Client :=
  {| page := page c; saved := saved c; opened := opened c ++ [r] |}.

(** What a [catch] clause receives: an [Error] with its message, or any
    other value. *)
Inductive Thrown : Type :=
  | ErrorObject (message : string)
  | OtherValue.

(** [error instanceof Error ? error.message : 'Unknown error']. *)
Definition error_message (e : Thrown) : string :=
  match e with
  | ErrorObject m => m
  | OtherValue => "Unknown error"
  end.

(** ** Messages and log entries *)

(** Modelled from the spec: [createMessage] of [@/lib/session], which is
    not among the sources.  The spec's data model gives a message an id,
    a role, a content, a timestamp and a status, and makes the message of
    a user instruction [complete]; the call for it passes no status, so
    [complete] is the default.  The id and the timestamp are drawn from
    the environment. *)
Definition createMessage (s : Stamp) (r : Role.t) (c : string)
    (st : option Status.t) : ChatMessage.t :=
  {| ChatMessage.id := fresh_id s;
     ChatMessage.role := r;
     ChatMessage.content := c;
     ChatMessage.timestamp := now s;
     ChatMessage.status := Some (default Status.complete st);
     ChatMessage.agentLog := None |}.

Definition log_entry (s : Stamp) (ty : LogType.t) (c : string)
    (d : option string) : AgentLogEntry.t :=
  {| AgentLogEntry.id := fresh_id s;
     AgentLogEntry.type := ty;
     AgentLogEntry.timestamp := now s;
     AgentLogEntry.content := c;
     AgentLogEntry.details := d |}.

(** [createLogEntry(event)], with the id and the timestamp it draws. *)
Definition createLogEntry (s : Stamp) (event : StreamEvent.t)
    : option AgentLogEntry.t :=
  match StreamEvent.type event with
  | EventType.init =>
      Some (log_entry s LogType.status
              (or_str (StreamEvent.message event) "Initializing agent...") None)
  | EventType.status =>
      Some (log_entry s LogType.status
              (or_str (StreamEvent.message event) "Processing...") None)
  | EventType.tool_use =>
      match StreamEvent.friendly event with
      | Some (first :: more) =>
          let cleanedActions :=
            remove_double_stars <$> (first :: more) in
          if decide (1 < length (first :: more))%nat then
            Some (log_entry s LogType.tool_call
                    ("Filling " +:+ pretty (length (first :: more))
                       +:+ " fields")
                    (Some (join ", " cleanedActions)))
          else
            Some (log_entry s LogType.tool_call
                    (remove_double_stars first) None)
      | _ => None
      end
  | EventType.user =>
      match StreamEvent.friendly event with
      | Some (first :: more) =>
          Some (log_entry s LogType.tool_result
                  (join ", " (first :: more)) None)
      | _ => None
      end
  | EventType.assistant =>
      match StreamEvent.text event with
      | Some txt =>
          if String.eqb txt "" then None
          else
            Some (log_entry s LogType.thinking "Agent thinking..."
                    (Some (slice_units 100 txt
                             +:+ (if decide (100 < code_units txt)%nat
                                  then "..." else ""))))
      | None => None
      end
  | EventType.complete =>
      Some (log_entry s LogType.complete
              ("Completed - filled "
                 +:+ pretty (or_num (StreamEvent.applied_count event) 0)
                 +:+ " fields")
              None)
  | EventType.error =>
      Some (log_entry s LogType.error
              (or_str (StreamEvent.error event) "An error occurred") None)
  | EventType.pdf_ready =>
      Some (log_entry s LogType.complete "Form filled successfully" None)
  | EventType.other _ => None
  end.

(** ** [handleSendMessage] *)

(** The variables of one call of [handleSendMessage]: what its closure
    holds of the page ([captured], the state the handler was called in),
    the placeholder's id, and the [let] variables the loop assigns. *)
Record Turn : Type := {
  captured : Page;
  assistantMessage_id : string;
  isContinuation : bool;
  finalContent : string;
  appliedCount : Z;
  newAppliedEdits : option Edits;
  newAgentSessionId : option string;
  newUserSessionId : option string;
  newFilledPdfBytes : option Uint8Array;
}.

(** [{ ...m, agentLog: l }]. *)
Definition with_agentLog (l : option (list AgentLogEntry.t))
    (m : ChatMessage.t) : ChatMessage.t :=
  {| ChatMessage.id := ChatMessage.id m;
     ChatMessage.role := ChatMessage.role m;
     ChatMessage.content := ChatMessage.content m;
     ChatMessage.timestamp := ChatMessage.timestamp m;
     ChatMessage.status := ChatMessage.status m;
     ChatMessage.agentLog := l |}.

(** [{ ...m, status: st, content: c }]. *)
Definition with_status_content (st : Status.t) (c : string)
    (m : ChatMessage.t) : ChatMessage.t :=
  {| ChatMessage.id := ChatMessage.id m;
     ChatMessage.role := ChatMessage.role m;
     ChatMessage.content := c;
     ChatMessage.timestamp := ChatMessage.timestamp m;
     ChatMessage.status := Some st;
     ChatMessage.agentLog := ChatMessage.agentLog m |}.

(** [prev.map(m => m.id === id ? f(m) : m)]. *)
Definition map_message (id : string) (f : ChatMessage.t -> ChatMessage.t)
    (prev : list ChatMessage.t) : list ChatMessage.t :=
  (fun m => if String.eqb (ChatMessage.id m) id then f m else m) <$> prev.

Definition has_message (id : string) (prev : list ChatMessage.t) : bool :=
  existsb (fun m => String.eqb (ChatMessage.id m) id) prev.

(** The first part of the handler, up to the first [await].  Without a
    file it appends a system message and returns; with one it appends the
    user message and the placeholder, raises [isProcessing], and opens the
    stream.  [su] and [sa] stamp the two messages. *)
Definition handleSendMessage_start (content : string) (su sa : Stamp)
    (c : Client) : Client * option Turn :=
  let p := page c in
  match file p with
  | None =>
      (on_page (fun q => setMessages
                  (messages q
                     ++ [createMessage su Role.system
                           "Please upload a PDF first" None])%list q) c,
       None)
  | Some f =>
      let userMessage := createMessage su Role.user content None in
      let assistantMessage :=
        with_agentLog (Some [])
          (createMessage sa Role.assistant "" (Some Status.streaming)) in
      let isCont :=
        truthy_str (agentSessionId p) && truthy_obj (filledPdfBytes p) in
      let c1 :=
        on_page (fun q =>
          setStatusMessage "Starting agent..."
            (setIsProcessing true
               (setMessages
                  (messages q ++ [userMessage] ++ [assistantMessage])%list
                  q))) c in
      let request :=
        {| FillRequest.file := f;
           FillRequest.instructions := content;
           FillRequest.filledPdfBytes :=
             if isCont then filledPdfBytes p else None;
           FillRequest.isContinuation := isCont;
           FillRequest.previousEdits := appliedEdits p;
           FillRequest.resumeSessionId := agentSessionId p;
           FillRequest.userSessionId := userSessionId p |} in
      (streamAgentFill request c1,
       Some {| captured := p;
               assistantMessage_id := ChatMessage.id assistantMessage;
               isContinuation := isCont;
               finalContent := "";
               appliedCount := 0;
               newAppliedEdits := None;
               newAgentSessionId := None;
               newUserSessionId := None;
               newFilledPdfBytes := None |})
  end.

(** The assignments of the loop body to the handler's variables. *)
Definition assign_complete (event : StreamEvent.t) (t : Turn) : Turn :=
  let count := or_num (StreamEvent.applied_count event) 0 in
  let edits :=
    if truthy_obj (StreamEvent.applied_edits event)
    then StreamEvent.applied_edits event else newAppliedEdits t in
  let agent :=
    if truthy_str (StreamEvent.session_id event)
    then StreamEvent.session_id event else newAgentSessionId t in
  let usr :=
    if truthy_str (StreamEvent.user_session_id event)
    then StreamEvent.user_session_id event else newUserSessionId t in
  let totalEdits :=
    match edits with
    | Some m => Z.of_nat (size m)
    | None => count
    end in
  {| captured := captured t;
     assistantMessage_id := assistantMessage_id t;
     isContinuation := isContinuation t;
     finalContent :=
       if isContinuation t
       then "Updated " +:+ pretty count +:+ " fields. Total: "
              +:+ pretty totalEdits +:+ " fields filled."
       else "Successfully filled " +:+ pretty count +:+ " form fields.";
     appliedCount := count;
     newAppliedEdits := edits;
     newAgentSessionId := agent;
     newUserSessionId := usr;
     newFilledPdfBytes := newFilledPdfBytes t |}.

Definition assign_pdf (bytes : Uint8Array) (t : Turn) : Turn :=
  {| captured := captured t;
     assistantMessage_id := assistantMessage_id t;
     isContinuation := isContinuation t;
     finalContent := finalContent t;
     appliedCount := appliedCount t;
     newAppliedEdits := newAppliedEdits t;
     newAgentSessionId := newAgentSessionId t;
     newUserSessionId := newUserSessionId t;
     newFilledPdfBytes := Some bytes |}.

Definition assign_error (event : StreamEvent.t) (t : Turn) : Turn :=
  {| captured := captured t;
     assistantMessage_id := assistantMessage_id t;
     isContinuation := isContinuation t;
     finalContent := or_str (StreamEvent.error event) "An error occurred";
     appliedCount := appliedCount t;
     newAppliedEdits := newAppliedEdits t;
     newAgentSessionId := newAgentSessionId t;
     newUserSessionId := newUserSessionId t;
     newFilledPdfBytes := newFilledPdfBytes t |}.

(** What the updater of the loop body does to the placeholder: the entry,
    when there is one, is appended to its log. *)
Definition append_log (logEntry : option AgentLogEntry.t)
    (m : ChatMessage.t) : ChatMessage.t :=
  with_agentLog
    (match logEntry with
     | Some e => Some (default [] (ChatMessage.agentLog m) ++ [e])%list
     | None => ChatMessage.agentLog m
     end) m.

(** The [setMessages] of the loop body when React has run its updater
    before the handler goes on, at once or at a render in between: the
    messages are mapped, and the [setStatusMessage] that the updater calls
    when it meets the placeholder mirrors the entry into the status
    message. *)
Definition fold_log (id : string) (logEntry : option AgentLogEntry.t)
    (p : Page) : Page :=
  let prev := messages p in
  let p1 := setMessages (map_message id (append_log logEntry) prev) p in
  match logEntry with
  | Some e =>
      if has_message id prev
      then setStatusMessage (AgentLogEntry.content e) p1 else p1
  | None => p1
  end.

(** The same [setMessages] when its updater is still queued when the
    handler goes on.  React runs the queued updaters in the order of
    their calls, so the messages are mapped as above.  The
    [setStatusMessage] of the updater is then called during the render
    that runs it, and React applies an update made during a render after
    the updates that were queued before it: [nested_status] is the status
    message the updater will set. *)
Definition queue_log (id : string) (logEntry : option AgentLogEntry.t)
    (p : Page) : Page :=
  setMessages (map_message id (append_log logEntry) (messages p)) p.

Definition nested_status (id : string) (logEntry : option AgentLogEntry.t)
    (p : Page) : option string :=
  match logEntry with
  | Some e =>
      if has_message id (messages p)
      then Some (AgentLogEntry.content e) else None
  | None => None
  end.

(** The render that runs the queued updaters: the status message they
    set, when they set one, comes after what the handler has set. *)
Definition render (late : option string) (c : Client) : Client :=
  match late with
  | Some s => on_page (setStatusMessage s) c
  | None => c
  end.

(** The [finally] clause. *)
Definition handleSendMessage_finally (c : Client) : Client :=
  on_page (fun q => setStatusMessage "" (setIsProcessing false q)) c.

(** The [catch] clause, then [finally]; [s] stamps the log entry the
    clause makes. *)
Definition handleSendMessage_catch (e : Thrown) (s : Stamp) (t : Turn)
    (c : Client) : Client :=
  let errorMessage := error_message e in
  handleSendMessage_finally
    (on_page (fun q =>
       setMessages
         (map_message (assistantMessage_id t)
            (fun m =>
               with_agentLog
                 (Some (default [] (ChatMessage.agentLog m)
                          ++ [log_entry s LogType.error errorMessage None])%list)
                 (with_status_content Status.error
                    ("Error: " +:+ errorMessage) m))
            (messages q)) q) c).

(** The rest of the [try] block once the loop has ended, then
    [finally]. *)
Definition handleSendMessage_end (t : Turn) (c : Client) : Client :=
  let c1 :=
    match newAppliedEdits t with
    | Some e => on_page (setAppliedEdits (Some e)) c
    | None => c
    end in
  let c2 :=
    if truthy_str (newAgentSessionId t)
    then on_page (setAgentSessionId (newAgentSessionId t)) c1 else c1 in
  let c3 :=
    if truthy_str (newUserSessionId t)
    then
      saveSessionToStorage
        {| Session.id := sessionId (captured t);
           Session.originalPdf := file (captured t);
           Session.filledPdfBytes :=
             match newFilledPdfBytes t with
             | Some b => Some b
             | None => filledPdfBytes (captured t)
             end;
           Session.fields := fields (captured t);
           Session.messages := messages (captured t);
           Session.isProcessing := false |}
        (newUserSessionId t)
        (on_page (setUserSessionId (newUserSessionId t)) c2)
    else c2 in
  handleSendMessage_finally
    (on_page (fun q =>
       setMessages
         (map_message (assistantMessage_id t)
            (with_status_content Status.complete
               (or_str (Some (finalContent t))
                  ("Filled " +:+ pretty (appliedCount t) +:+ " fields.")))
            (messages q)) q) c3).

(** How the iteration over the stream ends: the stream closes, or the
    iteration throws (with the stamp the [catch] clause then draws). *)
Inductive StreamEnd : Type :=
  | Closed
  | Failed (e : Thrown) (s : Stamp).

(** ** Mounting the page and restoring a session *)

(** What [loadSessionFromStorage] hands back, as the effect reads it. *)
Record StoredSession : Type := {
  stored_fields : option (list FormField.t);
  stored_messages : option (list ChatMessage.t);
  stored_userSessionId : option string;
}.

(** The first part of the mount effect: [url] is what
    [getSessionIdFromUrl] returns, [stored] what [loadSessionFromStorage]
    returns for it, [created] the id of the session [createSession] would
    make.  The write of the new id into the URL is not part of the
    state and is left out. *)
Definition mount (url : option string) (stored : option StoredSession)
    (created : string) (p : Page) : Page :=
  if truthy_str url then
    match stored with
    | Some st =>
        let p1 :=
          setMessages (default [] (stored_messages st))
            (setFields (default [] (stored_fields st))
               (setSessionId (default "" url) p)) in
        if truthy_str (stored_userSessionId st)
        then setUserSessionId (stored_userSessionId st) p1 else p1
    | None => setSessionId created p
    end
  else setSessionId created p.

(** Whether the mount effect starts the three fetches. *)
Definition mount_fetches (url : option string)
    (stored : option StoredSession) : bool :=
  truthy_str url
  && match stored with
     | Some st => truthy_str (stored_userSessionId st)
     | None => false
     end.

(** How a promise settles. *)
Inductive Settled (A : Type) : Type :=
  | Fulfilled (a : A)
  | Rejected.
Arguments Fulfilled {A} a.
Arguments Rejected {A}.

(** [Promise.all] of three promises: fulfilled with the three values when
    all three are, rejected as soon as one is. *)
Definition Promise_all {A B C : Type} (a : Settled A) (b : Settled B)
    (c : Settled C) : Settled (A * B * C) :=
  match a, b, c with
  | Fulfilled x, Fulfilled y, Fulfilled z => Fulfilled (x, y, z)
  | _, _, _ => Rejected
  end.

(** The callback of [.then]. *)
Definition restore_apply (filledBytes originalBytes : option Uint8Array)
    (contextFilesData : option (list ContextFile)) (p : Page) : Page :=
  let p1 :=
    match filledBytes with
    | Some b => setPdfDisplayMode filled (setFilledPdfBytes (Some b) p)
    | None => p
    end in
  let p2 :=
    match originalBytes with
    | Some b => setOriginalPdfBytes (Some b) p1
    | None => p1
    end in
  match contextFilesData with
  | Some l =>
      setContextFiles
        ((fun f => {| filename := filename f; cf_content := cf_content f;
                      was_parsed := was_parsed f |}) <$> l) p2
  | None => p2
  end.

(** [Promise.all([...]).then(...)]: [.then] has no rejection handler, so a
    rejected [Promise.all] runs nothing. *)
Definition restore_fetched (filledBytes originalBytes : Settled (option Uint8Array))
    (contextFilesData : Settled (option (list ContextFile))) (p : Page)
    : Page :=
  match Promise_all filledBytes originalBytes contextFilesData with
  | Fulfilled (fb, ob, cf) => restore_apply fb ob cf p
  | Rejected => p
  end.

(** Modelled from the spec: [getSessionPdf], [getSessionOriginalPdf] and
    [getSessionContextFiles] of [@/lib/api], which are not among the
    sources.  The spec's interface gives them the results "bytes | absent"
    and "list | absent": a fetch that fails yields the absent value, its
    promise is not rejected. *)
Inductive Fetch (A : Type) : Type :=
  | Fetched (a : A)
  | FetchFailed.
Arguments Fetched {A} a.
Arguments FetchFailed {A}.

Definition fetch_promise {A : Type} (r : Fetch A) : Settled (option A) :=
  Fulfilled match r with
            | Fetched a => Some a
            | FetchFailed => None
            end.

(** The effect that saves the session when the state changes: the call it
    makes for a page, if it makes one. *)
Definition save_effect (p : Page) : option SaveCall :=
  if String.eqb (sessionId p) "" then None
  else
    Some {| saved_session :=
              {| Session.id := sessionId p;
                 Session.originalPdf := file p;
                 Session.filledPdfBytes := filledPdfBytes p;
                 Session.fields := fields p;
                 Session.messages := messages p;
                 Session.isProcessing := isProcessing p |};
            saved_userSessionId := userSessionId p |}.

(** ** [handleFileSelect] *)

(** The setters both branches run. *)
Definition clear_document (p : Page) : Page :=
  setContextFiles []
    (setUserSessionId None
       (setAgentSessionId None
          (setAppliedEdits None
             (setPdfDisplayMode original
                (setFilledPdfBytes None (setOriginalPdfBytes None p)))))).

(** The handler up to [await analyzePdf]; with no file it ends there. *)
Definition handleFileSelect_start (selectedFile : option File) (p : Page)
    : Page :=
  match selectedFile with
  | None => clear_document (setFields [] (setFile None p))
  | Some f => setIsAnalyzing true (clear_document (setFile (Some f) p))
  end.

(** What [analyzePdf] yields: the fields and their count, or a throw. *)
Inductive AnalyzeOutcome : Type :=
  | Analyzed (result_fields : list FormField.t) (field_count : Z)
  | AnalyzeThrew (e : Thrown).

(** The handler after the [await]. *)
Definition handleFileSelect_end (r : AnalyzeOutcome) (s : Stamp) (p : Page)
    : Page :=
  setIsAnalyzing false
    match r with
    | Analyzed fs n =>
        let p1 := setFields fs p in
        if 0 <? n then
          setMessages
            (messages p1
               ++ [createMessage s Role.system
                     ("Detected " +:+ pretty n
                        +:+ " fillable fields in the PDF") None])%list p1
        else
          setMessages
            (messages p1
               ++ [createMessage s Role.system
                     "No fillable form fields detected. Make sure this is a PDF with AcroForm fields."
                     None])%list p1
    | AnalyzeThrew e =>
        setMessages
          (messages p
             ++ [createMessage s Role.system
                   ("Error analyzing PDF: " +:+ error_message e) None])%list p
    end.

(** [handleReset] of the left panel. *)
Definition handleReset (p : Page) : Page :=
  if negb (isProcessing p) then handleFileSelect_start None p else p.

(** ** [handleParseFiles] *)

(** The events of [streamParseFiles], as the handler reads them. *)
Module ParseEvent.
Inductive kind : Type := progress | complete | other (tag : string).

Record result : Type := {
  r_filename : string;
  r_content : option string;
  r_error : option string;
  r_parsed : bool;
}.

Record t : Type := {
  type : kind;
  current : option Z;
  total : option Z;
  filename : option string;
  status : option string;
  error : option string;
  results : option (list result);
}.
End ParseEvent.

(** The variables of one call of [handleParseFiles]. *)
Record ParseRun : Type := {
  currentUserSessionId : string;
  results : list ContextFile;
}.

(** The handler up to the first [await]; a user session id is minted from
    [generateId()] and [Date.now()] when the page has none. *)
Definition handleParseFiles_start (s : Stamp) (p : Page) : Page * ParseRun :=
  let p1 := setParseProgress None (setIsUploadingContext true p) in
  if truthy_str (userSessionId p) then
    (p1, {| currentUserSessionId := default "" (userSessionId p);
            results := [] |})
  else
    let minted := fresh_id s +:+ "-" +:+ pretty (now s) in
    (setUserSessionId (Some minted) p1,
     {| currentUserSessionId := minted; results := [] |}).

Definition kept_results (rs : list ParseEvent.result) : list ContextFile :=
  omap (fun r =>
          if truthy_str (ParseEvent.r_content r)
             && negb (truthy_str (ParseEvent.r_error r))
          then Some {| filename := ParseEvent.r_filename r;
                       cf_content := default "" (ParseEvent.r_content r);
                       was_parsed := ParseEvent.r_parsed r |}
          else None) rs.

Definition handleParseFiles_event (event : ParseEvent.t)
    (pr : Page * ParseRun) : Page * ParseRun :=
  let (p, run) := pr in
  let p1 :=
    match ParseEvent.type event, ParseEvent.current event,
          ParseEvent.total event with
    | ParseEvent.progress, Some cur, Some tot =>
        if truthy_str (ParseEvent.filename event)
           && truthy_str (ParseEvent.status event)
        then
          setParseProgress
            (Some {| current := cur; total := tot;
                     pp_filename := default "" (ParseEvent.filename event);
                     pp_status := default "" (ParseEvent.status event);
                     pp_error := ParseEvent.error event |}) p
        else p
    | _, _, _ => p
    end in
  let run1 :=
    match ParseEvent.type event, ParseEvent.results event with
    | ParseEvent.complete, Some rs =>
        {| currentUserSessionId := currentUserSessionId run;
           results := (results run ++ kept_results rs)%list |}
    | _, _ => run
    end in
  (p1, run1).

Definition handleParseFiles_finally (p : Page) : Page :=
  setParseProgress None (setIsUploadingContext false p).

Definition handleParseFiles_end (run : ParseRun) (p : Page) : Page :=
  handleParseFiles_finally
    (setContextFiles (contextFiles p ++ results run)%list p).

Definition handleParseFiles_catch (e : Thrown) (s : Stamp) (p : Page) : Page :=
  handleParseFiles_finally
    (setMessages
       (messages p
          ++ [createMessage s Role.system
                ("Error parsing files: " +:+ error_message e) None])%list p).

(** ** The loop of [handleSendMessage] *)

Section Orchestrator.

(** [hexToBytes] of [@/lib/api] is not among the sources; it is a
    parameter of the page. *)
Variable hexToBytes : string -> Uint8Array.

(** One iteration of the [for await] loop, for an event that arrives with
    the stamp [createLogEntry] draws. *)
Definition handleSendMessage_event (s : Stamp) (event : StreamEvent.t)
    (ct : Client * Turn) : Client * Turn :=
  let (c, t) := ct in
  let logEntry := createLogEntry s event in
  let c1 := on_page (fold_log (assistantMessage_id t) logEntry) c in
  let t1 :=
    match StreamEvent.type event with
    | EventType.complete => assign_complete event t
    | _ => t
    end in
  let (c2, t2) :=
    match StreamEvent.type event with
    | EventType.pdf_ready =>
        if truthy_str (StreamEvent.pdf_bytes event)
        then
          let bytes := hexToBytes (default "" (StreamEvent.pdf_bytes event)) in
          (on_page (fun q =>
             setPdfDisplayMode filled (setFilledPdfBytes (Some bytes) q)) c1,
           assign_pdf bytes t1)
        else (c1, t1)
    | _ => (c1, t1)
    end in
  let t3 :=
    match StreamEvent.type event with
    | EventType.error => assign_error event t2
    | _ => t2
    end in
  (c2, t3).

(** The loop over the events that arrive before the stream ends. *)
Definition handleSendMessage_loop (arrivals : list (Stamp * StreamEvent.t))
    (ct : Client * Turn) : Client * Turn :=
  foldl (fun acc a => handleSendMessage_event (fst a) (snd a) acc)
    ct arrivals.

Definition handleSendMessage_finish (fin : StreamEnd) (ct : Client * Turn)
    : Client :=
  match fin with
  | Closed => handleSendMessage_end (snd ct) (fst ct)
  | Failed e s => handleSendMessage_catch e s (snd ct) (fst ct)
  end.

(** A whole call of [handleSendMessage]: the instruction, the stamps of
    the two messages, the events that arrive and how the stream ends. *)
Definition handleSendMessage (content : string) (su sa : Stamp)
    (arrivals : list (Stamp * StreamEvent.t)) (fin : StreamEnd)
    (c : Client) : Client :=
  match handleSendMessage_start content su sa c with
  | (c1, None) => c1
  | (c1, Some t) =>
      handleSendMessage_finish fin (handleSendMessage_loop arrivals (c1, t))
  end.

(** One iteration of the loop for an event whose updater stays queued;
    [late] is the status message the queued updaters will set. *)
Definition handleSendMessage_event_queued (s : Stamp)
    (event : StreamEvent.t) (st : Client * Turn * option string)
    : Client * Turn * option string :=
  let '(c, t, late) := st in
  let logEntry := createLogEntry s event in
  let c1 := on_page (queue_log (assistantMessage_id t) logEntry) c in
  let late1 :=
    match nested_status (assistantMessage_id t) logEntry (page c) with
    | Some content => Some content
    | None => late
    end in
  let t1 :=
    match StreamEvent.type event with
    | EventType.complete => assign_complete event t
    | _ => t
    end in
  let (c2, t2) :=
    match StreamEvent.type event with
    | EventType.pdf_ready =>
        if truthy_str (StreamEvent.pdf_bytes event)
        then
          let bytes := hexToBytes (default "" (StreamEvent.pdf_bytes event)) in
          (on_page (fun q =>
             setPdfDisplayMode filled (setFilledPdfBytes (Some bytes) q)) c1,
           assign_pdf bytes t1)
        else (c1, t1)
    | _ => (c1, t1)
    end in
  let t3 :=
    match StreamEvent.type event with
    | EventType.error => assign_error event t2
    | _ => t2
    end in
  (c2, t3, late1).

Definition handleSendMessage_loop_queued
    (arrivals : list (Stamp * StreamEvent.t))
    (st : Client * Turn * option string) : Client * Turn * option string :=
  foldl (fun acc a => handleSendMessage_event_queued (fst a) (snd a) acc)
    st arrivals.

(** A whole call of [handleSendMessage] by the time at which React runs
    the updaters of the loop.  The updaters of the events [timely] have
    run before the handler went on.  Those of the events [queued], which
    arrive after them, are still queued when the stream ends, as when
    these events and the end of the stream arrive together; they run at
    the render that follows the handler. *)
Definition handleSendMessage_late (content : string) (su sa : Stamp)
    (timely queued : list (Stamp * StreamEvent.t)) (fin : StreamEnd)
    (c : Client) : Client :=
  match handleSendMessage_start content su sa c with
  | (c1, None) => c1
  | (c1, Some t) =>
      let '(c2, t2, late) :=
        handleSendMessage_loop_queued queued
          (handleSendMessage_loop timely (c1, t), None) in
      render late (handleSendMessage_finish fin (c2, t2))
  end.

(** ** The chat panel and the running application *)

(** The page with the input of the chat panel and the handler calls that
    are suspended at an [await]: the turns, the parses, and the number of
    calls of [handleFileSelect] that wait for [analyzePdf]. *)
Record App : Type := {
  client : Client;
  input : string;
  turns : list Turn;
  parses : list ParseRun;
  analyses : nat;
}.

(** The [disabled] the page passes to the chat panel. *)
Definition chat_disabled (p : Page) : bool :=
  negb (truthy_obj (file p)) || (length (fields p) =? 0)%nat.

(** The condition of [handleSubmit]. *)
Definition submit_accepted (a : App) : bool :=
  negb (String.eqb (trim (input a)) "")
  && negb (isProcessing (page (client a)))
  && negb (chat_disabled (page (client a))).

(** [handleSubmit]: [onSendMessage(input.trim())] runs up to its first
    [await], then [setInput('')]. *)
Definition handleSubmit (su sa : Stamp) (a : App) : App :=
  if submit_accepted a then
    let (c1, started) :=
      handleSendMessage_start (trim (input a)) su sa (client a) in
    {| client := c1; input := "";
       turns := (turns a ++ option_list started)%list;
       parses := parses a; analyses := analyses a |}
  else a.

Definition with_client (c : Client) (a : App) : App :=
  {| client := c; input := input a; turns := turns a; parses := parses a;
     analyses := analyses a |}.

Definition with_page (f : Page -> Page) (a : App) : App :=
  with_client (on_page f (client a)) a.

(** What can happen to the mounted application: user actions, and the
    resumption of a suspended handler by the environment. *)
Inductive Action : Type :=
  | SetInput (s : string)
  | Submit (su sa : Stamp)
  | Arrive (i : nat) (s : Stamp) (event : StreamEvent.t)
  | Close (i : nat)
  | Fail (i : nat) (e : Thrown) (s : Stamp)
  | Reset
  | Upload (f : File)
  | Analysis (r : AnalyzeOutcome) (s : Stamp)
  | Restored (filledBytes originalBytes : Settled (option Uint8Array))
      (contextFilesData : Settled (option (list ContextFile)))
  | ChangeDisplayMode (m : PdfDisplayMode)
  | ChangeContextFiles (l : list ContextFile)
  | ParseStart (s : Stamp)
  | ParseArrive (i : nat) (event : ParseEvent.t)
  | ParseClose (i : nat)
  | ParseFail (i : nat) (e : Thrown) (s : Stamp).

(** The upload widget is rendered while the page has no document and
    is disabled while a turn is processed. *)
Definition upload_enabled (p : Page) : bool :=
  negb (truthy_obj (file p)) && negb (truthy_obj (originalPdfBytes p))
  && negb (truthy_obj (filledPdfBytes p)) && negb (isProcessing p).

(** One action.  An upload leaves one more call of [handleFileSelect]
    waiting for its analysis, and an analysis result resumes one of the
    waiting calls, whatever the page shows by then.  React renders between
    two actions, so that the updaters an action has queued have run when
    the next one happens; the turns whose stream ends before that are
    those of [handleSendMessage_late]. *)
Definition step (act : Action) (a : App) : App :=
  match act with
  | SetInput s =>
      {| client := client a; input := s; turns := turns a;
         parses := parses a; analyses := analyses a |}
  | Submit su sa => handleSubmit su sa a
  | Arrive i s event =>
      match turns a !! i with
      | Some t =>
          let (c1, t1) := handleSendMessage_event s event (client a, t) in
          {| client := c1; input := input a; turns := <[i := t1]> (turns a);
             parses := parses a; analyses := analyses a |}
      | None => a
      end
  | Close i =>
      match turns a !! i with
      | Some t =>
          {| client := handleSendMessage_end t (client a); input := input a;
             turns := delete i (turns a); parses := parses a;
             analyses := analyses a |}
      | None => a
      end
  | Fail i e s =>
      match turns a !! i with
      | Some t =>
          {| client := handleSendMessage_catch e s t (client a);
             input := input a; turns := delete i (turns a);
             parses := parses a; analyses := analyses a |}
      | None => a
      end
  | Reset => with_page handleReset a
  | Upload f =>
      if upload_enabled (page (client a))
      then
        {| client := on_page (handleFileSelect_start (Some f)) (client a);
           input := input a; turns := turns a; parses := parses a;
           analyses := S (analyses a) |}
      else a
  | Analysis r s =>
      match analyses a with
      | S waiting =>
          {| client := on_page (handleFileSelect_end r s) (client a);
             input := input a; turns := turns a; parses := parses a;
             analyses := waiting |}
      | O => a
      end
  | Restored fb ob cf => with_page (restore_fetched fb ob cf) a
  | ChangeDisplayMode m => with_page (setPdfDisplayMode m) a
  | ChangeContextFiles l => with_page (setContextFiles l) a
  | ParseStart s =>
      let (p1, run) := handleParseFiles_start s (page (client a)) in
      {| client := on_page (fun _ => p1) (client a); input := input a;
         turns := turns a; parses := (parses a ++ [run])%list;
         analyses := analyses a |}
  | ParseArrive i event =>
      match parses a !! i with
      | Some run =>
          let (p1, run1) :=
            handleParseFiles_event event (page (client a), run) in
          {| client := on_page (fun _ => p1) (client a); input := input a;
             turns := turns a; parses := <[i := run1]> (parses a);
             analyses := analyses a |}
      | None => a
      end
  | ParseClose i =>
      match parses a !! i with
      | Some run =>
          {| client := on_page (handleParseFiles_end run) (client a);
             input := input a; turns := turns a;
             parses := delete i (parses a); analyses := analyses a |}
      | None => a
      end
  | ParseFail i e s =>
      match parses a !! i with
      | Some _ =>
          {| client := on_page (handleParseFiles_catch e s) (client a);
             input := input a; turns := turns a;
             parses := delete i (parses a); analyses := analyses a |}
      | None => a
      end
  end.

(** The application right after the mount effect has run. *)
Definition mounted (url : option string) (stored : option StoredSession)
    (created : string) : App :=
  {| client := {| page := mount url stored created initial_page;
                  saved := []; opened := [] |};
     input := ""; turns := []; parses := []; analyses := 0 |}.

(** The states the application can be in. *)
Inductive reachable : App -> Prop :=
  | reachable_mounted url stored created :
      reachable (mounted url stored created)
  | reachable_step act a :
      reachable a -> reachable (step act a).

(** ** Definitions the statements use *)

(** Whether a string contains two consecutive stars. *)
Fixpoint has_double_star (s : string) : bool :=
  match s with
  | String c rest =>
      match rest with
      | String c2 _ =>
          (Ascii.eqb c "*" && Ascii.eqb c2 "*") || has_double_star rest
      | EmptyString => false
      end
  | EmptyString => false
  end.

Definition is_complete (event : StreamEvent.t) : bool :=
  match StreamEvent.type event with
  | EventType.complete => true
  | _ => false
  end.

(** What the [complete] events of a stream report for one member: the
    value of the last of them that carries one. *)
Definition reported {A : Type} (get : StreamEvent.t -> option A)
    (arrivals : list (Stamp * StreamEvent.t)) : option A :=
  last (omap (fun a => if is_complete (snd a) then get (snd a) else None)
          arrivals).

Definition reported_edits := reported StreamEvent.applied_edits.
Definition reported_agentSessionId :=
  reported (fun event => keep_truthy (StreamEvent.session_id event)).
Definition reported_userSessionId :=
  reported (fun event => keep_truthy (StreamEvent.user_session_id event)).

(** The document of the last [pdf_ready] event that carries bytes. *)
Definition decoded_pdf (arrivals : list (Stamp * StreamEvent.t))
    : option Uint8Array :=
  last (omap (fun a =>
                match StreamEvent.type (snd a) with
                | EventType.pdf_ready =>
                    if truthy_str (StreamEvent.pdf_bytes (snd a))
                    then Some (hexToBytes
                                 (default "" (StreamEvent.pdf_bytes (snd a))))
                    else None
                | _ => None
                end) arrivals).

(** The log entries of the events of a stream, in order. *)
Definition turn_log (arrivals : list (Stamp * StreamEvent.t))
    : list AgentLogEntry.t :=
  omap (fun a => createLogEntry (fst a) (snd a)) arrivals.

Definition is_error_entry (e : AgentLogEntry.t) : bool :=
  LogType.eqb (AgentLogEntry.type e) LogType.error.

Definition error_entries (l : list AgentLogEntry.t) : nat :=
  length (List.filter is_error_entry l).

(** The message a turn finalizes: the last of the list. *)
Definition placeholder (c : Client) : option ChatMessage.t :=
  last (messages (page c)).

(** What an event of a turn leaves as it is on the page. *)
Definition kept_by_events (p p' : Page) : Prop :=
  sessionId p' = sessionId p /\ file p' = file p /\ fields p' = fields p
  /\ originalPdfBytes p' = originalPdfBytes p
  /\ isAnalyzing p' = isAnalyzing p /\ isProcessing p' = isProcessing p
  /\ appliedEdits p' = appliedEdits p
  /\ agentSessionId p' = agentSessionId p
  /\ userSessionId p' = userSessionId p
  /\ contextFiles p' = contextFiles p.

(** [a || d] on nullable objects. *)
Definition or_obj {A : Type} (o d : option A) : option A :=
  match o with
  | Some x => Some x
  | None => d
  end.

Definition is_error_event (a : Stamp * StreamEvent.t) : bool :=
  match StreamEvent.type (snd a) with
  | EventType.error => true
  | _ => false
  end.

(** The number of [error] events of a stream. *)
Definition error_events (arrivals : list (Stamp * StreamEvent.t)) : nat :=
  length (List.filter is_error_event arrivals).

(** The keys of the applied edits; [null] has none. *)
Definition edit_keys (o : option Edits) : gset string :=
  match o with
  | Some m => dom m
  | None => ∅
  end.

(** What the handlers other than the end of a turn, the start of a parse
    and the selection of a file leave as it is. *)
Definition same_session (p p' : Page) : Prop :=
  sessionId p' = sessionId p /\ agentSessionId p' = agentSessionId p
  /\ userSessionId p' = userSessionId p /\ isProcessing p' = isProcessing p.

(** What holds of every state the application reaches: at most one turn
    is suspended, [isProcessing] is true exactly while one is, and an
    agent session id that is held or collected is not the empty string. *)
Definition well_formed (a : App) : Prop :=
  match turns a with
  | [] => isProcessing (page (client a)) = false
  | [t] =>
      isProcessing (page (client a)) = true
      /\ keep_truthy (newAgentSessionId t) = newAgentSessionId t
  | _ :: _ :: _ => False
  end
  /\ keep_truthy (agentSessionId (page (client a)))
     = agentSessionId (page (client a)).

(** ** Sample data for the concrete runs *)

Definition stamp (i : string) : Stamp := {| fresh_id := i; now := 0 |}.

Definition no_decoder : string -> Uint8Array := fun _ => [].

Definition sample_file : File :=
  {| file_name := "form.pdf"; file_bytes := [] |}.

Definition sample_field : FormField.t :=
  {| FormField.field_id := "name";
     FormField.field_type := FieldType.text;
     FormField.page := 1;
     FormField.label_context := "Name";
     FormField.current_value := None;
     FormField.options := None |}.

(** A page with a file and its fields loaded, and nothing else yet. *)
Definition sample_client : Client :=
  {| page := setFields [sample_field]
               (setFile (Some sample_file) (setSessionId "s1" initial_page));
     saved := []; opened := [] |}.

Definition error_event (msg : string) : StreamEvent.t :=
  {| StreamEvent.type := EventType.error;
     StreamEvent.message := None;
     StreamEvent.error := Some msg;
     StreamEvent.text := None;
     StreamEvent.friendly := None;
     StreamEvent.applied_count := None;
     StreamEvent.applied_edits := None;
     StreamEvent.session_id := None;
     StreamEvent.user_session_id := None;
     StreamEvent.pdf_bytes := None |}.


Definition complete_event (count : Z) (edits : option Edits)
    (session user_session : option string) : StreamEvent.t :=
  {| StreamEvent.type := EventType.complete;
     StreamEvent.message := None;
     StreamEvent.error := None;
     StreamEvent.text := None;
     StreamEvent.friendly := None;
     StreamEvent.applied_count := Some count;
     StreamEvent.applied_edits := edits;
     StreamEvent.session_id := session;
     StreamEvent.user_session_id := user_session;
     StreamEvent.pdf_bytes := None |}.

Definition name_edit : Edits := {[ "name" := JsString "John Doe" ]}.
Definition date_edit : Edits := {[ "date" := JsString "today" ]}.

(** The application with a file uploaded and analysed. *)
Definition app_loaded : App :=
  step (Analysis (Analyzed [sample_field] 1) (stamp "m1"))
    (step (Upload sample_file) (mounted None None "s1")).

(** Then with a first instruction submitted: a turn is in flight. *)
Definition app_in_flight : App :=
  step (Submit (stamp "u1") (stamp "a1"))
    (step (SetInput "My name is John Doe") app_loaded).

(** Then with that turn completed by an event that reports one edit and
    the agent session "abc", and no document. *)
Definition app_after_turn : App :=
  step (Close 0)
    (step (Arrive 0 (stamp "e1")
             (complete_event 1 (Some name_edit) (Some "abc") None))
       app_in_flight).

Definition pdf_ready_event (hex : string) : StreamEvent.t :=
  {| StreamEvent.type := EventType.pdf_ready;
     StreamEvent.message := None;
     StreamEvent.error := None;
     StreamEvent.text := None;
     StreamEvent.friendly := None;
     StreamEvent.applied_count := None;
     StreamEvent.applied_edits := None;
     StreamEvent.session_id := None;
     StreamEvent.user_session_id := None;
     StreamEvent.pdf_bytes := Some hex |}.

(** The same first turn when a filled document arrives as well. *)
Definition app_with_document : App :=
  step (Close 0)
    (step (Arrive 0 (stamp "e2") (pdf_ready_event "255044462d"))
       (step (Arrive 0 (stamp "e1")
                (complete_event 1 (Some name_edit) (Some "abc") None))
          app_in_flight)).


(** ** Definitions for the further properties *)

(** A whole call of [handleParseFiles]: the events that arrive and how the
    stream ends. *)
Inductive ParseEnd : Type :=
  | ParseClosed
  | ParseFailed (e : Thrown) (s : Stamp).

Definition handleParseFiles_loop (events : list ParseEvent.t)
    (pr : Page * ParseRun) : Page * ParseRun :=
  foldl (fun acc event => handleParseFiles_event event acc) pr events.

Definition handleParseFiles (s : Stamp) (events : list ParseEvent.t)
    (fin : ParseEnd) (p : Page) : Page :=
  let pr := handleParseFiles_loop events (handleParseFiles_start s p) in
  match fin with
  | ParseClosed => handleParseFiles_end (snd pr) (fst pr)
  | ParseFailed e s' => handleParseFiles_catch e s' (fst pr)
  end.

(** The application after a sequence of actions. *)
Definition run (acts : list Action) (a : App) : App :=
  foldl (fun acc act => step act acc) a acts.

(** A message as it is later: the same id, role and timestamp, and a log
    that has the earlier one as a prefix. *)
Definition message_grows (m m' : ChatMessage.t) : Prop :=
  ChatMessage.id m' = ChatMessage.id m
  /\ ChatMessage.role m' = ChatMessage.role m
  /\ ChatMessage.timestamp m' = ChatMessage.timestamp m
  /\ default [] (ChatMessage.agentLog m)
     `prefix_of` default [] (ChatMessage.agentLog m').

(** A list of messages as it is later: the same messages, each grown, in
    the same order, then the added ones. *)
Definition messages_grow (l l' : list ChatMessage.t) : Prop :=
  exists kept added,
    l' = (kept ++ added)%list /\ Forall2 message_grows l kept.

(** The events that assign the final content. *)
Definition is_terminal (a : Stamp * StreamEvent.t) : bool :=
  match StreamEvent.type (snd a) with
  | EventType.complete | EventType.error => true
  | _ => false
  end.

(** The content a [complete] event assigns: [n] is its count and [edits]
    the applied edits collected up to it. *)
Definition complete_content (continuation : bool) (n : Z)
    (edits : option Edits) : string :=
  let k :=
    match edits with
    | Some m => Z.of_nat (size m)
    | None => n
    end in
  if continuation
  then "Updated " +:+ pretty n +:+ " fields. Total: "
         +:+ pretty k +:+ " fields filled."
  else "Successfully filled " +:+ pretty n +:+ " form fields.".

(** The content a turn is finalized with when its stream closes: the one
    of the last [complete] or [error] event, by whether the turn is a
    continuation. *)
Definition closing_content (continuation : bool)
    (arrivals : list (Stamp * StreamEvent.t)) : string :=
  match last (List.filter is_terminal arrivals) with
  | None => "Filled 0 fields."
  | Some a =>
      match StreamEvent.type (snd a) with
      | EventType.complete =>
          complete_content continuation
            (or_num (StreamEvent.applied_count (snd a)) 0)
            (reported_edits arrivals)
      | _ => or_str (StreamEvent.error (snd a)) "An error occurred"
      end
  end.

(** A message with the entries appended to its log. *)
Definition extend_log (entries : list AgentLogEntry.t) (m : ChatMessage.t)
    : ChatMessage.t :=
  match entries with
  | [] => m
  | _ :: _ =>
      with_agentLog
        (Some (default [] (ChatMessage.agentLog m) ++ entries)%list) m
  end.

(** The placeholder of a turn as the turn leaves it. *)
Definition finalized (sa : Stamp) (continuation : bool)
    (arrivals : list (Stamp * StreamEvent.t)) (fin : StreamEnd)
    : ChatMessage.t :=
  match fin with
  | Closed =>
      {| ChatMessage.id := fresh_id sa;
         ChatMessage.role := Role.assistant;
         ChatMessage.content := closing_content continuation arrivals;
         ChatMessage.timestamp := now sa;
         ChatMessage.status := Some Status.complete;
         ChatMessage.agentLog := Some (turn_log arrivals) |}
  | Failed e s =>
      {| ChatMessage.id := fresh_id sa;
         ChatMessage.role := Role.assistant;
         ChatMessage.content := "Error: " +:+ error_message e;
         ChatMessage.timestamp := now sa;
         ChatMessage.status := Some Status.error;
         ChatMessage.agentLog :=
           Some (turn_log arrivals
                   ++ [log_entry s LogType.error (error_message e) None])%list |}
  end.


(** The context files the [complete] events of a parse stream yield, in
    order. *)
Definition parsed_files (events : list ParseEvent.t) : list ContextFile :=
  concat
    ((fun event =>
        match ParseEvent.type event, ParseEvent.results event with
        | ParseEvent.complete, Some rs => kept_results rs
        | _, _ => []
        end) <$> events).

(** The left panel renders its "New Form" button only with a file. *)
Definition reset_offered (p : Page) : bool := truthy_obj (file p).


(** Whether an event makes a log entry. *)
Definition makes_entry (event : StreamEvent.t) : bool :=
  match StreamEvent.type event with
  | EventType.init | EventType.status | EventType.complete
  | EventType.error | EventType.pdf_ready => true
  | EventType.tool_use | EventType.user =>
      match StreamEvent.friendly event with
      | Some (_ :: _) => true
      | _ => false
      end
  | EventType.assistant => truthy_str (StreamEvent.text event)
  | EventType.other _ => false
  end.

(** The kind of the entry an event of a type makes. *)
Definition entry_kind (ty : EventType.t) : option LogType.t :=
  match ty with
  | EventType.init | EventType.status => Some LogType.status
  | EventType.tool_use => Some LogType.tool_call
  | EventType.user => Some LogType.tool_result
  | EventType.assistant => Some LogType.thinking
  | EventType.complete | EventType.pdf_ready => Some LogType.complete
  | EventType.error => Some LogType.error
  | EventType.other _ => None
  end.

(** A string without its asterisks. *)
Fixpoint without_stars (s : string) : string :=
  match s with
  | String c rest =>
      if Ascii.eqb c "*" then without_stars rest
      else String c (without_stars rest)
  | EmptyString => EmptyString
  end.


(** The snapshot the handler of a turn saves when its stream closes with a
    user session id. *)
Definition turn_save (t : Turn) : SaveCall :=
  {| saved_session :=
       {| Session.id := sessionId (captured t);
          Session.originalPdf := file (captured t);
          Session.filledPdfBytes :=
            or_obj (newFilledPdfBytes t) (filledPdfBytes (captured t));
          Session.fields := fields (captured t);
          Session.messages := messages (captured t);
          Session.isProcessing := false |};
     saved_userSessionId := newUserSessionId t |}.

(** What holds of the traces of a session mounted under the id [sid]. *)
Definition keyed_by (sid : string) (a : App) : Prop :=
  sessionId (page (client a)) = sid
  /\ Forall (fun t => sessionId (captured t) = sid) (turns a)
  /\ Forall (fun call =>
               Session.id (saved_session call) = sid
               /\ Session.isProcessing (saved_session call) = false
               /\ truthy_str (saved_userSessionId call) = true)
       (saved (client a)).


(** ** The message list: the [ChatMessage] and [AgentActivityLog] components *)

(** What [AgentActivityLog] shows: in its header the spinner, the icon of
    the latest entry, the status line and the count of steps; under it the
    entries, when it is expanded. *)
Record ActivityLog : Type := {
  spinner : bool;
  icon : option LogType.t;
  displayStatus : string;
  steps : option string;
  rows : list AgentLogEntry.t;
}.

(** The component; [isExpanded] is its own state, toggled by a click on
    the header.  [None] is the [null] it returns. *)
Definition AgentActivityLog (entries : list AgentLogEntry.t)
    (currentStatus : option string) (isStreaming isExpanded : bool)
    : option ActivityLog :=
  if (length entries =? 0)%nat && negb isStreaming then None
  else
    let latestEntry := last entries in
    Some {| spinner := isStreaming;
            icon := if isStreaming then None
                    else AgentLogEntry.type <$> latestEntry;
            displayStatus :=
              or_str (or_obj (keep_truthy currentStatus)
                        (AgentLogEntry.content <$> latestEntry))
                "Processing...";
            steps :=
              if (0 <? length entries)%nat
              then Some (pretty (length entries) +:+ " "
                           +:+ (if (length entries =? 1)%nat
                                then "step" else "steps"))
              else None;
            rows := if isExpanded then entries else [] |}.

(** What [ChatMessage] shows for a message of the assistant: the activity
    log, the bubble of the response and the block of the error. *)
Record AssistantBlock : Type := {
  activity : option ActivityLog;
  response : option string;
  error_block : option string;
}.

Inductive Rendered : Type :=
  | SystemPill (content : string)
  | UserBubble (content : string)
  | AssistantMessage (b : AssistantBlock).

(** The component [ChatMessage]; [isExpanded] is the state of the
    activity log under it. *)
Definition ChatMessage_render (isExpanded : bool) (message : ChatMessage.t)
    : Rendered :=
  let isUser :=
    match ChatMessage.role message with Role.user => true | _ => false end in
  let isSystem :=
    match ChatMessage.role message with Role.system => true | _ => false end in
  let isStreaming :=
    match ChatMessage.status message with
    | Some Status.streaming => true
    | _ => false
    end in
  let hasAgentLog :=
    match ChatMessage.agentLog message with
    | Some l => (0 <? length l)%nat
    | None => false
    end in
  if isSystem then SystemPill (ChatMessage.content message)
  else if isUser then UserBubble (ChatMessage.content message)
  else
    AssistantMessage
      {| activity :=
           if hasAgentLog || isStreaming
           then AgentActivityLog
                  (default [] (ChatMessage.agentLog message))
                  (if isStreaming then Some "Processing your request..."
                   else None)
                  isStreaming isExpanded
           else None;
         response :=
           if negb (String.eqb (ChatMessage.content message) "")
              && negb isStreaming
           then Some (ChatMessage.content message) else None;
         error_block :=
           match ChatMessage.status message with
           | Some Status.error => Some (ChatMessage.content message)
           | _ => None
           end |}.

(** The status line of an activity log is never empty. *)
Definition status_line_shown (b : AssistantBlock) : Prop :=
  match activity b with
  | Some v => displayStatus v <> ""
  | None => True
  end.


(** ** The preview: the [PdfViewer] component *)







(** [s] without its first [n] characters. *)
Fixpoint skip (n : nat) (s : string) : string :=
  match n, s with
  | O, _ => s
  | S n', String _ rest => skip n' rest
  | S _, EmptyString => EmptyString
  end.

(** [s.replace(pattern, replacement)] for a pattern that is a string and a
    replacement without [$]: the first occurrence is replaced. *)
Fixpoint replace_first (pattern replacement s : string) : string :=
  if String.prefix pattern s
  then replacement +:+ skip (String.length pattern) s
  else
    match s with
    | EmptyString => EmptyString
    | String c rest => String c (replace_first pattern replacement rest)
    end.

(** [handleDownload]: the arguments of [downloadPdf], when it is called. *)
Definition handleDownload (originalFile : option File)
    (filledPdfBytes : option Uint8Array) : option (Uint8Array * string) :=
  match filledPdfBytes with
  | Some b =>
      let filename :=
        match originalFile with
        | Some f => replace_first ".pdf" "_filled.pdf" (file_name f)
        | None => "filled_form.pdf"
        end in
      Some (b, filename)
  | None => None
  end.

(** Whether [pattern] occurs in [s]. *)
Fixpoint occurs (pattern s : string) : bool :=
  String.prefix pattern s
  || match s with
     | EmptyString => false
     | String _ rest => occurs pattern rest
     end.


(** ** The context files: the [ContextFilesUpload] component *)

(** The state of the component; the parse mode, which only travels with
    the request, is left out.  Its props [files], [isUploading],
    [disabled] and [maxFiles] are arguments of the handlers. *)
Record ContextUpload : Type := {
  isDragging : bool;
  pendingFiles : list File;
}.

Definition setIsDragging (v : bool) (u : ContextUpload) : ContextUpload :=
  {| isDragging := v; pendingFiles := pendingFiles u |}.

Definition setPendingFiles (v : list File) (u : ContextUpload)
    : ContextUpload :=
  {| isDragging := isDragging u; pendingFiles := v |}.

(** What [handleDrop] and [handleFileChange] do with the files they
    received. *)
Definition add_pending (maxFiles : Z) (files : list ContextFile)
    (received : list File) (u : ContextUpload) : ContextUpload :=
  let currentCount :=
    Z.of_nat (length files) + Z.of_nat (length (pendingFiles u)) in
  let remainingSlots := maxFiles - currentCount in
  if remainingSlots <=? 0 then u
  else
    let newFiles := take (Z.to_nat remainingSlots) received in
    setPendingFiles (pendingFiles u ++ newFiles)%list u.

Definition handleDrop (disabled isUploading : bool) (maxFiles : Z)
    (files : list ContextFile) (droppedFiles : list File)
    (u : ContextUpload) : ContextUpload :=
  let u1 := setIsDragging false u in
  if disabled || isUploading then u1
  else add_pending maxFiles files droppedFiles u1.

Definition handleFileChange (maxFiles : Z) (files : list ContextFile)
    (selectedFiles : list File) (u : ContextUpload) : ContextUpload :=
  if (length selectedFiles =? 0)%nat then u
  else add_pending maxFiles files selectedFiles u.

(** [l.filter((_, i) => keep(i))], with [i] counted from [start]. *)
Fixpoint filter_index {A : Type} (keep : nat -> bool) (start : nat)
    (l : list A) : list A :=
  match l with
  | [] => []
  | x :: rest =>
      if keep start then x :: filter_index keep (S start) rest
      else filter_index keep (S start) rest
  end.

Definition handleRemovePending (index : nat) (u : ContextUpload)
    : ContextUpload :=
  setPendingFiles
    (filter_index (fun i => negb (i =? index)%nat) 0 (pendingFiles u)) u.

(** [handleRemoveUploaded]: the argument of [onFilesChange]. *)
Definition handleRemoveUploaded (index : nat) (files : list ContextFile)
    : list ContextFile :=
  filter_index (fun i => negb (i =? index)%nat) 0 files.

(** [totalCount]. *)
Definition totalCount (files : list ContextFile) (u : ContextUpload) : Z :=
  Z.of_nat (length files) + Z.of_nat (length (pendingFiles u)).

(** ** The gate: the [ApiKeyGate] component *)

Record Gate : Type := {
  apiKey : string;
  isValidating : bool;
  gate_error : option string;
  isValidated : bool;
  isCheckingStored : bool;
}.

(** How a call of [validateApiKey] ends. *)
Inductive Validation : Type :=
  | KeyAccepted
  | KeyRejected (e : Thrown).

(** The component with the item of [localStorage] under
    ['llama-cloud-api-key'], the calls of [validateApiKey] with how they
    ended, and the calls of [onApiKeyValidated], the latest last. *)
Record GateClient : Type := {
  gate : Gate;
  storedKey : option string;
  asked : list (string * Validation);
  validated : list string;
}.

(** The mount effect, with the outcome of the validation it may ask
    for. *)
Definition gate_mount (storedKey : option string) (outcome : Validation)
    : GateClient :=
  if truthy_str storedKey then
    let key := default "" storedKey in
    match outcome with
    | KeyAccepted =>
        {| gate := {| apiKey := ""; isValidating := false;
                      gate_error := None; isValidated := true;
                      isCheckingStored := false |};
           storedKey := storedKey;
           asked := [(key, outcome)];
           validated := [key] |}
    | KeyRejected _ =>
        {| gate := {| apiKey := ""; isValidating := false;
                      gate_error := None; isValidated := false;
                      isCheckingStored := false |};
           storedKey := None;
           asked := [(key, outcome)];
           validated := [] |}
    end
  else
    {| gate := {| apiKey := ""; isValidating := false; gate_error := None;
                  isValidated := false; isCheckingStored := false |};
       storedKey := storedKey;
       asked := [];
       validated := [] |}.

(** [handleSubmit] of the gate, with the outcome of the validation it may
    ask for. *)
Definition gate_handleSubmit (outcome : Validation) (g : GateClient)
    : GateClient :=
  let key := trim (apiKey (gate g)) in
  if String.eqb key "" then
    {| gate := {| apiKey := apiKey (gate g);
                  isValidating := isValidating (gate g);
                  gate_error := Some "Please enter an API key";
                  isValidated := isValidated (gate g);
                  isCheckingStored := isCheckingStored (gate g) |};
       storedKey := storedKey g; asked := asked g;
       validated := validated g |}
  else
    match outcome with
    | KeyAccepted =>
        {| gate := {| apiKey := apiKey (gate g); isValidating := false;
                      gate_error := None; isValidated := true;
                      isCheckingStored := isCheckingStored (gate g) |};
           storedKey := Some key;
           asked := (asked g ++ [(key, outcome)])%list;
           validated := (validated g ++ [key])%list |}
    | KeyRejected err =>
        {| gate := {| apiKey := apiKey (gate g); isValidating := false;
                      gate_error :=
                        Some (match err with
                              | ErrorObject m => m
                              | OtherValue => "Failed to validate API key"
                              end);
                      isValidated := isValidated (gate g);
                      isCheckingStored := isCheckingStored (gate g) |};
           storedKey := storedKey g;
           asked := (asked g ++ [(key, outcome)])%list;
           validated := validated g |}
    end.

(** What the user can do at the gate: type in the input, and submit the
    form, which is rendered while the key is not validated. *)
Inductive GateAction : Type :=
  | TypeKey (value : string)
  | SubmitKey (outcome : Validation).

Definition gate_step (act : GateAction) (g : GateClient) : GateClient :=
  if isCheckingStored (gate g) || isValidated (gate g) then g
  else
    match act with
    | TypeKey value =>
        {| gate := {| apiKey := value;
                      isValidating := isValidating (gate g);
                      gate_error := gate_error (gate g);
                      isValidated := isValidated (gate g);
                      isCheckingStored := isCheckingStored (gate g) |};
           storedKey := storedKey g; asked := asked g;
           validated := validated g |}
    | SubmitKey outcome => gate_handleSubmit outcome g
    end.

Definition gate_run (acts : list GateAction) (g : GateClient) : GateClient :=
  foldl (fun acc act => gate_step act acc) g acts.

(** The gate is shut with no usable key stored, or open with the one key
    it reported, which was accepted and is the stored one. *)
Definition gate_settled (g : GateClient) : Prop :=
  isCheckingStored (gate g) = false /\ isValidating (gate g) = false
  /\ Forall (fun q => fst q <> "") (asked g)
  /\ match validated g with
     | [] => isValidated (gate g) = false /\ truthy_str (storedKey g) = false
     | [key] =>
         isValidated (gate g) = true /\ storedKey g = Some key
         /\ key <> "" /\ (key, KeyAccepted) ∈ asked g
     | _ => False
     end.


(** ** More sample data *)


(** A stream that reports one edit and delivers a document. *)
Definition sample_arrivals : list (Stamp * StreamEvent.t) :=
  [(stamp "e1", complete_event 1 (Some name_edit) (Some "abc") None);
   (stamp "e2", pdf_ready_event "255044462d")].


(** ** Definitions for the end of a turn *)

(** A client whatever its status message. *)
Definition forget_status (c : Client) : Client :=
  on_page (setStatusMessage "") c.

Definition status_event (msg : string) : StreamEvent.t :=
  {| StreamEvent.type := EventType.status;
     StreamEvent.message := Some msg;
     StreamEvent.error := None;
     StreamEvent.text := None;
     StreamEvent.friendly := None;
     StreamEvent.applied_count := None;
     StreamEvent.applied_edits := None;
     StreamEvent.session_id := None;
     StreamEvent.user_session_id := None;
     StreamEvent.pdf_bytes := None |}.


(** An input that starts with a no-break space (U+00A0) and ends with an
    ideographic space (U+3000), by the bytes of its encoding. *)
Definition padded_input : string :=
  String "194" (String "160" "Fill in my name")
    +:+ String "227" (String "128" (String "128" "")).


(** * Properties *)

(** ** The fold of a [tool_use] event *)

Lemma remove_double_stars_head (c : ascii) (s : string) :
  c <> "*"%char ->
  remove_double_stars (String c s) = String c (remove_double_stars s).
Proof.
  intros Hc. simpl.
  destruct c as [[] [] [] [] [] [] [] []]; try reflexivity.
  destruct s as [|c2 s]; [reflexivity|].
  exfalso. apply Hc. reflexivity.
Qed.

Lemma remove_double_stars_clean (s : string) :
  has_double_star (remove_double_stars s) = false.
Proof.
  enough (H : has_double_star (remove_double_stars s) = false
              /\ forall c, has_double_star (remove_double_stars (String c s))
                           = false) by apply H.
  induction s as [|c2 s [IH1 IH2]].
  - split; [reflexivity|]. intros c.
    destruct c as [[] [] [] [] [] [] [] []]; reflexivity.
  - split; [apply IH2|]. intros c.
    destruct (decide (c = "*"%char)) as [->|Hc].
    + destruct (decide (c2 = "*"%char)) as [->|Hc2].
      * simpl. exact IH1.
      * assert (E : remove_double_stars (String "*" (String c2 s))
                    = String "*" (remove_double_stars (String c2 s))).
        { simpl. destruct c2 as [[] [] [] [] [] [] [] []]; try reflexivity.
          exfalso. apply Hc2. reflexivity. }
        rewrite E. rewrite (remove_double_stars_head c2 s Hc2).
        change (has_double_star
                  (String "*" (String c2 (remove_double_stars s))))
          with ((Ascii.eqb "*" "*" && Ascii.eqb c2 "*")
                || has_double_star (String c2 (remove_double_stars s))).
        assert (Hb : Ascii.eqb c2 "*" = false) by (by apply Ascii.eqb_neq).
        rewrite Hb, andb_false_r, orb_false_l.
        rewrite <- (remove_double_stars_head c2 s Hc2). apply IH2.
    + rewrite (remove_double_stars_head c _ Hc).
      destruct (remove_double_stars (String c2 s)) as [|d r] eqn:E;
        [reflexivity|].
      change (has_double_star (String c (String d r)))
        with ((Ascii.eqb c "*" && Ascii.eqb d "*")
              || has_double_star (String d r)).
      apply Ascii.eqb_neq in Hc. rewrite Hc, andb_false_l, orb_false_l.
      rewrite <- E. apply IH2.
Qed.


(** ** One event, and the loop over the events *)

Lemma or_obj_last_omap {A B : Type} (g : A -> option B) (x : A)
    (l : list A) (d : option B) :
  or_obj (last (omap g (x :: l))) d = or_obj (last (omap g l)) (or_obj (g x) d).
Proof.
  cbn. destruct (g x) as [y|]; [|reflexivity].
  cbn. rewrite last_cons. destruct (last (omap g l)); reflexivity.
Qed.

Lemma kept_by_events_refl (p : Page) : kept_by_events p p.
Proof. repeat split. Qed.

Lemma kept_by_events_trans (p q r : Page) :
  kept_by_events p q -> kept_by_events q r -> kept_by_events p r.
Proof.
  unfold kept_by_events. intros H1 H2.
  destruct H1 as (?&?&?&?&?&?&?&?&?&?), H2 as (?&?&?&?&?&?&?&?&?&?).
  repeat split; congruence.
Qed.

Lemma fold_log_messages (id : string) (le : option AgentLogEntry.t)
    (p : Page) :
  messages (fold_log id le p) = map_message id (append_log le) (messages p).
Proof.
  unfold fold_log. destruct le; [|reflexivity].
  destruct (has_message id (messages p)); reflexivity.
Qed.

Lemma fold_log_kept (id : string) (le : option AgentLogEntry.t) (p : Page) :
  kept_by_events p (fold_log id le p)
  /\ filledPdfBytes (fold_log id le p) = filledPdfBytes p.
Proof.
  unfold fold_log. destruct le; [|repeat split].
  destruct (has_message id (messages p)); repeat split.
Qed.

(** The effect of one iteration on the page and on the traces. *)
Lemma event_client (s : Stamp) (event : StreamEvent.t) (c : Client)
    (t : Turn) :
  let c' := fst (handleSendMessage_event s event (c, t)) in
  kept_by_events (page c) (page c')
  /\ saved c' = saved c /\ opened c' = opened c
  /\ messages (page c')
     = map_message (assistantMessage_id t)
         (append_log (createLogEntry s event)) (messages (page c))
  /\ filledPdfBytes (page c')
     = or_obj (decoded_pdf [(s, event)]) (filledPdfBytes (page c)).
Proof.
  pose proof (fold_log_kept (assistantMessage_id t)
                (createLogEntry s event) (page c)) as [K F].
  pose proof (fold_log_messages (assistantMessage_id t)
                (createLogEntry s event) (page c)) as M.
  unfold handleSendMessage_event, decoded_pdf. cbn [omap list_omap snd fst].
  destruct (StreamEvent.type event) eqn:Hty; cbn;
    try (repeat split; try apply K; assumption).
  destruct (truthy_str (StreamEvent.pdf_bytes event)); cbn;
    repeat split; try apply K; assumption.
Qed.

(** The effect of one iteration on the variables of the handler. *)
Lemma event_turn (s : Stamp) (event : StreamEvent.t) (c : Client)
    (t : Turn) :
  let t' := snd (handleSendMessage_event s event (c, t)) in
  captured t' = captured t
  /\ assistantMessage_id t' = assistantMessage_id t
  /\ isContinuation t' = isContinuation t
  /\ newAppliedEdits t'
     = or_obj (reported_edits [(s, event)]) (newAppliedEdits t)
  /\ newAgentSessionId t'
     = or_obj (reported_agentSessionId [(s, event)]) (newAgentSessionId t)
  /\ newUserSessionId t'
     = or_obj (reported_userSessionId [(s, event)]) (newUserSessionId t)
  /\ newFilledPdfBytes t'
     = or_obj (decoded_pdf [(s, event)]) (newFilledPdfBytes t).
Proof.
  unfold handleSendMessage_event, reported_edits, reported_agentSessionId,
    reported_userSessionId, reported, decoded_pdf, is_complete, keep_truthy.
  cbn [omap list_omap snd fst].
  destruct (StreamEvent.type event) eqn:Hty; cbn;
    try (repeat split; reflexivity).
  - destruct (StreamEvent.applied_edits event);
      destruct (truthy_str (StreamEvent.session_id event)) eqn:E1;
      destruct (truthy_str (StreamEvent.user_session_id event)) eqn:E2;
      cbn;
      destruct (StreamEvent.session_id event);
      destruct (StreamEvent.user_session_id event);
      repeat split; try reflexivity; try discriminate.
  - destruct (truthy_str (StreamEvent.pdf_bytes event)); cbn;
      repeat split; reflexivity.
Qed.

Lemma loop_cons (a : Stamp * StreamEvent.t)
    (arrivals : list (Stamp * StreamEvent.t)) (ct : Client * Turn) :
  handleSendMessage_loop (a :: arrivals) ct
  = handleSendMessage_loop arrivals
      (handleSendMessage_event (fst a) (snd a) ct).
Proof. reflexivity. Qed.

(** What the loop leaves on the page, in the traces and in the variables of
    the handler. *)
Lemma loop_state (arrivals : list (Stamp * StreamEvent.t)) :
  forall (c : Client) (t : Turn),
    let c' := fst (handleSendMessage_loop arrivals (c, t)) in
    let t' := snd (handleSendMessage_loop arrivals (c, t)) in
    kept_by_events (page c) (page c')
    /\ saved c' = saved c /\ opened c' = opened c
    /\ filledPdfBytes (page c')
       = or_obj (decoded_pdf arrivals) (filledPdfBytes (page c))
    /\ captured t' = captured t
    /\ assistantMessage_id t' = assistantMessage_id t
    /\ isContinuation t' = isContinuation t
    /\ newAppliedEdits t'
       = or_obj (reported_edits arrivals) (newAppliedEdits t)
    /\ newAgentSessionId t'
       = or_obj (reported_agentSessionId arrivals) (newAgentSessionId t)
    /\ newUserSessionId t'
       = or_obj (reported_userSessionId arrivals) (newUserSessionId t)
    /\ newFilledPdfBytes t'
       = or_obj (decoded_pdf arrivals) (newFilledPdfBytes t).
Proof.
  induction arrivals as [|[s event] arrivals IH]; intros c t.
  - cbn. repeat split.
  - cbn zeta. rewrite loop_cons. cbn [fst snd].
    pose proof (event_client s event c t) as (K & S & O & _ & F).
    pose proof (event_turn s event c t) as (T1 & T2 & T3 & T4 & T5 & T6 & T7).
    destruct (handleSendMessage_event s event (c, t)) as [c1 t1].
    cbn [fst snd] in *.
    specialize (IH c1 t1) as (K' & S' & O' & F' & U1 & U2 & U3 & U4 & U5 & U6 & U7).
    unfold reported_edits, reported_agentSessionId, reported_userSessionId,
      reported, decoded_pdf in *.
    rewrite !or_obj_last_omap.
    split; [eapply kept_by_events_trans; eassumption|].
    rewrite or_obj_last_omap in F. rewrite or_obj_last_omap in T4.
    rewrite or_obj_last_omap in T5. rewrite or_obj_last_omap in T6.
    rewrite or_obj_last_omap in T7.
    cbn [omap list_omap last or_obj] in F, T4, T5, T6, T7.
    repeat split; congruence.
Qed.

Lemma map_message_snoc (id : string) (f : ChatMessage.t -> ChatMessage.t)
    (l : list ChatMessage.t) (m : ChatMessage.t) :
  ChatMessage.id m = id ->
  map_message id f (l ++ [m]) = (map_message id f l ++ [f m])%list.
Proof.
  intros <-. unfold map_message. rewrite fmap_snoc.
  by rewrite String.eqb_refl.
Qed.

Lemma map_message_length (id : string) (f : ChatMessage.t -> ChatMessage.t)
    (l : list ChatMessage.t) :
  length (map_message id f l) = length l.
Proof. unfold map_message. apply length_fmap. Qed.

(** The loop keeps the placeholder last and appends to its log the entries
    of the events, in order. *)
Lemma loop_messages (arrivals : list (Stamp * StreamEvent.t)) :
  forall (c : Client) (t : Turn) (l0 : list ChatMessage.t)
         (m : ChatMessage.t) (log : list AgentLogEntry.t),
    messages (page c) = (l0 ++ [m])%list ->
    ChatMessage.id m = assistantMessage_id t ->
    ChatMessage.agentLog m = Some log ->
    exists l1,
      messages (page (fst (handleSendMessage_loop arrivals (c, t))))
      = (l1 ++ [with_agentLog (Some (log ++ turn_log arrivals)%list) m])%list
      /\ length l1 = length l0.
Proof.
  induction arrivals as [|[s event] arrivals IH]; intros c t l0 m log Hm Hid Hlog.
  - exists l0. cbn. rewrite app_nil_r. split; [|reflexivity].
    rewrite Hm. f_equal. f_equal. destruct m; cbn in *. by subst.
  - rewrite loop_cons. cbn [fst snd].
    pose proof (event_client s event c t) as (_ & _ & _ & M & _).
    pose proof (event_turn s event c t) as (_ & T2 & _).
    destruct (handleSendMessage_event s event (c, t)) as [c1 t1].
    cbn [fst snd] in *.
    rewrite Hm, (map_message_snoc _ _ _ _ Hid) in M.
    set (m1 := append_log (createLogEntry s event) m) in *.
    destruct (IH c1 t1 _ m1
                (log ++ from_option (fun e => [e]) [] (createLogEntry s event))%list
                M) as (l1 & E & L).
    + subst m1. cbn. congruence.
    + subst m1. unfold append_log. cbn. rewrite Hlog. cbn.
      destruct (createLogEntry s event); cbn; [reflexivity|].
      by rewrite app_nil_r.
    + exists l1. split; [|by rewrite L, map_message_length].
      rewrite E. f_equal. f_equal. subst m1.
      unfold turn_log, append_log, with_agentLog. cbn.
      destruct (createLogEntry s event); cbn; f_equal; f_equal;
        by rewrite <- ?app_assoc, ?app_nil_r.
Qed.

(** ** A whole turn *)

Lemma start_with_file (content : string) (su sa : Stamp) (c : Client)
    (f : File) :
  file (page c) = Some f ->
  exists c1 t,
    handleSendMessage_start content su sa c = (c1, Some t)
    /\ messages (page c1)
       = ((messages (page c) ++ [createMessage su Role.user content None])
            ++ [with_agentLog (Some [])
                  (createMessage sa Role.assistant ""
                     (Some Status.streaming))])%list
    /\ kept_by_events (setIsProcessing true (page c)) (page c1)
    /\ filledPdfBytes (page c1) = filledPdfBytes (page c)
    /\ saved c1 = saved c
    /\ captured t = page c
    /\ assistantMessage_id t = fresh_id sa
    /\ isContinuation t
       = truthy_str (agentSessionId (page c))
         && truthy_obj (filledPdfBytes (page c))
    /\ newAppliedEdits t = None /\ newAgentSessionId t = None
    /\ newUserSessionId t = None /\ newFilledPdfBytes t = None.
Proof.
  intros Hf. unfold handleSendMessage_start. rewrite Hf.
  eexists _, _. split; [reflexivity|]. cbn.
  rewrite <- app_assoc. repeat split.
Qed.

Lemma finally_idle (c : Client) :
  isProcessing (page (handleSendMessage_finally c)) = false
  /\ statusMessage (page (handleSendMessage_finally c)) = "".
Proof. split; reflexivity. Qed.

Lemma finish_idle (fin : StreamEnd) (ct : Client * Turn) :
  isProcessing (page (handleSendMessage_finish fin ct)) = false
  /\ statusMessage (page (handleSendMessage_finish fin ct)) = "".
Proof. destruct fin; apply finally_idle. Qed.

Lemma end_messages (t : Turn) (c : Client) :
  messages (page (handleSendMessage_end t c))
  = map_message (assistantMessage_id t)
      (with_status_content Status.complete
         (or_str (Some (finalContent t))
            ("Filled " +:+ pretty (appliedCount t) +:+ " fields.")))
      (messages (page c)).
Proof.
  unfold handleSendMessage_end.
  destruct (newAppliedEdits t), (truthy_str (newAgentSessionId t)),
    (truthy_str (newUserSessionId t)); reflexivity.
Qed.

Lemma catch_messages (e : Thrown) (s : Stamp) (t : Turn) (c : Client) :
  messages (page (handleSendMessage_catch e s t c))
  = map_message (assistantMessage_id t)
      (fun m =>
         with_agentLog
           (Some (default [] (ChatMessage.agentLog m)
                    ++ [log_entry s LogType.error (error_message e) None])%list)
           (with_status_content Status.error
              ("Error: " +:+ error_message e) m))
      (messages (page c)).
Proof. reflexivity. Qed.

(** The messages a started turn has when its loop is over: the earlier
    ones and the user message, then the placeholder with the entries of
    the events. *)
Lemma turn_loop_messages (content : string) (su sa : Stamp)
    (arrivals : list (Stamp * StreamEvent.t)) (c c1 : Client) (t : Turn)
    (f : File) :
  file (page c) = Some f ->
  handleSendMessage_start content su sa c = (c1, Some t) ->
  exists l1,
    messages (page (fst (handleSendMessage_loop arrivals (c1, t))))
    = (l1 ++ [with_agentLog (Some (turn_log arrivals))
                (createMessage sa Role.assistant ""
                   (Some Status.streaming))])%list
    /\ length l1 = S (length (messages (page c)))
    /\ assistantMessage_id (snd (handleSendMessage_loop arrivals (c1, t)))
       = fresh_id sa.
Proof.
  intros Hf Hs.
  destruct (start_with_file content su sa c f Hf)
    as (c1' & t' & Hs' & M & _ & _ & _ & _ & A & _).
  rewrite Hs in Hs'. injection Hs' as <- <-.
  destruct (loop_messages arrivals c1 t _ _ [] M) as (l1 & E & L);
    [by rewrite A | reflexivity |].
  pose proof (loop_state arrivals c1 t) as (_ & _ & _ & _ & _ & A' & _).
  exists l1. split; [exact E|]. split; [|congruence].
  rewrite L, length_app. cbn. lia.
Qed.

Lemma turn_log_error_entries (arrivals : list (Stamp * StreamEvent.t)) :
  error_entries (turn_log arrivals) = error_events arrivals.
Proof.
  unfold error_entries, error_events, turn_log.
  induction arrivals as [|[s event] arrivals IH]; [reflexivity|].
  cbn [omap list_omap List.filter fst snd].
  unfold is_error_event at 1, createLogEntry. cbn [snd].
  destruct (StreamEvent.type event); cbn; try exact IH.
  - destruct (StreamEvent.friendly event) as [[|d [|d2 ds]]|]; cbn; exact IH.
  - destruct (StreamEvent.friendly event) as [[|d ds]|]; cbn; exact IH.
  - destruct (StreamEvent.text event) as [txt|]; cbn; [|exact IH].
    destruct (String.eqb txt ""); cbn; exact IH.
  - f_equal. exact IH.
Qed.

Lemma error_entries_snoc (l : list AgentLogEntry.t) (s : Stamp)
    (msg : string) :
  error_entries (l ++ [log_entry s LogType.error msg None])
  = S (error_entries l).
Proof.
  unfold error_entries. rewrite List.filter_app, length_app. cbn. lia.
Qed.

(** C5, amended.  When the iteration over the stream throws in a started
    turn, the placeholder ends with status [error], with the content
    "Error: " followed by the message of the fault, and with a log that is
    the entries of the events that arrived followed by one error entry
    for the fault.  That entry is appended whether or not an [error]
    event was folded before: the log then has one error entry more than
    the stream had [error] events, and exactly one when it had none. *)
Theorem fault_finalizes_error (content : string) (su sa : Stamp)
    (arrivals : list (Stamp * StreamEvent.t)) (e : Thrown) (s : Stamp)
    (c : Client) :
  is_Some (file (page c)) ->
  exists m,
    placeholder (handleSendMessage content su sa arrivals (Failed e s) c)
    = Some m
    /\ ChatMessage.status m = Some Status.error
    /\ ChatMessage.content m = "Error: " +:+ error_message e
    /\ ChatMessage.agentLog m
       = Some (turn_log arrivals
                 ++ [log_entry s LogType.error (error_message e) None])%list
    /\ error_entries (default [] (ChatMessage.agentLog m))
       = S (error_events arrivals).
Proof.
  intros [f Hf]. unfold handleSendMessage, placeholder.
  destruct (start_with_file content su sa c f Hf) as (c1 & t & Hs & _).
  rewrite Hs.
  destruct (turn_loop_messages content su sa arrivals c c1 t f Hf Hs)
    as (l1 & M & _ & A).
  cbn [handleSendMessage_finish]. rewrite catch_messages, M.
  rewrite map_message_snoc by (rewrite A; reflexivity).
  rewrite last_snoc. eexists. split; [reflexivity|].
  do 3 (split; [reflexivity|]).
  rewrite <- turn_log_error_entries. apply error_entries_snoc.
Qed.

(** When the stream of a started turn closes, the placeholder ends with
    status [complete], whatever events arrived. *)
Lemma closed_finalizes_complete (content : string) (su sa : Stamp)
    (arrivals : list (Stamp * StreamEvent.t)) (c : Client) :
  is_Some (file (page c)) ->
  exists m,
    placeholder (handleSendMessage content su sa arrivals Closed c) = Some m
    /\ ChatMessage.status m = Some Status.complete
    /\ ChatMessage.agentLog m = Some (turn_log arrivals).
Proof.
  intros [f Hf]. unfold handleSendMessage, placeholder.
  destruct (start_with_file content su sa c f Hf) as (c1 & t & Hs & _).
  rewrite Hs.
  destruct (turn_loop_messages content su sa arrivals c c1 t f Hf Hs)
    as (l1 & M & _ & A).
  cbn [handleSendMessage_finish]. rewrite end_messages, M.
  rewrite map_message_snoc by (rewrite A; reflexivity).
  rewrite last_snoc. eexists. split; [reflexivity|]. cbn. by split.
Qed.

(** ** What the end of a turn adopts and saves *)

Lemma end_state (t : Turn) (c : Client) :
  let c' := handleSendMessage_end t c in
  sessionId (page c') = sessionId (page c)
  /\ appliedEdits (page c') = or_obj (newAppliedEdits t) (appliedEdits (page c))
  /\ agentSessionId (page c')
     = or_obj (keep_truthy (newAgentSessionId t)) (agentSessionId (page c))
  /\ userSessionId (page c')
     = or_obj (keep_truthy (newUserSessionId t)) (userSessionId (page c))
  /\ opened c' = opened c
  /\ saved c'
     = (saved c
          ++ match keep_truthy (newUserSessionId t) with
             | Some u =>
                 [{| saved_session :=
                       {| Session.id := sessionId (captured t);
                          Session.originalPdf := file (captured t);
                          Session.filledPdfBytes :=
                            or_obj (newFilledPdfBytes t)
                              (filledPdfBytes (captured t));
                          Session.fields := fields (captured t);
                          Session.messages := messages (captured t);
                          Session.isProcessing := false |};
                     saved_userSessionId := Some u |}]
             | None => []
             end)%list.
Proof.
  unfold handleSendMessage_end, keep_truthy.
  destruct (newAppliedEdits t);
    destruct (truthy_str (newAgentSessionId t)) eqn:E1;
    destruct (truthy_str (newUserSessionId t)) eqn:E2;
    destruct (newAgentSessionId t); destruct (newUserSessionId t);
    try discriminate; cbn; rewrite ?app_nil_r; repeat split; reflexivity.
Qed.

Lemma catch_state (e : Thrown) (s : Stamp) (t : Turn) (c : Client) :
  let c' := handleSendMessage_catch e s t c in
  sessionId (page c') = sessionId (page c)
  /\ appliedEdits (page c') = appliedEdits (page c)
  /\ agentSessionId (page c') = agentSessionId (page c)
  /\ userSessionId (page c') = userSessionId (page c)
  /\ opened c' = opened c /\ saved c' = saved c.
Proof. repeat split. Qed.

Lemma last_omap_Some {A B : Type} (g : A -> option B) (l : list A) (y : B) :
  last (omap g l) = Some y -> exists a, a ∈ l /\ g a = Some y.
Proof.
  intros H. apply last_Some in H as [l' H].
  assert (Hy : y ∈ omap g l) by (rewrite H; set_solver).
  by apply list_elem_of_omap in Hy.
Qed.

Lemma keep_truthy_Some (o : option string) (u : string) :
  keep_truthy o = Some u -> keep_truthy (Some u) = Some u.
Proof.
  unfold keep_truthy. destruct (truthy_str o) eqn:E; [|discriminate].
  intros ->. by rewrite E.
Qed.

(** An identifier a stream reports is a string that is not empty. *)
Lemma reported_keep_truthy (get : StreamEvent.t -> option string)
    (arrivals : list (Stamp * StreamEvent.t)) :
  keep_truthy (reported (fun event => keep_truthy (get event)) arrivals)
  = reported (fun event => keep_truthy (get event)) arrivals.
Proof.
  destruct (reported _ arrivals) as [u|] eqn:E; [|reflexivity].
  apply last_omap_Some in E as ([s event] & _ & E). cbn in E.
  destruct (is_complete event); [|discriminate].
  by apply keep_truthy_Some in E.
Qed.

(** The page, the traces and the variables of a started turn whose stream
    has closed. *)
Lemma closed_turn_state (content : string) (su sa : Stamp)
    (arrivals : list (Stamp * StreamEvent.t)) (c : Client) :
  is_Some (file (page c)) ->
  let c' := handleSendMessage content su sa arrivals Closed c in
  sessionId (page c') = sessionId (page c)
  /\ appliedEdits (page c')
     = or_obj (reported_edits arrivals) (appliedEdits (page c))
  /\ agentSessionId (page c')
     = or_obj (reported_agentSessionId arrivals) (agentSessionId (page c))
  /\ userSessionId (page c')
     = or_obj (reported_userSessionId arrivals) (userSessionId (page c))
  /\ saved c'
     = (saved c
          ++ match reported_userSessionId arrivals with
             | Some u =>
                 [{| saved_session :=
                       {| Session.id := sessionId (page c);
                          Session.originalPdf := file (page c);
                          Session.filledPdfBytes :=
                            or_obj (decoded_pdf arrivals)
                              (filledPdfBytes (page c));
                          Session.fields := fields (page c);
                          Session.messages := messages (page c);
                          Session.isProcessing := false |};
                     saved_userSessionId := Some u |}]
             | None => []
             end)%list.
Proof.
  intros [f Hf] c'. subst c'. unfold handleSendMessage.
  destruct (start_with_file content su sa c f Hf)
    as (c1 & t & -> & _ & K & _ & S & Cap & _ & _ & N1 & N2 & N3 & N4).
  pose proof (loop_state arrivals c1 t)
    as (K' & S' & _ & _ & Cap' & _ & _ & E1 & E2 & E3 & E4).
  cbn [handleSendMessage_finish].
  destruct (handleSendMessage_loop arrivals (c1, t)) as [c2 t2].
  cbn [fst snd] in *.
  pose proof (end_state t2 c2) as (Q0 & Q1 & Q2 & Q3 & _ & Q5).
  cbn zeta in *.
  rewrite N1 in E1. rewrite N2 in E2. rewrite N3 in E3. rewrite N4 in E4.
  assert (R1 : newAppliedEdits t2 = reported_edits arrivals)
    by (rewrite E1; by destruct (reported_edits arrivals)).
  assert (R2 : keep_truthy (newAgentSessionId t2)
               = reported_agentSessionId arrivals).
  { rewrite E2.
    replace (or_obj (reported_agentSessionId arrivals) None)
      with (reported_agentSessionId arrivals)
      by (by destruct (reported_agentSessionId arrivals)).
    apply reported_keep_truthy. }
  assert (R3 : keep_truthy (newUserSessionId t2)
               = reported_userSessionId arrivals).
  { rewrite E3.
    replace (or_obj (reported_userSessionId arrivals) None)
      with (reported_userSessionId arrivals)
      by (by destruct (reported_userSessionId arrivals)).
    apply reported_keep_truthy. }
  assert (R4 : newFilledPdfBytes t2 = decoded_pdf arrivals)
    by (rewrite E4; by destruct (decoded_pdf arrivals)).
  rewrite R1 in Q1. rewrite R2 in Q2. rewrite R3 in Q3, Q5.
  rewrite R4, Cap', Cap in Q5.
  destruct K as (K0 & _ & _ & _ & _ & _ & K1 & K2 & K3 & _).
  destruct K' as (K0' & _ & _ & _ & _ & _ & K1' & K2' & K3' & _).
  cbn in K0, K1, K2, K3.
  rewrite Q0, Q1, Q2, Q3, Q5.
  rewrite K0', K0, K1', K1, K2', K2, K3', K3, S', S.
  repeat split.
Qed.

(** A started turn whose iteration throws adopts nothing and saves
    nothing. *)
Lemma failed_turn_state (content : string) (su sa : Stamp)
    (arrivals : list (Stamp * StreamEvent.t)) (e : Thrown) (s : Stamp)
    (c : Client) :
  is_Some (file (page c)) ->
  let c' := handleSendMessage content su sa arrivals (Failed e s) c in
  sessionId (page c') = sessionId (page c)
  /\ appliedEdits (page c') = appliedEdits (page c)
  /\ agentSessionId (page c') = agentSessionId (page c)
  /\ userSessionId (page c') = userSessionId (page c)
  /\ saved c' = saved c.
Proof.
  intros [f Hf] c'. subst c'. unfold handleSendMessage.
  destruct (start_with_file content su sa c f Hf)
    as (c1 & t & -> & _ & K & _ & S & _).
  pose proof (loop_state arrivals c1 t) as (K' & S' & _).
  cbn [handleSendMessage_finish].
  destruct (handleSendMessage_loop arrivals (c1, t)) as [c2 t2].
  cbn [fst snd] in *.
  pose proof (catch_state e s t2 c2) as (Q0 & Q1 & Q2 & Q3 & _ & Q5).
  cbn zeta in *.
  destruct K as (K0 & _ & _ & _ & _ & _ & K1 & K2 & K3 & _).
  destruct K' as (K0' & _ & _ & _ & _ & _ & K1' & K2' & K3' & _).
  cbn in K0, K1, K2, K3.
  repeat split; congruence.
Qed.

(** C6, amended.  When the stream of a started turn closes, the applied
    edits become the [applied_edits] map of the last [complete] event that
    carries one, as a whole and not merged into the map held before; they
    stay as they were when no [complete] event carries one.  So a key held
    before the turn is held after it exactly when the reported map has it,
    or when no map was reported. *)
Theorem appliedEdits_replaced_by_report (content : string) (su sa : Stamp)
    (arrivals : list (Stamp * StreamEvent.t)) (c : Client) :
  is_Some (file (page c)) ->
  let before := appliedEdits (page c) in
  let after :=
    appliedEdits (page (handleSendMessage content su sa arrivals Closed c)) in
  after = or_obj (reported_edits arrivals) before
  /\ forall k : string,
       k ∈ edit_keys before ->
       (k ∈ edit_keys after
        <-> match reported_edits arrivals with
            | Some m => k ∈ dom m
            | None => True
            end).
Proof.
  intros Hf before after.
  pose proof (closed_turn_state content su sa arrivals c Hf)
    as (_ & E & _).
  cbn zeta in E. fold before after in E. split; [exact E|].
  intros k Hk. rewrite E.
  destruct (reported_edits arrivals) as [m|]; cbn; [reflexivity|].
  split; [done | intros _; exact Hk].
Qed.

(** C8, amended.  When the stream of a started turn closes, an agent
    session id and a user session id that a [complete] event returned
    (the last one that is not empty) replace the ones the page held.  The
    handler itself saves the session exactly when a user session id was
    returned: the snapshot it saves holds what its closure held when the
    turn started, with the document decoded during the turn if there is
    one, and goes with the returned user session id.  A returned agent
    session id alone causes no save, and the agent session id is not part
    of what the save effect of a later render writes either. *)
Theorem backend_identifiers_adopted (content : string) (su sa : Stamp)
    (arrivals : list (Stamp * StreamEvent.t)) (c : Client) :
  is_Some (file (page c)) ->
  let c' := handleSendMessage content su sa arrivals Closed c in
  agentSessionId (page c')
  = or_obj (reported_agentSessionId arrivals) (agentSessionId (page c))
  /\ userSessionId (page c')
     = or_obj (reported_userSessionId arrivals) (userSessionId (page c))
  /\ saved c'
     = (saved c
          ++ match reported_userSessionId arrivals with
             | Some u =>
                 [{| saved_session :=
                       {| Session.id := sessionId (page c);
                          Session.originalPdf := file (page c);
                          Session.filledPdfBytes :=
                            or_obj (decoded_pdf arrivals)
                              (filledPdfBytes (page c));
                          Session.fields := fields (page c);
                          Session.messages := messages (page c);
                          Session.isProcessing := false |};
                     saved_userSessionId := Some u |}]
             | None => []
             end)%list
  /\ forall (x : option string) (p : Page),
       save_effect (setAgentSessionId x p) = save_effect p.
Proof.
  intros Hf c'.
  pose proof (closed_turn_state content su sa arrivals c Hf)
    as (_ & _ & A & U & S).
  repeat split; assumption || reflexivity.
Qed.

(** ** Restoring a session *)

Lemma rebuild_context_files (l : list ContextFile) :
  (fun f => {| filename := filename f; cf_content := cf_content f;
               was_parsed := was_parsed f |}) <$> l = l.
Proof.
  induction l as [|[] l IH]; [reflexivity|]. cbn. by rewrite IH.
Qed.

(** Each fetched piece is applied to the page on its own. *)
Lemma restore_fetched_pieces (rf ro : Fetch Uint8Array)
    (rc : Fetch (list ContextFile)) (p0 : Page) :
  let p :=
    restore_fetched (fetch_promise rf) (fetch_promise ro) (fetch_promise rc)
      p0 in
  filledPdfBytes p
  = match rf with Fetched b => Some b | FetchFailed => filledPdfBytes p0 end
  /\ pdfDisplayMode p
     = match rf with Fetched _ => filled | FetchFailed => pdfDisplayMode p0 end
  /\ originalPdfBytes p
     = match ro with Fetched b => Some b | FetchFailed => originalPdfBytes p0 end
  /\ contextFiles p
     = match rc with Fetched l => l | FetchFailed => contextFiles p0 end
  /\ sessionId p = sessionId p0 /\ fields p = fields p0
  /\ messages p = messages p0 /\ userSessionId p = userSessionId p0.
Proof.
  destruct rf, ro, rc; cbn; rewrite ?rebuild_context_files; repeat split.
Qed.

(** C4.  On the restore of a stored session that has a user session id,
    the three fetches are started, and each piece that was fetched is
    applied on its own: the filled document (with the display switched to
    it), the original document, the context files.  A fetch that failed
    leaves its piece absent and nothing else: the other pieces are applied
    and the page holds the stored fields, messages and user session id. *)
Theorem restore_applies_each_fetch (url : option string)
    (st : StoredSession) (created : string) (rf ro : Fetch Uint8Array)
    (rc : Fetch (list ContextFile)) :
  truthy_str url = true ->
  truthy_str (stored_userSessionId st) = true ->
  let p :=
    restore_fetched (fetch_promise rf) (fetch_promise ro) (fetch_promise rc)
      (mount url (Some st) created initial_page) in
  mount_fetches url (Some st) = true
  /\ filledPdfBytes p
     = match rf with Fetched b => Some b | FetchFailed => None end
  /\ pdfDisplayMode p
     = match rf with Fetched _ => filled | FetchFailed => original end
  /\ originalPdfBytes p
     = match ro with Fetched b => Some b | FetchFailed => None end
  /\ contextFiles p = match rc with Fetched l => l | FetchFailed => [] end
  /\ sessionId p = default "" url
  /\ fields p = default [] (stored_fields st)
  /\ messages p = default [] (stored_messages st)
  /\ userSessionId p = stored_userSessionId st.
Proof.
  intros Hurl Hu p.
  pose proof (restore_fetched_pieces rf ro rc
                (mount url (Some st) created initial_page))
    as (F & D & O & C & S & Fs & M & U).
  fold p in F, D, O, C, S, Fs, M, U.
  assert (Hm : mount url (Some st) created initial_page
               = setUserSessionId (stored_userSessionId st)
                   (setMessages (default [] (stored_messages st))
                      (setFields (default [] (stored_fields st))
                         (setSessionId (default "" url) initial_page)))).
  { unfold mount. by rewrite Hurl, Hu. }
  rewrite Hm in F, D, O, C, S, Fs, M, U. cbn in F, D, O, C, S, Fs, M, U.
  split; [unfold mount_fetches; by rewrite Hurl, Hu|].
  repeat split; assumption.
Qed.

(** When one of the three promises is rejected, [Promise.all] is, and the
    callback that applies the pieces is not run. *)
Lemma restore_rejected (ro : Settled (option Uint8Array))
    (rc : Settled (option (list ContextFile))) (p : Page) :
  restore_fetched Rejected ro rc p = p.
Proof. reflexivity. Qed.

(** ** The identifiers of the session *)

Lemma same_session_refl (p : Page) : same_session p p.
Proof. repeat split. Qed.

Lemma kept_same_session (p p' : Page) :
  kept_by_events p p' -> same_session p p'.
Proof.
  intros (?&?&?&?&?&?&?&?&?&?). repeat split; assumption.
Qed.

Lemma restore_fetched_same (fb ob : Settled (option Uint8Array))
    (cf : Settled (option (list ContextFile))) (p : Page) :
  same_session p (restore_fetched fb ob cf p).
Proof.
  destruct fb as [[b|]|], ob as [[b'|]|], cf as [[l|]|]; repeat split.
Qed.

Lemma handleFileSelect_end_same (r : AnalyzeOutcome) (s : Stamp) (p : Page) :
  same_session p (handleFileSelect_end r s p).
Proof.
  unfold handleFileSelect_end.
  destruct r as [fs n|e]; [destruct (0 <? n)|]; repeat split.
Qed.

Lemma handleParseFiles_event_same (event : ParseEvent.t) (p : Page)
    (run : ParseRun) :
  same_session p (fst (handleParseFiles_event event (p, run))).
Proof.
  unfold handleParseFiles_event.
  destruct (ParseEvent.type event), (ParseEvent.current event),
    (ParseEvent.total event); cbn; try apply same_session_refl.
  destruct (truthy_str (ParseEvent.filename event)
            && truthy_str (ParseEvent.status event)); repeat split.
Qed.

Lemma start_same_session (content : string) (su sa : Stamp) (c : Client) :
  let p' := page (fst (handleSendMessage_start content su sa c)) in
  sessionId p' = sessionId (page c)
  /\ agentSessionId p' = agentSessionId (page c)
  /\ userSessionId p' = userSessionId (page c).
Proof.
  unfold handleSendMessage_start. destruct (file (page c)); repeat split.
Qed.

(** How each action changes the three identifiers. *)
Lemma step_identifiers (act : Action) (a : App) :
  let p := page (client a) in
  let p' := page (client (step act a)) in
  sessionId p' = sessionId p
  /\ (agentSessionId p' = agentSessionId p
      \/ (exists i t, act = Close i /\ turns a !! i = Some t
                      /\ truthy_str (newAgentSessionId t) = true
                      /\ agentSessionId p' = newAgentSessionId t)
      \/ ((act = Reset \/ exists f, act = Upload f)
          /\ agentSessionId p' = None))
  /\ (userSessionId p' = userSessionId p
      \/ (exists i t, act = Close i /\ turns a !! i = Some t
                      /\ truthy_str (newUserSessionId t) = true
                      /\ userSessionId p' = newUserSessionId t)
      \/ (exists s, act = ParseStart s
                    /\ truthy_str (userSessionId p) = false
                    /\ userSessionId p'
                       = Some (fresh_id s +:+ "-" +:+ pretty (now s)))
      \/ ((act = Reset \/ exists f, act = Upload f)
          /\ userSessionId p' = None)).
Proof.
  intros p p'. subst p p'.
  destruct act as [s0|su sa|i s event|i|i e s| |f|r s|fb ob cf|m|l|s|i event|i|i e s].
  - cbn. auto.
  - cbn. unfold handleSubmit. destruct (submit_accepted a); [|cbn; auto].
    pose proof (start_same_session (trim (input a)) su sa (client a))
      as (S & A & U).
    destruct (handleSendMessage_start _ su sa (client a)) as [c1 st].
    cbn in *. auto.
  - cbn [step]. destruct (turns a !! i) as [t|] eqn:Ht; [|cbn; auto].
    pose proof (event_client s event (client a) t) as (K & _).
    destruct (handleSendMessage_event s event (client a, t)) as [c1 t1].
    cbn in *. apply kept_same_session in K as (?&?&?&?). auto.
  - cbn [step]. destruct (turns a !! i) as [t|] eqn:Ht; [|cbn; auto].
    pose proof (end_state t (client a)) as (S & _ & A & U & _).
    cbn [client]. split; [exact S|]. split.
    + unfold keep_truthy in A.
      destruct (truthy_str (newAgentSessionId t)) eqn:E.
      * right; left. exists i, t.
        split; [reflexivity|]. split; [exact Ht|]. split; [done|].
        rewrite A. by destruct (newAgentSessionId t).
      * left. exact A.
    + unfold keep_truthy in U.
      destruct (truthy_str (newUserSessionId t)) eqn:E.
      * right; left. exists i, t.
        split; [reflexivity|]. split; [exact Ht|]. split; [done|].
        rewrite U. by destruct (newUserSessionId t).
      * left. exact U.
  - cbn [step]. destruct (turns a !! i) as [t|] eqn:Ht; cbn; auto.
  - cbn. unfold handleReset.
    destruct (isProcessing (page (client a))) eqn:E; cbn; [cbn; auto|].
    split; [reflexivity|]. split; [right; right; auto|].
    do 3 right; auto.
  - cbn. destruct (upload_enabled (page (client a))); cbn; [|cbn; auto].
    split; [reflexivity|]. split; [right; right; eauto|].
    do 3 right; eauto.
  - cbn. destruct (analyses a); cbn; [cbn; auto|].
    pose proof (handleFileSelect_end_same r s (page (client a))) as (?&?&?&?).
    auto.
  - cbn.
    pose proof (restore_fetched_same fb ob cf (page (client a))) as (?&?&?&?).
    auto.
  - cbn. auto.
  - cbn. auto.
  - cbn. unfold handleParseFiles_start.
    destruct (truthy_str (userSessionId (page (client a)))) eqn:E; cbn;
      [cbn; auto|].
    split; [reflexivity|]. split; [auto|].
    right; right; left. exists s. auto.
  - cbn [step]. destruct (parses a !! i) as [run|] eqn:Hr; [|cbn; auto].
    pose proof (handleParseFiles_event_same event (page (client a)) run)
      as (?&?&?&?).
    destruct (handleParseFiles_event event (page (client a), run))
      as [p1 run1].
    cbn in *. auto.
  - cbn [step]. destruct (parses a !! i) as [run|] eqn:Hr; cbn; auto.
  - cbn [step]. destruct (parses a !! i) as [run|] eqn:Hr; cbn; auto.
Qed.

(** C7, amended.  No action on the mounted page reassigns [sessionId], a
    reset included.  The agent session id changes only when the stream of
    a turn closes with a collected id that is not empty, which replaces
    it, and when a file is selected or the form is reset, which clears
    it.  The user session id changes only in those ways and when a parse
    starts on a page that has none, which mints one.  A reset leaves the
    messages as they are; while no turn is processed it clears the file,
    the fields, the two documents, the applied edits, the context files
    and the two backend identifiers, and while a turn is processed it
    does nothing. *)
Theorem identifiers_across_actions (act : Action) (a : App) :
  let p := page (client a) in
  let p' := page (client (step act a)) in
  sessionId p' = sessionId p
  /\ (agentSessionId p' = agentSessionId p
      \/ (exists i t, act = Close i /\ turns a !! i = Some t
                      /\ truthy_str (newAgentSessionId t) = true
                      /\ agentSessionId p' = newAgentSessionId t)
      \/ ((act = Reset \/ exists f, act = Upload f)
          /\ agentSessionId p' = None))
  /\ (userSessionId p' = userSessionId p
      \/ (exists i t, act = Close i /\ turns a !! i = Some t
                      /\ truthy_str (newUserSessionId t) = true
                      /\ userSessionId p' = newUserSessionId t)
      \/ (exists s, act = ParseStart s
                    /\ truthy_str (userSessionId p) = false
                    /\ userSessionId p'
                       = Some (fresh_id s +:+ "-" +:+ pretty (now s)))
      \/ ((act = Reset \/ exists f, act = Upload f)
          /\ userSessionId p' = None))
  /\ messages (page (client (step Reset a))) = messages p
  /\ (isProcessing p = false ->
      let r := page (client (step Reset a)) in
      file r = None /\ fields r = [] /\ originalPdfBytes r = None
      /\ filledPdfBytes r = None /\ pdfDisplayMode r = original
      /\ appliedEdits r = None /\ contextFiles r = []
      /\ agentSessionId r = None /\ userSessionId r = None
      /\ sessionId r = sessionId p /\ messages r = messages p)
  /\ (isProcessing p = true -> step Reset a = a).
Proof.
  intros p p'.
  pose proof (step_identifiers act a) as (S & A & U).
  split; [exact S|]. split; [exact A|]. split; [exact U|].
  subst p. split; [|split].
  - cbn. unfold handleReset.
    destruct (isProcessing (page (client a))); reflexivity.
  - intros H. cbn. unfold handleReset. rewrite H. cbn.
    repeat apply conj; reflexivity.
  - intros H. destruct a as [[pg sv op] inp ts ps an]. cbn in H |- *.
    unfold with_page, with_client, on_page, handleReset. cbn.
    by rewrite H.
Qed.

(** ** One turn at a time *)

Lemma keep_truthy_idem (o : option string) :
  keep_truthy (keep_truthy o) = keep_truthy o.
Proof.
  unfold keep_truthy. destruct (truthy_str o) eqn:E; [by rewrite E|reflexivity].
Qed.

Lemma keep_truthy_or_obj (o d : option string) :
  keep_truthy d = d ->
  keep_truthy (or_obj (keep_truthy o) d) = or_obj (keep_truthy o) d.
Proof.
  intros Hd. destruct (keep_truthy o) as [u|] eqn:E; cbn; [|exact Hd].
  by apply keep_truthy_Some in E.
Qed.

Lemma submit_accepted_file (a : App) :
  submit_accepted a = true ->
  isProcessing (page (client a)) = false
  /\ is_Some (file (page (client a)))
  /\ fields (page (client a)) <> [].
Proof.
  unfold submit_accepted, chat_disabled. intros H.
  apply andb_prop in H as [H H3]. apply andb_prop in H as [_ H2].
  apply negb_true_iff in H2. apply negb_true_iff in H3.
  apply orb_false_elim in H3 as [H3 H4]. apply negb_false_iff in H3.
  split; [exact H2|]. split.
  - destruct (file (page (client a))); [eauto | discriminate].
  - intros Hnil. rewrite Hnil in H4. discriminate.
Qed.

Lemma well_formed_mounted (url : option string)
    (stored : option StoredSession) (created : string) :
  well_formed (mounted url stored created).
Proof.
  unfold well_formed, mounted, mount. cbn.
  destruct (truthy_str url); [|by split].
  destruct stored as [st|]; [|by split].
  destruct (truthy_str (stored_userSessionId st)); by split.
Qed.

Lemma well_formed_step (act : Action) (a : App) :
  well_formed a -> well_formed (step act a).
Proof.
  unfold well_formed. intros [HT HA].
  destruct act as [s0|su sa|i s event|i|i e s| |f|r s|fb ob cf|m|l|s|i event|i|i e s].
  - cbn. by split.
  - cbn [step]. unfold handleSubmit.
    destruct (submit_accepted a) eqn:Hacc; [|by split].
    apply submit_accepted_file in Hacc as (Hp & [f Hf] & _).
    destruct (start_with_file (trim (input a)) su sa (client a) f Hf)
      as (c1 & t & -> & _ & K & _ & _ & _ & _ & _ & _ & N & _).
    destruct K as (_ & _ & _ & _ & _ & KP & _ & KA & _).
    cbn [client turns]. cbn in KP. rewrite KA.
    destruct (turns a) as [|t0 [|t1 ts]].
    + cbn. rewrite N. by repeat split.
    + destruct HT as [HT _]. congruence.
    + destruct HT.
  - cbn [step]. destruct (turns a !! i) as [t|] eqn:Ht; [|by split].
    pose proof (event_client s event (client a) t) as (K & _).
    pose proof (event_turn s event (client a) t) as (_ & _ & _ & _ & T & _).
    destruct (handleSendMessage_event s event (client a, t)) as [c1 t1].
    cbn [fst snd client turns] in *.
    destruct K as (_ & _ & _ & _ & _ & KP & _ & KA & _).
    rewrite KP, KA. split; [|exact HA].
    destruct (turns a) as [|t0 [|t2 ts]]; [discriminate| |destruct HT].
    destruct i as [|i]; [|discriminate]. cbn in Ht. injection Ht as ->.
    cbn. destruct HT as [HP HN]. split; [exact HP|].
    rewrite T. unfold reported_agentSessionId, reported. cbn.
    destruct (is_complete event); cbn; [|exact HN].
    destruct (keep_truthy (StreamEvent.session_id event)) as [u|] eqn:E;
      cbn; [|exact HN].
    by apply keep_truthy_Some in E.
  - cbn [step]. destruct (turns a !! i) as [t|] eqn:Ht; [|by split].
    pose proof (end_state t (client a)) as (_ & _ & A & _).
    pose proof (finally_idle) as F.
    cbn [client turns].
    destruct (turns a) as [|t0 [|t2 ts]]; [discriminate| |destruct HT].
    destruct i as [|i]; [|discriminate]. cbn in Ht. injection Ht as ->.
    cbn [delete list_delete]. split.
    + unfold handleSendMessage_end. apply finally_idle.
    + cbn zeta in A. rewrite A. by apply keep_truthy_or_obj.
  - cbn [step]. destruct (turns a !! i) as [t|] eqn:Ht; [|by split].
    cbn [client turns].
    destruct (turns a) as [|t0 [|t2 ts]]; [discriminate| |destruct HT].
    destruct i as [|i]; [|discriminate].
    cbn [delete list_delete]. by split.
  - cbn [step with_page with_client client turns on_page page].
    unfold handleReset.
    destruct (isProcessing (page (client a))) eqn:E; cbn [negb];
      [rewrite E; by split|].
    cbn. rewrite E. by split.
  - cbn [step]. destruct (upload_enabled (page (client a))); [|by split].
    cbn. by split.
  - cbn [step]. destruct (analyses a); [by split|].
    pose proof (handleFileSelect_end_same r s (page (client a)))
      as (_ & A & _ & P).
    cbn [with_page with_client client turns on_page page].
    rewrite A, P. by split.
  - pose proof (restore_fetched_same fb ob cf (page (client a)))
      as (_ & A & _ & P).
    cbn [step with_page with_client client turns on_page page].
    rewrite A, P. by split.
  - cbn. by split.
  - cbn. by split.
  - cbn [step]. unfold handleParseFiles_start.
    destruct (truthy_str (userSessionId (page (client a)))); cbn; by split.
  - cbn [step]. destruct (parses a !! i) as [run|] eqn:Hr; [|by split].
    pose proof (handleParseFiles_event_same event (page (client a)) run)
      as (_ & A & _ & P).
    destruct (handleParseFiles_event event (page (client a), run))
      as [p1 run1].
    cbn [fst client turns on_page page] in *. rewrite A, P. by split.
  - cbn [step]. destruct (parses a !! i) as [run|] eqn:Hr; by split.
  - cbn [step]. destruct (parses a !! i) as [run|] eqn:Hr; by split.
Qed.

Lemma reachable_well_formed (a : App) : reachable a -> well_formed a.
Proof.
  induction 1 as [url stored created|act a _ IH].
  - apply well_formed_mounted.
  - by apply well_formed_step.
Qed.

(** C3.  In every state the application reaches at most one turn is in
    flight, and one is in flight exactly while [isProcessing] is true.  An
    instruction submitted while no file is loaded, while no fields are
    loaded or while [isProcessing] is true changes nothing: no stream is
    opened, no message is appended, the turn in flight is left as it is,
    and the text stays in the input.  The page's own handler, called
    without a file, opens no stream and starts no turn either: it appends
    one system message that asks for a PDF, and no user or assistant
    message. *)
Theorem one_turn_in_flight (a : App) :
  reachable a ->
  (length (turns a) <= 1)%nat
  /\ (turns a <> [] <-> isProcessing (page (client a)) = true)
  /\ (forall su sa : Stamp,
        file (page (client a)) = None
        \/ fields (page (client a)) = []
        \/ isProcessing (page (client a)) = true ->
        step (Submit su sa) a = a)
  /\ forall (content : string) (su sa : Stamp),
       file (page (client a)) = None ->
       exists c1,
         handleSendMessage_start content su sa (client a) = (c1, None)
         /\ opened c1 = opened (client a)
         /\ messages (page c1)
            = (messages (page (client a))
                 ++ [createMessage su Role.system
                       "Please upload a PDF first" None])%list.
Proof.
  intros Hr. apply reachable_well_formed in Hr as [HT _].
  split; [|split; [|split]].
  - destruct (turns a) as [|t0 [|t1 ts]]; cbn; [lia | lia | destruct HT].
  - destruct (turns a) as [|t0 [|t1 ts]]; [| |destruct HT].
    + rewrite HT. split; [done | discriminate].
    + destruct HT as [-> _]. split; [done | discriminate].
  - intros su sa Hrej. cbn [step]. unfold handleSubmit.
    destruct (submit_accepted a) eqn:Hacc; [|reflexivity].
    apply submit_accepted_file in Hacc as (Hp & [f Hf] & Hfs).
    destruct Hrej as [Hn|[Hn|Hn]]; congruence.
  - intros content su sa Hn. unfold handleSendMessage_start. rewrite Hn.
    eexists. split; [reflexivity|]. split; reflexivity.
Qed.

(** While [isProcessing] is true there is a turn in flight, and the end of
    its stream, by closing or by a fault, lowers [isProcessing] and
    empties the status message. *)
Lemma processing_turn_ends (a : App) :
  reachable a ->
  isProcessing (page (client a)) = true ->
  exists t,
    turns a = [t]
    /\ isProcessing (page (client (step (Close 0) a))) = false
    /\ statusMessage (page (client (step (Close 0) a))) = ""
    /\ forall (e : Thrown) (s : Stamp),
         isProcessing (page (client (step (Fail 0 e s) a))) = false
         /\ statusMessage (page (client (step (Fail 0 e s) a))) = "".
Proof.
  intros Hr Hp. apply reachable_well_formed in Hr as [HT _].
  destruct (turns a) as [|t [|t1 ts]] eqn:Ht; [congruence| |destruct HT].
  exists t. split; [reflexivity|]. cbn [step]. rewrite Ht. cbn [lookup list_lookup client].
  split; [apply finally_idle|]. split; [apply finally_idle|].
  intros e s. apply finally_idle.
Qed.

Lemma reachable_agentSessionId (a : App) :
  reachable a ->
  truthy_str (agentSessionId (page (client a)))
  = bool_decide (is_Some (agentSessionId (page (client a)))).
Proof.
  intros Hr. apply reachable_well_formed in Hr as [_ HA].
  unfold keep_truthy in HA.
  destruct (agentSessionId (page (client a))) as [u|] eqn:E;
    [|reflexivity].
  destruct (truthy_str (Some u)); [|discriminate].
  symmetry. apply bool_decide_eq_true. eauto.
Qed.

(** C2, amended.  At the start of a turn, in any state the application
    reaches with a file loaded, the turn is a continuation exactly when
    the page holds both an agent session id and a filled document.  The
    stream is opened with the filled document only when the turn is a
    continuation; the applied edits and the agent session id are passed as
    the page holds them whether or not it is one, and so is the user
    session id. *)
Theorem continuation_decision (a : App) (content : string) (su sa : Stamp)
    (f : File) :
  reachable a ->
  file (page (client a)) = Some f ->
  let p := page (client a) in
  let cont :=
    bool_decide (is_Some (agentSessionId p) /\ is_Some (filledPdfBytes p)) in
  exists c1 t,
    handleSendMessage_start content su sa (client a) = (c1, Some t)
    /\ isContinuation t = cont
    /\ opened c1
       = (opened (client a)
            ++ [{| FillRequest.file := f;
                   FillRequest.instructions := content;
                   FillRequest.filledPdfBytes :=
                     if cont then filledPdfBytes p else None;
                   FillRequest.isContinuation := cont;
                   FillRequest.previousEdits := appliedEdits p;
                   FillRequest.resumeSessionId := agentSessionId p;
                   FillRequest.userSessionId := userSessionId p |}])%list.
Proof.
  intros Hr Hf p cont.
  assert (Hc : truthy_str (agentSessionId p) && truthy_obj (filledPdfBytes p)
               = cont).
  { subst cont p. rewrite (reachable_agentSessionId a Hr), bool_decide_and.
    f_equal. by destruct (filledPdfBytes (page (client a))). }
  subst p. unfold handleSendMessage_start. rewrite Hf. cbn zeta.
  rewrite Hc. eexists _, _. split; [reflexivity|]. split; reflexivity.
Qed.


(** * Further properties of the page *)

(** ** The messages only grow *)

Lemma message_grows_refl (m : ChatMessage.t) : message_grows m m.
Proof. unfold message_grows. split_and!; reflexivity. Qed.

Lemma message_grows_trans (m1 m2 m3 : ChatMessage.t) :
  message_grows m1 m2 -> message_grows m2 m3 -> message_grows m1 m3.
Proof.
  intros (A1 & B1 & C1 & D1) (A2 & B2 & C2 & D2).
  unfold message_grows. split_and!; try congruence. by etrans.
Qed.

Lemma messages_grow_refl (l : list ChatMessage.t) : messages_grow l l.
Proof.
  exists l, []. rewrite app_nil_r. split; [reflexivity|].
  induction l; constructor; [apply message_grows_refl | assumption].
Qed.

Lemma messages_grow_snoc (l : list ChatMessage.t) (added : list ChatMessage.t) :
  messages_grow l (l ++ added).
Proof.
  exists l, added. split; [reflexivity|].
  induction l; constructor; [apply message_grows_refl | assumption].
Qed.

Lemma messages_grow_trans (l1 l2 l3 : list ChatMessage.t) :
  messages_grow l1 l2 -> messages_grow l2 l3 -> messages_grow l1 l3.
Proof.
  intros (k1 & a1 & -> & F1) (k2 & a2 & -> & F2).
  apply Forall2_app_inv_l in F2 as (k2' & a2' & F2 & _ & ->).
  exists k2', (a2' ++ a2)%list. split; [by rewrite app_assoc|].
  clear -F1 F2. revert k2' F2.
  induction F1 as [|m1 m2 l1 k1 H _ IH]; intros k2' F2.
  - inversion F2. constructor.
  - inversion F2 as [|? m3 ? k3 H' F2']; subst. constructor.
    + by eapply message_grows_trans.
    + by apply IH.
Qed.

Lemma messages_grow_map (id : string) (f : ChatMessage.t -> ChatMessage.t)
    (l : list ChatMessage.t) :
  (forall m, message_grows m (f m)) ->
  messages_grow l (map_message id f l).
Proof.
  intros Hf. exists (map_message id f l), []. rewrite app_nil_r.
  split; [reflexivity|]. unfold map_message.
  induction l as [|m l IH]; cbn; constructor; [|exact IH].
  destruct (String.eqb (ChatMessage.id m) id);
    [apply Hf | apply message_grows_refl].
Qed.

Lemma append_log_grows (le : option AgentLogEntry.t) (m : ChatMessage.t) :
  message_grows m (append_log le m).
Proof.
  unfold message_grows. split_and!; try reflexivity.
  cbn. destruct le as [e|]; cbn; [|reflexivity].
  by apply prefix_app_r.
Qed.

Lemma finalize_complete_grows (st : Status.t) (c : string)
    (m : ChatMessage.t) :
  message_grows m (with_status_content st c m).
Proof. unfold message_grows. split_and!; reflexivity. Qed.

Lemma finalize_error_grows (l : list AgentLogEntry.t) (st : Status.t)
    (c : string) (m : ChatMessage.t) :
  message_grows m
    (with_agentLog (Some (default [] (ChatMessage.agentLog m) ++ l)%list)
       (with_status_content st c m)).
Proof.
  unfold message_grows. split_and!; try reflexivity.
  cbn. by apply prefix_app_r.
Qed.

Lemma handleFileSelect_end_messages_grow (r : AnalyzeOutcome) (s : Stamp)
    (p : Page) :
  messages_grow (messages p) (messages (handleFileSelect_end r s p)).
Proof.
  unfold handleFileSelect_end.
  destruct r as [fs n|e]; [destruct (0 <? n)|]; cbn;
    apply messages_grow_snoc.
Qed.

Lemma restore_fetched_messages (fb ob : Settled (option Uint8Array))
    (cf : Settled (option (list ContextFile))) (p : Page) :
  messages (restore_fetched fb ob cf p) = messages p.
Proof.
  destruct fb as [[b|]|], ob as [[b'|]|], cf as [[l|]|]; reflexivity.
Qed.

Lemma handleParseFiles_event_messages (event : ParseEvent.t) (p : Page)
    (r : ParseRun) :
  messages (fst (handleParseFiles_event event (p, r))) = messages p.
Proof.
  unfold handleParseFiles_event.
  destruct (ParseEvent.type event), (ParseEvent.current event),
    (ParseEvent.total event); cbn; try reflexivity.
  destruct (truthy_str (ParseEvent.filename event)
            && truthy_str (ParseEvent.status event)); reflexivity.
Qed.

Lemma step_messages_grow (act : Action) (a : App) :
  messages_grow (messages (page (client a)))
    (messages (page (client (step act a)))).
Proof.
  destruct act as [s0|su sa|i s event|i|i e s| |f|r s|fb ob cf|m|l|s|i event|i|i e s];
    cbn [step].
  - apply messages_grow_refl.
  - unfold handleSubmit. destruct (submit_accepted a);
      [|apply messages_grow_refl].
    unfold handleSendMessage_start.
    destruct (file (page (client a))); cbn.
    + apply messages_grow_snoc.
    + apply messages_grow_snoc.
  - destruct (turns a !! i) as [t|]; [|apply messages_grow_refl].
    pose proof (event_client s event (client a) t) as (_ & _ & _ & M & _).
    destruct (handleSendMessage_event s event (client a, t)) as [c1 t1].
    cbn [fst client] in *. rewrite M.
    apply messages_grow_map, append_log_grows.
  - destruct (turns a !! i) as [t|]; [|apply messages_grow_refl].
    cbn [client]. rewrite end_messages.
    apply messages_grow_map, finalize_complete_grows.
  - destruct (turns a !! i) as [t|]; [|apply messages_grow_refl].
    cbn [client]. rewrite catch_messages.
    apply messages_grow_map. intros m0. apply finalize_error_grows.
  - cbn. unfold handleReset.
    destruct (isProcessing (page (client a))); apply messages_grow_refl.
  - destruct (upload_enabled (page (client a))); apply messages_grow_refl.
  - destruct (analyses a); [apply messages_grow_refl|].
    apply handleFileSelect_end_messages_grow.
  - cbn. rewrite restore_fetched_messages. apply messages_grow_refl.
  - apply messages_grow_refl.
  - apply messages_grow_refl.
  - unfold handleParseFiles_start.
    destruct (truthy_str (userSessionId (page (client a))));
      apply messages_grow_refl.
  - destruct (parses a !! i) as [r0|]; [|apply messages_grow_refl].
    pose proof (handleParseFiles_event_messages event (page (client a)) r0)
      as M.
    destruct (handleParseFiles_event event (page (client a), r0))
      as [p1 r1].
    cbn [fst client on_page page] in *. rewrite M. apply messages_grow_refl.
  - destruct (parses a !! i) as [r0|]; apply messages_grow_refl.
  - destruct (parses a !! i) as [r0|]; [|apply messages_grow_refl].
    cbn. apply messages_grow_snoc.
Qed.

(** X1.  Over any sequence of actions on the mounted page no message is
    removed or reordered: every message that was there is still there, at
    the same position, with the same id, role and timestamp, and with an
    activity log that extends the one it had; new messages come after
    them. *)
Theorem messages_only_grow (acts : list Action) (a : App) :
  messages_grow (messages (page (client a)))
    (messages (page (client (run acts a)))).
Proof.
  revert a. induction acts as [|act acts IH]; intros a.
  - apply messages_grow_refl.
  - cbn. eapply messages_grow_trans; [apply step_messages_grow | apply IH].
Qed.


(** ** The messages a turn leaves *)

Lemma loop_snoc (arrivals : list (Stamp * StreamEvent.t))
    (a : Stamp * StreamEvent.t) (ct : Client * Turn) :
  handleSendMessage_loop (arrivals ++ [a])%list ct
  = handleSendMessage_event (fst a) (snd a)
      (handleSendMessage_loop arrivals ct).
Proof. unfold handleSendMessage_loop. by rewrite foldl_snoc. Qed.

Lemma or_obj_last_omap_snoc {A B : Type} (g : A -> option B) (l : list A)
    (x : A) (d : option B) :
  or_obj (last (omap g (l ++ [x])%list)) d
  = or_obj (g x) (or_obj (last (omap g l)) d).
Proof.
  rewrite omap_app. cbn. destruct (g x) as [y|]; cbn.
  - by rewrite last_snoc.
  - by rewrite app_nil_r.
Qed.

Lemma complete_content_not_empty (continuation : bool) (n : Z)
    (edits : option Edits) :
  complete_content continuation n edits <> "".
Proof. unfold complete_content. destruct continuation; discriminate. Qed.

Lemma or_str_not_empty (o : option string) (d : string) :
  d <> "" -> or_str o d <> "".
Proof.
  intros Hd. unfold or_str. destruct o as [s|]; [|exact Hd].
  destruct (String.eqb s "") eqn:E; [exact Hd|].
  by apply String.eqb_neq.
Qed.

Lemma or_str_keep (s d : string) : s <> "" -> or_str (Some s) d = s.
Proof.
  intros Hs. unfold or_str. apply String.eqb_neq in Hs. by rewrite Hs.
Qed.

(** The content and the count the loop leaves in the variables of the
    handler. *)
Lemma loop_content (arrivals : list (Stamp * StreamEvent.t)) (c : Client)
    (t : Turn) :
  let t' := snd (handleSendMessage_loop arrivals (c, t)) in
  match last (List.filter is_terminal arrivals) with
  | None =>
      finalContent t' = finalContent t /\ appliedCount t' = appliedCount t
  | Some a =>
      finalContent t'
      = match StreamEvent.type (snd a) with
        | EventType.complete =>
            complete_content (isContinuation t)
              (or_num (StreamEvent.applied_count (snd a)) 0)
              (or_obj (reported_edits arrivals) (newAppliedEdits t))
        | _ => or_str (StreamEvent.error (snd a)) "An error occurred"
        end
  end.
Proof.
  induction arrivals as [|[s event] arrivals IH] using rev_ind.
  - cbn. by split.
  - cbn zeta in *. rewrite loop_snoc. cbn [fst snd].
    pose proof (loop_state arrivals c t)
      as (_ & _ & _ & _ & _ & _ & C & E & _).
    destruct (handleSendMessage_loop arrivals (c, t)) as [c1 t1].
    cbn [fst snd] in *.
    rewrite List.filter_app. unfold reported_edits, reported in *.
    rewrite or_obj_last_omap_snoc. cbn [List.filter snd].
    unfold is_terminal at 2, is_complete at 1. cbn [snd].
    unfold handleSendMessage_event.
    destruct (StreamEvent.type event) eqn:Hty; cbn [snd fst];
      rewrite ?app_nil_r, ?last_snoc; cbn [snd]; rewrite ?Hty;
      try exact IH; try reflexivity.
    + unfold assign_complete, complete_content. cbn.
      rewrite C, E.
      destruct (StreamEvent.applied_edits event); reflexivity.
    + destruct (truthy_str (StreamEvent.pdf_bytes event)); cbn; exact IH.
Qed.

Lemma map_message_compose (id : string)
    (f g : ChatMessage.t -> ChatMessage.t) (l : list ChatMessage.t) :
  (forall m, ChatMessage.id (g m) = ChatMessage.id m) ->
  map_message id f (map_message id g l)
  = map_message id (fun m => f (g m)) l.
Proof.
  intros Hg. unfold map_message. rewrite <- list_fmap_compose.
  apply list_fmap_ext. intros _ m _. cbn.
  destruct (String.eqb (ChatMessage.id m) id) eqn:E.
  - by rewrite Hg, E.
  - by rewrite E.
Qed.

Lemma map_message_ext (id : string) (f g : ChatMessage.t -> ChatMessage.t)
    (l : list ChatMessage.t) :
  (forall m, f m = g m) -> map_message id f l = map_message id g l.
Proof.
  intros H. unfold map_message. apply list_fmap_ext. intros _ m _.
  cbn. by rewrite H.
Qed.

Lemma map_message_fresh (id : string) (f : ChatMessage.t -> ChatMessage.t)
    (l : list ChatMessage.t) :
  id ∉ (ChatMessage.id <$> l) -> map_message id f l = l.
Proof.
  unfold map_message. induction l as [|m l IH]; intros H; [reflexivity|].
  cbn in *. apply not_elem_of_cons in H as [H1 H2].
  rewrite IH by exact H2.
  destruct (String.eqb (ChatMessage.id m) id) eqn:E; [|reflexivity].
  apply String.eqb_eq in E. congruence.
Qed.

Lemma extend_log_append (le : option AgentLogEntry.t)
    (entries : list AgentLogEntry.t) (m : ChatMessage.t) :
  extend_log entries (append_log le m)
  = extend_log (from_option (fun e => [e]) [] le ++ entries)%list m.
Proof.
  destruct le as [e|]; cbn.
  - destruct entries as [|e' entries]; cbn; [reflexivity|].
    unfold with_agentLog. cbn. by rewrite <- app_assoc.
  - unfold append_log, with_agentLog.
    destruct m; destruct entries; reflexivity.
Qed.

(** After the loop, every message with the id of the placeholder has the
    entries of the events appended to its log, and the others are as they
    were. *)
Lemma loop_messages_exact (arrivals : list (Stamp * StreamEvent.t)) :
  forall (c : Client) (t : Turn),
    messages (page (fst (handleSendMessage_loop arrivals (c, t))))
    = map_message (assistantMessage_id t) (extend_log (turn_log arrivals))
        (messages (page c)).
Proof.
  induction arrivals as [|[s event] arrivals IH]; intros c t.
  - cbn. unfold map_message. symmetry. etrans; [|apply list_fmap_id].
    apply list_fmap_ext. intros _ m _. cbn.
    by destruct (String.eqb (ChatMessage.id m) (assistantMessage_id t)).
  - rewrite loop_cons. cbn [fst snd].
    pose proof (event_client s event c t) as (_ & _ & _ & M & _).
    pose proof (event_turn s event c t) as (_ & A & _).
    destruct (handleSendMessage_event s event (c, t)) as [c1 t1].
    cbn [fst snd] in *. rewrite IH, M, A.
    rewrite map_message_compose by reflexivity.
    apply map_message_ext. intros m. rewrite extend_log_append.
    unfold turn_log. cbn [omap list_omap fst snd].
    by destruct (createLogEntry s event).
Qed.


Lemma or_obj_None_r {A : Type} (o : option A) : or_obj o None = o.
Proof. by destruct o. Qed.

Lemma extend_log_placeholder (sa : Stamp) (entries : list AgentLogEntry.t) :
  extend_log entries
    (with_agentLog (Some [])
       (createMessage sa Role.assistant "" (Some Status.streaming)))
  = with_agentLog (Some entries)
      (createMessage sa Role.assistant "" (Some Status.streaming)).
Proof. by destruct entries. Qed.

(** The content the closing of the stream gives the placeholder. *)
Lemma closing_content_of_loop (arrivals : list (Stamp * StreamEvent.t))
    (c : Client) (t : Turn) :
  finalContent t = "" -> appliedCount t = 0 -> newAppliedEdits t = None ->
  let t' := snd (handleSendMessage_loop arrivals (c, t)) in
  or_str (Some (finalContent t'))
    ("Filled " +:+ pretty (appliedCount t') +:+ " fields.")
  = closing_content (isContinuation t) arrivals
  /\ closing_content (isContinuation t) arrivals <> "".
Proof.
  intros H1 H2 H3 t'. subst t'.
  pose proof (loop_content arrivals c t) as L. cbn zeta in L.
  unfold closing_content.
  destruct (last (List.filter is_terminal arrivals)) as [a|].
  - rewrite H3, or_obj_None_r in L.
    assert (N : finalContent (snd (handleSendMessage_loop arrivals (c, t)))
                <> "").
    { rewrite L. destruct (StreamEvent.type (snd a));
        first [ apply complete_content_not_empty
              | by apply or_str_not_empty ]. }
    rewrite (or_str_keep _ _ N). split; [exact L|]. by rewrite <- L.
  - destruct L as [-> ->]. rewrite H1, H2. by split.
Qed.

(** X2.  When the stream of a started turn closes, the content of the
    placeholder is decided by the last [complete] or [error] event of the
    stream: a count summary for [complete] (with the total of the applied
    edits when the turn is a continuation), the text of the error for
    [error] (or "An error occurred" when it has none), and "Filled 0
    fields." when the stream had neither.  An [error] after a [complete]
    replaces the summary, a [complete] after an [error] replaces the text
    of the error.  The content is never empty. *)
Theorem closed_turn_content (content : string) (su sa : Stamp)
    (arrivals : list (Stamp * StreamEvent.t)) (c : Client) :
  is_Some (file (page c)) ->
  exists m,
    placeholder (handleSendMessage content su sa arrivals Closed c) = Some m
    /\ ChatMessage.content m
       = closing_content
           (truthy_str (agentSessionId (page c))
            && truthy_obj (filledPdfBytes (page c)))
           arrivals
    /\ ChatMessage.content m <> "".
Proof.
  intros [f Hf]. unfold handleSendMessage, placeholder.
  destruct (start_with_file content su sa c f Hf)
    as (c1 & t & Hs & M & _ & _ & _ & _ & A & I & N1 & _).
  rewrite Hs. cbn [handleSendMessage_finish].
  assert (F0 : finalContent t = "" /\ appliedCount t = 0).
  { unfold handleSendMessage_start in Hs. rewrite Hf in Hs.
    injection Hs as _ <-. by split. }
  destruct F0 as [F0 F1].
  pose proof (closing_content_of_loop arrivals c1 t F0 F1 N1) as [C1 C2].
  pose proof (loop_messages_exact arrivals c1 t) as E.
  pose proof (loop_state arrivals c1 t) as (_ & _ & _ & _ & _ & A' & _).
  destruct (handleSendMessage_loop arrivals (c1, t)) as [c2 t2].
  cbn [fst snd] in *.
  assert (E2 : exists l1,
            messages (page c2)
            = (l1 ++ [with_agentLog (Some (turn_log arrivals))
                        (createMessage sa Role.assistant ""
                           (Some Status.streaming))])%list).
  { rewrite E, M, A. rewrite map_message_snoc by reflexivity.
    rewrite extend_log_placeholder. eauto. }
  destruct E2 as [l1 E2]. rewrite end_messages, E2, A', A.
  rewrite map_message_snoc by reflexivity. rewrite last_snoc.
  eexists. split; [reflexivity|].
  cbn [with_status_content ChatMessage.content].
  rewrite C1. rewrite I in *. by split.
Qed.

(** X3.  When the id drawn for the placeholder is not the id of an earlier
    message nor the one drawn for the user message, a started turn leaves
    the earlier messages exactly as they were and adds two: the user
    message with the instruction, and the placeholder, finalized as
    [complete] with the closing content and the entries of the events
    when the stream closes, and as [error] with the message of the fault
    and one more error entry when the iteration throws. *)
Theorem turn_messages_exact (content : string) (su sa : Stamp)
    (arrivals : list (Stamp * StreamEvent.t)) (fin : StreamEnd)
    (c : Client) :
  is_Some (file (page c)) ->
  fresh_id sa ∉ (ChatMessage.id <$> messages (page c)) ->
  fresh_id sa <> fresh_id su ->
  messages (page (handleSendMessage content su sa arrivals fin c))
  = (messages (page c)
       ++ [createMessage su Role.user content None;
           finalized sa
             (truthy_str (agentSessionId (page c))
              && truthy_obj (filledPdfBytes (page c)))
             arrivals fin])%list.
Proof.
  intros [f Hf] Hfresh Hne. unfold handleSendMessage.
  destruct (start_with_file content su sa c f Hf)
    as (c1 & t & Hs & M & _ & _ & _ & _ & A & I & N1 & _).
  rewrite Hs.
  assert (F0 : finalContent t = "" /\ appliedCount t = 0).
  { unfold handleSendMessage_start in Hs. rewrite Hf in Hs.
    injection Hs as _ <-. by split. }
  destruct F0 as [F0 F1].
  pose proof (closing_content_of_loop arrivals c1 t F0 F1 N1) as [C1 _].
  pose proof (loop_messages_exact arrivals c1 t) as E.
  pose proof (loop_state arrivals c1 t) as (_ & _ & _ & _ & _ & A' & _).
  destruct (handleSendMessage_loop arrivals (c1, t)) as [c2 t2].
  cbn [fst snd] in *.
  assert (E' : messages (page c2)
               = ((messages (page c)
                     ++ [createMessage su Role.user content None])
                    ++ [with_agentLog (Some (turn_log arrivals))
                          (createMessage sa Role.assistant ""
                             (Some Status.streaming))])%list).
  { rewrite E, M, A. rewrite !map_message_snoc by reflexivity.
    rewrite extend_log_placeholder. f_equal.
    apply map_message_fresh. rewrite fmap_app. cbn.
    intros [H|H]%elem_of_app; [by apply Hfresh|].
    apply list_elem_of_singleton in H. by apply Hne. }
  assert (Hpre : forall g,
            map_message (fresh_id sa) g
              (messages (page c)
                 ++ [createMessage su Role.user content None])%list
            = (messages (page c)
                 ++ [createMessage su Role.user content None])%list).
  { intros g. apply map_message_fresh. rewrite fmap_app. cbn.
    intros [H|H]%elem_of_app; [by apply Hfresh|].
    apply list_elem_of_singleton in H. by apply Hne. }
  destruct fin as [|e s]; cbn [handleSendMessage_finish fst snd finalized].
  - rewrite end_messages, E', A', A.
    rewrite map_message_snoc by reflexivity. rewrite Hpre.
    rewrite <- app_assoc. rewrite C1, I. reflexivity.
  - rewrite catch_messages, E', A', A.
    rewrite map_message_snoc by reflexivity. rewrite Hpre.
    rewrite <- app_assoc. reflexivity.
Qed.


(** ** The document and the status message during a turn *)

Lemma fold_log_view (id : string) (le : option AgentLogEntry.t) (p : Page) :
  pdfDisplayMode (fold_log id le p) = pdfDisplayMode p
  /\ statusMessage (fold_log id le p)
     = match le with
       | Some e =>
           if has_message id (messages p)
           then AgentLogEntry.content e else statusMessage p
       | None => statusMessage p
       end.
Proof.
  unfold fold_log. destruct le as [e|]; [|by split].
  destruct (has_message id (messages p)); by split.
Qed.

Lemma event_view (s : Stamp) (event : StreamEvent.t) (c : Client)
    (t : Turn) :
  let c' := fst (handleSendMessage_event s event (c, t)) in
  pdfDisplayMode (page c')
  = match decoded_pdf [(s, event)] with
    | Some _ => filled
    | None => pdfDisplayMode (page c)
    end
  /\ statusMessage (page c')
     = match createLogEntry s event with
       | Some e =>
           if has_message (assistantMessage_id t) (messages (page c))
           then AgentLogEntry.content e else statusMessage (page c)
       | None => statusMessage (page c)
       end.
Proof.
  pose proof (fold_log_view (assistantMessage_id t)
                (createLogEntry s event) (page c)) as [D S].
  unfold handleSendMessage_event, decoded_pdf. cbn [omap list_omap snd fst].
  destruct (StreamEvent.type event) eqn:Hty; cbn; try (by split).
  destruct (truthy_str (StreamEvent.pdf_bytes event)); cbn; by split.
Qed.

Lemma has_message_map (id : string) (f : ChatMessage.t -> ChatMessage.t)
    (l : list ChatMessage.t) :
  (forall m, ChatMessage.id (f m) = ChatMessage.id m) ->
  has_message id (map_message id f l) = has_message id l.
Proof.
  intros Hf. unfold has_message, map_message.
  induction l as [|m l IH]; [reflexivity|]. cbn. rewrite IH. f_equal.
  destruct (String.eqb (ChatMessage.id m) id) eqn:E; [|exact E].
  by rewrite Hf.
Qed.

Lemma loop_view (arrivals : list (Stamp * StreamEvent.t)) :
  forall (c : Client) (t : Turn),
    has_message (assistantMessage_id t) (messages (page c)) = true ->
    let c' := fst (handleSendMessage_loop arrivals (c, t)) in
    pdfDisplayMode (page c')
    = match decoded_pdf arrivals with
      | Some _ => filled
      | None => pdfDisplayMode (page c)
      end
    /\ statusMessage (page c')
       = from_option AgentLogEntry.content (statusMessage (page c))
           (last (turn_log arrivals)).
Proof.
  induction arrivals as [|[s event] arrivals IH]; intros c t H.
  - by split.
  - cbn zeta. rewrite loop_cons. cbn [fst snd].
    pose proof (event_view s event c t) as [D S].
    pose proof (event_client s event c t) as (_ & _ & _ & M & _).
    pose proof (event_turn s event c t) as (_ & A & _).
    destruct (handleSendMessage_event s event (c, t)) as [c1 t1].
    cbn [fst snd] in *.
    assert (H1 : has_message (assistantMessage_id t1) (messages (page c1))
                 = true).
    { rewrite A, M. rewrite has_message_map by reflexivity. exact H. }
    destruct (IH c1 t1 H1) as [D' S']. rewrite D', S', D, S, H.
    unfold decoded_pdf, turn_log. cbn [omap list_omap fst snd].
    split.
    + destruct (StreamEvent.type event);
        try reflexivity.
      destruct (truthy_str (StreamEvent.pdf_bytes event)); [|reflexivity].
      cbn [last]. rewrite last_cons.
      by match goal with |- context [last ?l] => destruct (last l) end.
    + destruct (createLogEntry s event) as [e|]; [|reflexivity].
      rewrite last_cons.
      by match goal with |- context [last ?l] => destruct (last l) end.
Qed.




(** X5.  While a turn is in flight, after any number of events,
    [isProcessing] is true and the status message is the content of the
    latest log entry; before the first entry it is "Starting agent...".
    Events that make no entry leave it as it is. *)
Theorem status_message_follows_log (content : string) (su sa : Stamp)
    (arrivals : list (Stamp * StreamEvent.t)) (c : Client) :
  is_Some (file (page c)) ->
  exists c1 t,
    handleSendMessage_start content su sa c = (c1, Some t)
    /\ isProcessing (page (fst (handleSendMessage_loop arrivals (c1, t))))
       = true
    /\ statusMessage (page (fst (handleSendMessage_loop arrivals (c1, t))))
       = from_option AgentLogEntry.content "Starting agent..."
           (last (turn_log arrivals)).
Proof.
  intros [f Hf].
  destruct (start_with_file content su sa c f Hf)
    as (c1 & t & Hs & M & K & _ & _ & _ & A & _).
  exists c1, t. split; [exact Hs|].
  assert (H : has_message (assistantMessage_id t) (messages (page c1))
              = true).
  { rewrite M, A. unfold has_message. rewrite existsb_app. cbn.
    rewrite String.eqb_refl. by rewrite orb_true_r. }
  pose proof (loop_view arrivals c1 t H) as [_ S].
  pose proof (loop_state arrivals c1 t) as (K' & _).
  destruct K as (_ & _ & _ & _ & _ & KP & _).
  destruct K' as (_ & _ & _ & _ & _ & KP' & _).
  cbn zeta in *. rewrite KP', KP. split; [reflexivity|].
  rewrite S. f_equal.
  unfold handleSendMessage_start in Hs. rewrite Hf in Hs.
  by injection Hs as <- _.
Qed.


(** ** Selecting a file *)


(** X7.  How the analysis of a selected file ends.  When [analyzePdf]
    returns, the fields become the ones it returned, whatever count it
    reports, and one system message is added: the count when it is
    positive, a notice that nothing was detected otherwise.  When it
    throws, the file stays selected and the fields stay the ones the page
    held before the selection, with one system message for the error; the
    chat is then enabled exactly when there were fields before.  In every
    case [isAnalyzing] is false afterwards and the earlier messages are
    kept. *)
Theorem analysis_outcome (f : File) (r : AnalyzeOutcome) (s : Stamp)
    (p : Page) :
  let p' := handleFileSelect_end r s (handleFileSelect_start (Some f) p) in
  file p' = Some f /\ isAnalyzing p' = false
  /\ match r with
     | Analyzed fs n =>
         fields p' = fs
         /\ messages p'
            = (messages p
                 ++ [createMessage s Role.system
                       (if 0 <? n
                        then "Detected " +:+ pretty n
                               +:+ " fillable fields in the PDF"
                        else "No fillable form fields detected. Make sure this is a PDF with AcroForm fields.")
                       None])%list
     | AnalyzeThrew e =>
         fields p' = fields p
         /\ messages p'
            = (messages p
                 ++ [createMessage s Role.system
                       ("Error analyzing PDF: " +:+ error_message e)
                       None])%list
         /\ chat_disabled p' = (length (fields p) =? 0)%nat
     end.
Proof.
  unfold handleFileSelect_end.
  destruct r as [fs n|e]; [destruct (0 <? n)|]; repeat split.
Qed.

(** ** Parsing context files *)

Lemma handleParseFiles_loop_snoc (events : list ParseEvent.t)
    (event : ParseEvent.t) (pr : Page * ParseRun) :
  handleParseFiles_loop (events ++ [event])%list pr
  = handleParseFiles_event event (handleParseFiles_loop events pr).
Proof. unfold handleParseFiles_loop. by rewrite foldl_snoc. Qed.

Lemma handleParseFiles_event_page (event : ParseEvent.t) (p : Page)
    (r : ParseRun) :
  let p' := fst (handleParseFiles_event event (p, r)) in
  contextFiles p' = contextFiles p /\ messages p' = messages p
  /\ userSessionId p' = userSessionId p
  /\ isUploadingContext p' = isUploadingContext p.
Proof.
  unfold handleParseFiles_event.
  destruct (ParseEvent.type event), (ParseEvent.current event),
    (ParseEvent.total event); cbn [fst];
    try destruct (truthy_str (ParseEvent.filename event)
                  && truthy_str (ParseEvent.status event));
    split_and!; reflexivity.
Qed.

Lemma handleParseFiles_event_run (event : ParseEvent.t) (p : Page)
    (r : ParseRun) :
  let r' := snd (handleParseFiles_event event (p, r)) in
  currentUserSessionId r' = currentUserSessionId r
  /\ results r' = (results r ++ parsed_files [event])%list.
Proof.
  unfold handleParseFiles_event, parsed_files. cbn.
  destruct (ParseEvent.type event), (ParseEvent.results event); cbn;
    rewrite ?app_nil_r; by split.
Qed.

Lemma handleParseFiles_loop_spec (events : list ParseEvent.t) (p : Page)
    (r : ParseRun) :
  let pr := handleParseFiles_loop events (p, r) in
  contextFiles (fst pr) = contextFiles p /\ messages (fst pr) = messages p
  /\ userSessionId (fst pr) = userSessionId p
  /\ results (snd pr) = (results r ++ parsed_files events)%list.
Proof.
  induction events as [|event events IH] using rev_ind.
  - cbn. rewrite app_nil_r. repeat split.
  - cbn zeta in *. rewrite handleParseFiles_loop_snoc.
    destruct (handleParseFiles_loop events (p, r)) as [p1 r1].
    pose proof (handleParseFiles_event_page event p1 r1) as (C & M & U & _).
    pose proof (handleParseFiles_event_run event p1 r1) as (_ & R).
    destruct (handleParseFiles_event event (p1, r1)) as [p2 r2].
    cbn [fst snd] in *. destruct IH as (C' & M' & U' & R').
    unfold parsed_files in *. rewrite fmap_app, concat_app.
    rewrite R, R', app_assoc. repeat split; congruence.
Qed.

Lemma kept_results_content (rs : list ParseEvent.result) :
  Forall (fun f => cf_content f <> "") (kept_results rs).
Proof.
  unfold kept_results. apply Forall_forall. intros f Hf.
  apply list_elem_of_omap in Hf as (r & _ & Hr).
  destruct (truthy_str (ParseEvent.r_content r)) eqn:E; [|discriminate].
  destruct (negb (truthy_str (ParseEvent.r_error r))); [|discriminate].
  cbn in Hr. injection Hr as <-. cbn.
  unfold truthy_str in E. destruct (ParseEvent.r_content r) as [s|];
    [|discriminate].
  cbn. apply negb_true_iff in E. by apply String.eqb_neq.
Qed.

(** X8.  A whole call of [handleParseFiles].  It always ends with
    [isUploadingContext] false and no progress shown.  The user session
    id the page held is kept when it is not empty, otherwise one is minted
    from the stamp.  When the stream closes, the context files gain, after
    the ones already there and in order, the results of the [complete]
    events that have a content and no error, and the messages are
    unchanged; every file gained has a content.  When the iteration
    throws, the context files stay as they were, the results collected so
    far are dropped, and one system message is added. *)
Theorem parse_run_outcome (s : Stamp) (events : list ParseEvent.t)
    (fin : ParseEnd) (p : Page) :
  let p' := handleParseFiles s events fin p in
  isUploadingContext p' = false /\ parseProgress p' = None
  /\ userSessionId p'
     = (if truthy_str (userSessionId p) then userSessionId p
        else Some (fresh_id s +:+ "-" +:+ pretty (now s)))
  /\ match fin with
     | ParseClosed =>
         contextFiles p' = (contextFiles p ++ parsed_files events)%list
         /\ messages p' = messages p
     | ParseFailed e s' =>
         contextFiles p' = contextFiles p
         /\ messages p'
            = (messages p
                 ++ [createMessage s' Role.system
                       ("Error parsing files: " +:+ error_message e)
                       None])%list
     end
  /\ Forall (fun f => cf_content f <> "") (parsed_files events).
Proof.
  intros p'. subst p'. unfold handleParseFiles.
  assert (S0 : exists p0 r0,
            handleParseFiles_start s p = (p0, r0)
            /\ contextFiles p0 = contextFiles p
            /\ messages p0 = messages p
            /\ results r0 = []
            /\ userSessionId p0
               = (if truthy_str (userSessionId p) then userSessionId p
                  else Some (fresh_id s +:+ "-" +:+ pretty (now s)))).
  { unfold handleParseFiles_start.
    destruct (truthy_str (userSessionId p));
      eexists _, _; (split; [reflexivity|]); repeat split. }
  destruct S0 as (p0 & r0 & -> & C0 & M0 & R0 & U0).
  pose proof (handleParseFiles_loop_spec events p0 r0) as (C & M & U & R).
  cbn zeta in *.
  destruct (handleParseFiles_loop events (p0, r0)) as [p1 r1].
  cbn [fst snd] in *.
  assert (HE : contextFiles (handleParseFiles_end r1 p1)
               = (contextFiles p1 ++ results r1)%list
               /\ messages (handleParseFiles_end r1 p1) = messages p1
               /\ userSessionId (handleParseFiles_end r1 p1)
                  = userSessionId p1) by (split_and!; reflexivity).
  assert (HC : forall e s',
             contextFiles (handleParseFiles_catch e s' p1) = contextFiles p1
             /\ messages (handleParseFiles_catch e s' p1)
                = (messages p1
                     ++ [createMessage s' Role.system
                           ("Error parsing files: " +:+ error_message e)
                           None])%list
             /\ userSessionId (handleParseFiles_catch e s' p1)
                = userSessionId p1) by (intros; split_and!; reflexivity).
  destruct HE as (HE1 & HE2 & HE3).
  split; [by destruct fin|]. split; [by destruct fin|].
  split.
  { destruct fin as [|e s']; [rewrite HE3|rewrite (proj2 (proj2 (HC e s')))];
      congruence. }
  split.
  - destruct fin as [|e s'].
    + rewrite HE1, HE2, C, C0, M, M0, R, R0. by split.
    + destruct (HC e s') as (-> & -> & _). rewrite C, C0, M, M0. by split.
  - unfold parsed_files. apply Forall_concat, Forall_fmap, Forall_forall.
    intros event _. cbn.
    destruct (ParseEvent.type event), (ParseEvent.results event);
      first [ apply kept_results_content | constructor ].
Qed.


(** ** A restored session *)

Lemma mount_no_file (url : option string) (stored : option StoredSession)
    (created : string) :
  file (mount url stored created initial_page) = None
  /\ filledPdfBytes (mount url stored created initial_page) = None
  /\ originalPdfBytes (mount url stored created initial_page) = None
  /\ isProcessing (mount url stored created initial_page) = false.
Proof.
  unfold mount. destruct (truthy_str url); [|repeat split].
  destruct stored as [st|]; [|repeat split].
  destruct (truthy_str (stored_userSessionId st)); repeat split.
Qed.

(** X9.  A session that is restored holds no file: the mount effect never
    sets one.  When the restore brings a filled or an original document
    from the backend, the page is left with no way to go on: the chat is
    disabled, so that no instruction is accepted whatever the input; the
    upload widget is not rendered, so that no file can be selected; and
    the "New Form" button is not rendered either. *)
Theorem restored_document_is_read_only (url : option string)
    (stored : option StoredSession) (created : string)
    (rf ro : Fetch Uint8Array) (rc : Fetch (list ContextFile)) :
  (exists b, rf = Fetched b) \/ (exists b, ro = Fetched b) ->
  let a :=
    step (Restored (fetch_promise rf) (fetch_promise ro) (fetch_promise rc))
      (mounted url stored created) in
  file (page (client a)) = None
  /\ chat_disabled (page (client a)) = true
  /\ upload_enabled (page (client a)) = false
  /\ reset_offered (page (client a)) = false
  /\ (forall (text : string) (su sa : Stamp),
        step (Submit su sa) (step (SetInput text) a)
        = step (SetInput text) a)
  /\ forall f : File, step (Upload f) a = a.
Proof.
  intros Hdoc a.
  pose proof (mount_no_file url stored created) as (F & FB & OB & P).
  pose proof (restore_fetched_pieces rf ro rc
                (mount url stored created initial_page))
    as (HF & _ & HO & _).
  assert (Hfile : file (page (client a)) = None).
  { subst a. cbn [step with_page with_client client on_page page mounted].
    destruct rf, ro, rc; exact F. }
  assert (Hup : upload_enabled (page (client a)) = false).
  { subst a. cbn [step with_page with_client client on_page page mounted].
    unfold upload_enabled. cbn zeta in HF, HO. rewrite HF, HO.
    destruct Hdoc as [[b ->]|[b ->]]; cbn.
    - by rewrite andb_false_r.
    - by rewrite andb_false_r, andb_false_l. }
  split; [exact Hfile|].
  assert (Hchat : chat_disabled (page (client a)) = true)
    by (unfold chat_disabled; by rewrite Hfile).
  split; [exact Hchat|]. split; [exact Hup|].
  split; [unfold reset_offered; by rewrite Hfile|]. split.
  - intros text su sa. cbn [step]. unfold handleSubmit, submit_accepted.
    cbn [client input]. rewrite Hchat. cbn.
    by rewrite andb_false_r.
  - intros f. cbn [step]. by rewrite Hup.
Qed.

(** ** Submitting an instruction *)

(** X11.  An accepted instruction starts a turn in one step: the input is
    emptied; the user message, with the trimmed input as content, and the
    streaming placeholder with an empty log are appended; one stream is
    opened for the loaded file with the trimmed input, which is not
    empty, as instructions; [isProcessing] is raised and the status
    message is "Starting agent...". *)
Theorem accepted_submit_starts_turn (su sa : Stamp) (a : App) :
  submit_accepted a = true ->
  let a' := step (Submit su sa) a in
  let p := page (client a) in
  trim (input a) <> ""
  /\ input a' = ""
  /\ messages (page (client a'))
     = (messages p
          ++ [createMessage su Role.user (trim (input a)) None;
              with_agentLog (Some [])
                (createMessage sa Role.assistant ""
                   (Some Status.streaming))])%list
  /\ isProcessing (page (client a')) = true
  /\ statusMessage (page (client a')) = "Starting agent..."
  /\ saved (client a') = saved (client a)
  /\ exists f t,
       file p = Some f
       /\ turns a' = (turns a ++ [t])%list
       /\ assistantMessage_id t = fresh_id sa
       /\ captured t = p
       /\ opened (client a')
          = (opened (client a)
               ++ [{| FillRequest.file := f;
                      FillRequest.instructions := trim (input a);
                      FillRequest.filledPdfBytes :=
                        if isContinuation t then filledPdfBytes p else None;
                      FillRequest.isContinuation := isContinuation t;
                      FillRequest.previousEdits := appliedEdits p;
                      FillRequest.resumeSessionId := agentSessionId p;
                      FillRequest.userSessionId := userSessionId p |}])%list.
Proof.
  intros Hacc a' p. subst a' p.
  assert (Hne : trim (input a) <> "").
  { unfold submit_accepted in Hacc.
    apply andb_prop in Hacc as [Hacc _]. apply andb_prop in Hacc as [H _].
    apply negb_true_iff in H. by apply String.eqb_neq. }
  split; [exact Hne|].
  pose proof (submit_accepted_file a Hacc) as (_ & [f Hf] & _).
  cbn [step]. unfold handleSubmit. rewrite Hacc.
  unfold handleSendMessage_start. rewrite Hf. cbn.
  split; [reflexivity|]. split; [reflexivity|]. split; [reflexivity|].
  split; [reflexivity|]. split; [reflexivity|].
  eexists f, _. split; [reflexivity|]. split; [reflexivity|].
  split; [reflexivity|]. split; reflexivity.
Qed.


(** ** The log entries *)

Lemma createLogEntry_cases (s : Stamp) (event : StreamEvent.t) :
  match createLogEntry s event with
  | Some e =>
      makes_entry event = true
      /\ AgentLogEntry.id e = fresh_id s
      /\ AgentLogEntry.timestamp e = now s
      /\ entry_kind (StreamEvent.type event) = Some (AgentLogEntry.type e)
  | None => makes_entry event = false
  end.
Proof.
  unfold createLogEntry, makes_entry.
  destruct (StreamEvent.type event); cbn; try (repeat split; reflexivity).
  - destruct (StreamEvent.friendly event) as [[|d [|d2 ds]]|]; cbn;
      repeat split; reflexivity.
  - destruct (StreamEvent.friendly event) as [[|d ds]|]; cbn;
      repeat split; reflexivity.
  - destruct (StreamEvent.text event) as [txt|]; cbn; [|reflexivity].
    destruct (String.eqb txt ""); cbn; repeat split; reflexivity.
Qed.

(** X12.  An event makes at most one log entry, stamped with the id and
    the time drawn for it, of the kind its type decides.  [init],
    [status], [complete], [error] and [pdf_ready] events always make one;
    [tool_use] and [user] events make one exactly when they carry at
    least one friendly description, [assistant] events exactly when they
    carry a text that is not empty; events of other types make none.  So
    the log of a stream has as many entries as the stream has such
    events, in the order of arrival, and never more entries than
    events. *)
Theorem turn_log_counts_events (arrivals : list (Stamp * StreamEvent.t)) :
  length (turn_log arrivals)
  = length (List.filter (fun a => makes_entry (snd a)) arrivals)
  /\ (length (turn_log arrivals) <= length arrivals)%nat
  /\ Forall2
       (fun e a =>
          AgentLogEntry.id e = fresh_id (fst a)
          /\ AgentLogEntry.timestamp e = now (fst a)
          /\ entry_kind (StreamEvent.type (snd a))
             = Some (AgentLogEntry.type e))
       (turn_log arrivals)
       (List.filter (fun a => makes_entry (snd a)) arrivals).
Proof.
  assert (F : Forall2
                (fun e a =>
                   AgentLogEntry.id e = fresh_id (fst a)
                   /\ AgentLogEntry.timestamp e = now (fst a)
                   /\ entry_kind (StreamEvent.type (snd a))
                      = Some (AgentLogEntry.type e))
                (turn_log arrivals)
                (List.filter (fun a => makes_entry (snd a)) arrivals)).
  { unfold turn_log.
    induction arrivals as [|[s event] arrivals IH]; [constructor|].
    cbn [omap list_omap List.filter fst snd].
    pose proof (createLogEntry_cases s event) as H.
    destruct (createLogEntry s event) as [e|].
    - destruct H as (-> & H). by constructor.
    - rewrite H. exact IH. }
  split; [by eapply Forall2_length|]. split; [|exact F].
  rewrite (Forall2_length _ _ _ F).
  clear F. induction arrivals as [|a arrivals IH]; cbn; [lia|].
  destruct (makes_entry (snd a)); cbn; lia.
Qed.

Lemma string_length_app (s1 s2 : string) :
  String.length (s1 +:+ s2) = (String.length s1 + String.length s2)%nat.
Proof.
  induction s1 as [|c s1 IH]; [reflexivity|].
  change (S (String.length (s1 +:+ s2))
          = S (String.length s1 + String.length s2)).
  by rewrite IH.
Qed.






Lemma remove_double_stars_fixed (s : string) :
  has_double_star s = false -> remove_double_stars s = s.
Proof.
  enough (H : (has_double_star s = false -> remove_double_stars s = s)
              /\ forall c,
                   has_double_star (String c s) = false ->
                   remove_double_stars (String c s) = String c s)
    by apply H.
  induction s as [|c2 s [IH1 IH2]].
  - split; [done|]. intros c _.
    destruct c as [[] [] [] [] [] [] [] []]; reflexivity.
  - split; [apply IH2|]. intros c H.
    change (has_double_star (String c (String c2 s)))
      with ((Ascii.eqb c "*" && Ascii.eqb c2 "*")
            || has_double_star (String c2 s)) in H.
    apply orb_false_elim in H as [H1 H2].
    destruct (decide (c = "*"%char)) as [->|Hc].
    + cbn in H1. apply Ascii.eqb_neq in H1.
      assert (E : remove_double_stars (String "*" (String c2 s))
                  = String "*" (remove_double_stars (String c2 s))).
      { simpl. destruct c2 as [[] [] [] [] [] [] [] []]; try reflexivity.
        exfalso. apply H1. reflexivity. }
      rewrite E. by rewrite IH2.
    + rewrite (remove_double_stars_head c _ Hc). by rewrite IH2.
Qed.

Lemma without_stars_removed (s : string) :
  without_stars (remove_double_stars s) = without_stars s.
Proof.
  enough (H : without_stars (remove_double_stars s) = without_stars s
              /\ forall c,
                   without_stars (remove_double_stars (String c s))
                   = without_stars (String c s)) by apply H.
  induction s as [|c2 s [IH1 IH2]].
  - split; [reflexivity|]. intros c.
    destruct c as [[] [] [] [] [] [] [] []]; reflexivity.
  - split; [apply IH2|]. intros c.
    destruct (decide (c = "*"%char)) as [->|Hc].
    + destruct (decide (c2 = "*"%char)) as [->|Hc2].
      * simpl. exact IH1.
      * assert (E : remove_double_stars (String "*" (String c2 s))
                    = String "*" (remove_double_stars (String c2 s))).
        { simpl. destruct c2 as [[] [] [] [] [] [] [] []]; try reflexivity.
          exfalso. apply Hc2. reflexivity. }
        rewrite E.
        change (without_stars (String "*" ?x)) with (without_stars x).
        apply IH2.
    + rewrite (remove_double_stars_head c _ Hc).
      apply Ascii.eqb_neq in Hc. cbn [without_stars]. rewrite Hc.
      f_equal. apply IH2.
Qed.

(** X14.  Stripping the emphasis markup of a friendly description removes
    asterisks and nothing else, leaves no "**" behind, and changes
    nothing when it is applied again. *)
Theorem strip_emphasis_properties (s : string) :
  without_stars (remove_double_stars s) = without_stars s
  /\ has_double_star (remove_double_stars s) = false
  /\ remove_double_stars (remove_double_stars s) = remove_double_stars s
  /\ (has_double_star s = false -> remove_double_stars s = s).
Proof.
  split; [apply without_stars_removed|].
  split; [apply remove_double_stars_clean|].
  split; [|apply remove_double_stars_fixed].
  apply remove_double_stars_fixed, remove_double_stars_clean.
Qed.


(** ** The calls that leave the page *)

(** X15.  A stream is opened only by an accepted submission, one stream
    for it, with the trimmed input as instructions.  A handler saves the
    session only when the stream of a turn closes with a collected user
    session id that is not empty, once, with the snapshot of that turn.
    No other action on the mounted page opens a stream or saves. *)
Theorem step_calls (act : Action) (a : App) :
  let a' := step act a in
  (opened (client a') = opened (client a)
   \/ exists su sa r,
        act = Submit su sa /\ submit_accepted a = true
        /\ FillRequest.instructions r = trim (input a)
        /\ opened (client a') = (opened (client a) ++ [r])%list)
  /\ (saved (client a') = saved (client a)
      \/ exists i t,
           act = Close i /\ turns a !! i = Some t
           /\ truthy_str (newUserSessionId t) = true
           /\ saved (client a') = (saved (client a) ++ [turn_save t])%list).
Proof.
  destruct act as [s0|su sa|i s event|i|i e s| |f|r s|fb ob cf|m|l|s|i event|i|i e s];
    cbn [step].
  - by split; left.
  - unfold handleSubmit. destruct (submit_accepted a) eqn:Hacc;
      [|by split; left].
    pose proof (submit_accepted_file a Hacc) as (_ & [f Hf] & _).
    unfold handleSendMessage_start. rewrite Hf.
    cbn [client opened saved streamAgentFill on_page].
    split; [|by left]. right. eexists su, sa, _.
    split; [reflexivity|]. split; [reflexivity|].
    apply and_comm. split; reflexivity.
  - destruct (turns a !! i) as [t|]; [|by split; left].
    pose proof (event_client s event (client a) t) as (_ & S & O & _).
    destruct (handleSendMessage_event s event (client a, t)) as [c1 t1].
    cbn [fst client] in *. rewrite S, O. by split; left.
  - destruct (turns a !! i) as [t|] eqn:Ht; [|by split; left].
    pose proof (end_state t (client a)) as (_ & _ & _ & _ & O & S).
    cbn [client]. cbn zeta in O, S. rewrite O, S. split; [by left|].
    unfold keep_truthy.
    destruct (truthy_str (newUserSessionId t)) eqn:E.
    + right. exists i, t. split; [reflexivity|]. split; [exact Ht|].
      split; [exact E|]. unfold turn_save.
      destruct (newUserSessionId t) as [u|]; [reflexivity|discriminate E].
    + left. by rewrite app_nil_r.
  - destruct (turns a !! i) as [t|]; by split; left.
  - by split; left.
  - destruct (upload_enabled (page (client a))); by split; left.
  - destruct (analyses a); by split; left.
  - by split; left.
  - by split; left.
  - by split; left.
  - destruct (handleParseFiles_start s (page (client a))). by split; left.
  - destruct (parses a !! i) as [r0|]; [|by split; left].
    destruct (handleParseFiles_event event (page (client a), r0)).
    by split; left.
  - destruct (parses a !! i); by split; left.
  - destruct (parses a !! i); by split; left.
Qed.

Lemma step_turns_captured (sid : string) (act : Action) (a : App) :
  sessionId (page (client a)) = sid ->
  Forall (fun t => sessionId (captured t) = sid) (turns a) ->
  Forall (fun t => sessionId (captured t) = sid) (turns (step act a)).
Proof.
  intros Hs HT.
  destruct act as [s0|su sa|i s event|i|i e s| |f|r s|fb ob cf|m|l|s|i event|i|i e s];
    cbn [step]; try exact HT.
  - unfold handleSubmit. destruct (submit_accepted a) eqn:Hacc; [|exact HT].
    pose proof (submit_accepted_file a Hacc) as (_ & [f Hf] & _).
    destruct (start_with_file (trim (input a)) su sa (client a) f Hf)
      as (c1 & t & -> & _ & _ & _ & _ & Cap & _).
    cbn [turns option_list]. apply Forall_app. split; [exact HT|].
    constructor; [|constructor]. by rewrite Cap.
  - destruct (turns a !! i) as [t|] eqn:Ht; [|exact HT].
    pose proof (event_turn s event (client a) t) as (Cap & _).
    destruct (handleSendMessage_event s event (client a, t)) as [c1 t1].
    cbn [snd turns] in *. apply Forall_insert; [exact HT|].
    rewrite Cap. by eapply Forall_lookup_1 in HT.
  - destruct (turns a !! i) as [t|]; [|exact HT].
    cbn [turns]. by apply Forall_delete.
  - destruct (turns a !! i) as [t|]; [|exact HT].
    cbn [turns]. by apply Forall_delete.
  - destruct (upload_enabled (page (client a))); exact HT.
  - destruct (analyses a); exact HT.
  - destruct (handleParseFiles_start s (page (client a))). exact HT.
  - destruct (parses a !! i) as [r0|]; [|exact HT].
    destruct (handleParseFiles_event event (page (client a), r0)). exact HT.
  - destruct (parses a !! i); exact HT.
  - destruct (parses a !! i); exact HT.
Qed.

Lemma keyed_by_step (sid : string) (act : Action) (a : App) :
  keyed_by sid a -> keyed_by sid (step act a).
Proof.
  intros (HS & HT & HV). unfold keyed_by.
  pose proof (step_identifiers act a) as (S & _). cbn zeta in S.
  split; [congruence|]. split; [by apply step_turns_captured|].
  pose proof (step_calls act a) as (_ & [->|(i & t & _ & Ht & E & ->)]);
    [exact HV|].
  apply Forall_app. split; [exact HV|]. constructor; [|constructor].
  cbn. split; [|by split]. by eapply Forall_lookup_1 in HT.
Qed.

(** X16.  Everything a session writes to storage is keyed by the id it was
    mounted with.  After any sequence of actions the page still has that
    [sessionId]; every snapshot a handler has saved carries it, is marked
    as not processing and goes with a user session id that is not empty;
    and the save effect, which runs when the id is not empty, saves under
    it too. *)
Theorem saves_keyed_by_mounted_id (url : option string)
    (stored : option StoredSession) (created : string)
    (acts : list Action) :
  let a0 := mounted url stored created in
  let a := run acts a0 in
  let sid := sessionId (page (client a0)) in
  keyed_by sid a
  /\ match save_effect (page (client a)) with
     | Some call =>
         sid <> "" /\ Session.id (saved_session call) = sid
         /\ saved_userSessionId call = userSessionId (page (client a))
     | None => sid = ""
     end.
Proof.
  intros a0 a sid.
  assert (K : keyed_by sid a).
  { subst a. assert (K0 : keyed_by sid a0) by (by split; [|split]).
    clearbody a0 sid. revert a0 K0.
    induction acts as [|act acts IH]; intros a0 K0; [exact K0|].
    cbn. apply IH. by apply keyed_by_step. }
  split; [exact K|]. destruct K as (HS & _).
  unfold save_effect. rewrite HS.
  destruct (String.eqb sid "") eqn:E.
  - by apply String.eqb_eq.
  - cbn. split; [by apply String.eqb_neq | by split].
Qed.


(** ** What the message list shows of a turn *)

(** The placeholder a started turn leaves as the last message. *)
Lemma turn_placeholder (content : string) (su sa : Stamp)
    (arrivals : list (Stamp * StreamEvent.t)) (fin : StreamEnd)
    (c : Client) :
  is_Some (file (page c)) ->
  placeholder (handleSendMessage content su sa arrivals fin c)
  = Some (finalized sa
            (truthy_str (agentSessionId (page c))
             && truthy_obj (filledPdfBytes (page c)))
            arrivals fin).
Proof.
  intros [f Hf]. unfold handleSendMessage, placeholder.
  destruct (start_with_file content su sa c f Hf)
    as (c1 & t & Hs & M & _ & _ & _ & _ & A & I & N1 & _).
  rewrite Hs.
  assert (F0 : finalContent t = "" /\ appliedCount t = 0).
  { unfold handleSendMessage_start in Hs. rewrite Hf in Hs.
    injection Hs as _ <-. by split. }
  destruct F0 as [F0 F1].
  pose proof (closing_content_of_loop arrivals c1 t F0 F1 N1) as [C1 _].
  pose proof (loop_messages_exact arrivals c1 t) as E.
  pose proof (loop_state arrivals c1 t) as (_ & _ & _ & _ & _ & A' & _).
  destruct (handleSendMessage_loop arrivals (c1, t)) as [c2 t2].
  cbn [fst snd] in *.
  assert (E2 : exists l1,
            messages (page c2)
            = (l1 ++ [with_agentLog (Some (turn_log arrivals))
                        (createMessage sa Role.assistant ""
                           (Some Status.streaming))])%list).
  { rewrite E, M, A. rewrite map_message_snoc by reflexivity.
    rewrite extend_log_placeholder. eauto. }
  destruct E2 as [l1 E2].
  destruct fin as [|e s]; cbn [handleSendMessage_finish fst snd finalized].
  - rewrite end_messages, E2, A', A.
    rewrite map_message_snoc by reflexivity. rewrite last_snoc.
    rewrite C1, I. reflexivity.
  - rewrite catch_messages, E2, A', A.
    rewrite map_message_snoc by reflexivity. rewrite last_snoc.
    reflexivity.
Qed.

Lemma closing_content_not_empty (continuation : bool)
    (arrivals : list (Stamp * StreamEvent.t)) :
  closing_content continuation arrivals <> "".
Proof.
  unfold closing_content.
  destruct (last (List.filter is_terminal arrivals)) as [a|]; [|done].
  destruct (StreamEvent.type (snd a));
    first [ apply complete_content_not_empty | by apply or_str_not_empty ].
Qed.

Lemma AgentActivityLog_status (entries : list AgentLogEntry.t)
    (currentStatus : option string) (isStreaming isExpanded : bool) :
  match AgentActivityLog entries currentStatus isStreaming isExpanded with
  | Some v => displayStatus v <> ""
  | None => True
  end.
Proof.
  unfold AgentActivityLog.
  destruct ((length entries =? 0)%nat && negb isStreaming); [done|].
  cbn. by apply or_str_not_empty.
Qed.

(** X17.  How the message list shows the placeholder of a turn that has
    ended.  It is shown as a message of the assistant with the response
    bubble holding its content, which is not empty.  When the stream
    closed there is no error block, whatever events the stream carried;
    the activity log is hidden when no event made an entry and otherwise
    shows, without a spinner, the entries of the events.  When the
    iteration threw, the error block repeats the content of the response
    bubble, ["Error: "] and the message of the fault, and the activity log
    ends with the error entry and has its icon.  The status line of the
    activity log is never empty. *)
Theorem ended_turn_rendering (content : string) (su sa : Stamp)
    (arrivals : list (Stamp * StreamEvent.t)) (fin : StreamEnd)
    (c : Client) (isExpanded : bool) :
  is_Some (file (page c)) ->
  exists m b,
    placeholder (handleSendMessage content su sa arrivals fin c) = Some m
    /\ ChatMessage_render isExpanded m = AssistantMessage b
    /\ response b = Some (ChatMessage.content m)
    /\ ChatMessage.content m <> ""
    /\ status_line_shown b
    /\ match fin with
       | Closed =>
           error_block b = None
           /\ activity b
              = AgentActivityLog (turn_log arrivals) None false isExpanded
           /\ (turn_log arrivals = [] -> activity b = None)
       | Failed e s =>
           error_block b = Some ("Error: " +:+ error_message e)
           /\ ChatMessage.content m = "Error: " +:+ error_message e
           /\ exists v,
                activity b = Some v /\ spinner v = false
                /\ icon v = Some LogType.error
                /\ displayStatus v = or_str (Some (error_message e))
                                       "Processing..."
       end.
Proof.
  intros Hf. rewrite (turn_placeholder content su sa arrivals fin c Hf).
  set (k := truthy_str (agentSessionId (page c))
            && truthy_obj (filledPdfBytes (page c))).
  destruct fin as [|e s].
  - pose proof (closing_content_not_empty k arrivals) as N.
    pose proof (AgentActivityLog_status (turn_log arrivals) None false
                  isExpanded) as S.
    eexists _, _. split; [reflexivity|].
    unfold ChatMessage_render, finalized.
    cbn [ChatMessage.role ChatMessage.status ChatMessage.content
         ChatMessage.agentLog default orb].
    apply String.eqb_neq in N as N'. rewrite N'. cbn [negb andb].
    split; [reflexivity|]. cbn [response error_block activity].
    split; [reflexivity|]. split; [exact N|].
    unfold status_line_shown. cbn [activity].
    destruct (turn_log arrivals) as [|x l] eqn:L.
    + cbn. by repeat split.
    + rewrite orb_false_r.
      change (0 <? length (x :: l))%nat with true. cbn iota.
      split; [exact S|]. by repeat split.
  - eexists _, _. split; [reflexivity|].
    unfold ChatMessage_render, finalized.
    cbn [ChatMessage.role ChatMessage.status ChatMessage.content
         ChatMessage.agentLog default].
    split; [reflexivity|]. cbn [response error_block activity].
    split; [reflexivity|]. split; [done|].
    set (l := (turn_log arrivals
                 ++ [log_entry s LogType.error (error_message e) None])%list).
    assert (H0 : (0 <? length l)%nat = true).
    { subst l. by destruct (turn_log arrivals). }
    assert (H1 : (length l =? 0)%nat = false).
    { subst l. by destruct (turn_log arrivals). }
    assert (HL : last l = Some (log_entry s LogType.error (error_message e)
                                  None)).
    { subst l. by rewrite last_snoc. }
    rewrite H0. cbn [orb].
    pose proof (AgentActivityLog_status l None false isExpanded) as S.
    unfold status_line_shown. cbn [activity]. split; [exact S|].
    split; [reflexivity|]. split; [reflexivity|].
    unfold AgentActivityLog, id. rewrite H1. cbn [andb negb].
    eexists. split; [reflexivity|]. cbn [spinner icon displayStatus].
    rewrite HL. by repeat split.
Qed.

(** X18.  While the stream of a started turn is being consumed the
    placeholder is shown with a spinner and the fixed status line
    ["Processing your request..."], whatever entries the events have
    made; the entries are counted, and listed when the log is expanded.
    It has no response bubble and no error block, also after a [complete]
    or an [error] event: those show only when the turn has ended. *)
Theorem streaming_turn_rendering (content : string) (su sa : Stamp)
    (arrivals : list (Stamp * StreamEvent.t)) (c : Client)
    (isExpanded : bool) :
  is_Some (file (page c)) ->
  exists c1 t m v,
    handleSendMessage_start content su sa c = (c1, Some t)
    /\ placeholder (fst (handleSendMessage_loop arrivals (c1, t))) = Some m
    /\ ChatMessage_render isExpanded m
       = AssistantMessage
           {| activity := Some v; response := None; error_block := None |}
    /\ spinner v = true /\ icon v = None
    /\ displayStatus v = "Processing your request..."
    /\ rows v = (if isExpanded then turn_log arrivals else [])
    /\ (steps v = None <-> turn_log arrivals = []).
Proof.
  intros [f Hf].
  destruct (start_with_file content su sa c f Hf)
    as (c1 & t & Hs & M & _ & _ & _ & _ & A & I & N1 & _).
  pose proof (loop_messages_exact arrivals c1 t) as E.
  destruct (handleSendMessage_loop arrivals (c1, t)) as [c2 t2] eqn:L.
  cbn [fst snd] in *.
  assert (E2 : placeholder c2
               = Some (with_agentLog (Some (turn_log arrivals))
                         (createMessage sa Role.assistant ""
                            (Some Status.streaming)))).
  { unfold placeholder. rewrite E, M, A.
    rewrite map_message_snoc by reflexivity.
    rewrite extend_log_placeholder. by rewrite last_snoc. }
  exists c1, t. eexists _, _. split; [exact Hs|]. rewrite L. cbn [fst].
  split; [exact E2|].
  unfold ChatMessage_render, AgentActivityLog.
  cbn [with_agentLog createMessage ChatMessage.role ChatMessage.status
       ChatMessage.content ChatMessage.agentLog default negb andb orb].
  rewrite orb_true_r, andb_false_r. cbn [String.eqb negb andb].
  split; [reflexivity|].
  cbn [spinner icon displayStatus rows steps].
  split; [reflexivity|]. split; [reflexivity|]. split; [reflexivity|].
  split; [reflexivity|].
  destruct (turn_log arrivals) as [|x l]; cbn; by split.
Qed.


(** ** The preview and the download *)

Lemma replace_first_absent (pattern replacement s : string) :
  occurs pattern s = false -> replace_first pattern replacement s = s.
Proof.
  induction s as [|c s IH]; cbn [occurs replace_first].
  - intros H. apply orb_false_iff in H as [-> _]. reflexivity.
  - intros H. apply orb_false_iff in H as [-> H]. by rewrite IH.
Qed.

Lemma prefix_within (p x y z : string) :
  (String.length p <= String.length x)%nat ->
  String.prefix p (x +:+ y) = String.prefix p (x +:+ z).
Proof.
  revert x. induction p as [|a p IH]; intros x H.
  - by destruct (x +:+ y), (x +:+ z).
  - destruct x as [|b x]; [cbn in H; lia|].
    change (String b x +:+ y) with (String b (x +:+ y)).
    change (String b x +:+ z) with (String b (x +:+ z)).
    cbn [String.prefix]. destruct (ascii_dec a b); [|reflexivity].
    apply IH. cbn in H. lia.
Qed.

Lemma replace_first_at (base rest : string) :
  occurs ".pdf" (base +:+ ".pd") = false ->
  replace_first ".pdf" "_filled.pdf" (base +:+ ".pdf" +:+ rest)
  = base +:+ "_filled.pdf" +:+ rest.
Proof.
  induction base as [|c base IH]; intros H.
  - change ("" +:+ ".pdf" +:+ rest)
      with (String "." (String "p" (String "d" (String "f" rest)))).
    assert (P : String.prefix ".pdf"
                  (String "." (String "p" (String "d" (String "f" rest))))
                = true) by (by destruct rest).
    unfold replace_first at 1. fold replace_first. rewrite P. reflexivity.
  - change (String c base +:+ ".pd") with (String c (base +:+ ".pd")) in H.
    cbn [occurs] in H. apply orb_false_iff in H as [H1 H2].
    change (String c base +:+ ".pdf" +:+ rest)
      with (String c (base +:+ ".pdf" +:+ rest)).
    change (String c base +:+ "_filled.pdf" +:+ rest)
      with (String c (base +:+ "_filled.pdf" +:+ rest)).
    cbn [replace_first].
    assert (P : String.prefix ".pdf" (String c (base +:+ ".pdf" +:+ rest))
                = false).
    { etransitivity; [|exact H1].
      assert (A1 : String c (base +:+ ".pdf" +:+ rest)
                   = (String c base +:+ ".pd") +:+ ("f" +:+ rest)).
      { clear. change (String c (base +:+ ".pdf" +:+ rest)
                       = String c ((base +:+ ".pd") +:+ ("f" +:+ rest))).
        f_equal. induction base as [|d base IH]; [reflexivity|].
        change (String d (base +:+ ".pdf" +:+ rest)
                = String d ((base +:+ ".pd") +:+ "f" +:+ rest)).
        by rewrite IH. }
      assert (A2 : String c (base +:+ ".pd")
                   = (String c base +:+ ".pd") +:+ "").
      { assert (R : forall t : string, t = t +:+ "").
        { clear. intros t. induction t as [|d t IH]; [reflexivity|].
          change (String d t = String d (t +:+ "")). by rewrite <- IH. }
        exact (R (String c base +:+ ".pd")). }
      rewrite A1, A2. apply prefix_within.
      rewrite string_length_app. cbn. lia. }
    rewrite P. by rewrite IH.
Qed.

(** X19.  The name of a download.  The download button passes the filled
    document of the viewer and a name: ["filled_form.pdf"] when the viewer
    has no file, as in a restored session, and otherwise the name of the
    file with its first [".pdf"] replaced by ["_filled.pdf"].  A name
    that ends in its only [".pdf"] gets ["_filled"] before the extension;
    only the first of several is replaced; a name without [".pdf"], such
    as one with the extension in upper case, is passed unchanged.  Without
    a filled document nothing is downloaded. *)
Theorem download_name (originalFile : option File) (b : Uint8Array) :
  handleDownload originalFile None = None
  /\ exists filename,
       handleDownload originalFile (Some b) = Some (b, filename)
       /\ match originalFile with
          | None => filename = "filled_form.pdf"
          | Some f =>
              (occurs ".pdf" (file_name f) = false -> filename = file_name f)
              /\ (forall base rest,
                    file_name f = base +:+ ".pdf" +:+ rest ->
                    occurs ".pdf" (base +:+ ".pd") = false ->
                    filename = base +:+ "_filled.pdf" +:+ rest)
          end.
Proof.
  split; [reflexivity|]. unfold handleDownload.
  eexists. split; [reflexivity|]. destruct originalFile as [f|]; [|done].
  split.
  - apply replace_first_absent.
  - intros base rest -> H. by apply replace_first_at.
Qed.



(** ** The context files of the upload component *)

Lemma filter_index_delete {A : Type} (index start : nat) (l : list A) :
  filter_index (fun i => negb (i =? start + index)%nat) start l
  = delete index l.
Proof.
  revert index start. induction l as [|x l IH]; intros index start.
  - by destruct index.
  - cbn [filter_index]. destruct index as [|index].
    + rewrite Nat.add_0_r, Nat.eqb_refl. cbn [negb].
      change (delete 0%nat (x :: l)) with l. clear IH.
      assert (G : forall k : nat, (start < k)%nat ->
                    filter_index (fun i => negb (i =? start)%nat) k l = l).
      { clear. induction l as [|y l IH]; intros k Hk; [reflexivity|].
        cbn [filter_index].
        assert (E : (k =? start)%nat = false) by (apply Nat.eqb_neq; lia).
        rewrite E. cbn [negb]. f_equal. apply IH. lia. }
      apply G. lia.
    + assert (E : (start =? start + S index)%nat = false)
        by (apply Nat.eqb_neq; lia).
      rewrite E. cbn [negb].
      change (delete (S index) (x :: l)) with (x :: delete index l).
      f_equal. rewrite <- (IH index (S start)).
      by replace (S start + index)%nat with (start + S index)%nat by lia.
Qed.

Lemma add_pending_spec (maxFiles : Z) (files : list ContextFile)
    (received : list File) (u : ContextUpload) :
  pendingFiles (add_pending maxFiles files received u)
  = (pendingFiles u
       ++ take (Z.to_nat (maxFiles - totalCount files u)) received)%list.
Proof.
  unfold add_pending, totalCount.
  destruct (Z.leb_spec
              (maxFiles - (Z.of_nat (length files)
                           + Z.of_nat (length (pendingFiles u)))) 0)
    as [H|H].
  - replace (Z.to_nat _) with 0%nat by lia. cbn. by rewrite app_nil_r.
  - reflexivity.
Qed.

(** X21.  The capacity of the context files.  Selecting files adds to the
    pending ones, in order, as many of the selected as there are slots
    left under [maxFiles], and none when there is none left; the pending
    files it had stay.  The count of uploaded and pending files becomes
    the smaller of [maxFiles] and the count with all the selected, and
    stays when it was at or over [maxFiles] already, so a count within
    [maxFiles] stays within it.  A drop does the same, and nothing but
    end the dragging when the component is disabled or uploading.
    Removing by index deletes the file at that index and no other, from
    the pending and from the uploaded ones alike. *)
Theorem context_files_capacity (disabled isUploading : bool)
    (maxFiles : Z) (files : list ContextFile) (received : list File)
    (index : nat) (u : ContextUpload) :
  let chosen := handleFileChange maxFiles files received u in
  let dropped := handleDrop disabled isUploading maxFiles files received u in
  pendingFiles chosen
  = (pendingFiles u
       ++ take (Z.to_nat (maxFiles - totalCount files u)) received)%list
  /\ totalCount files chosen
     = Z.max (totalCount files u)
         (Z.min maxFiles (totalCount files u + Z.of_nat (length received)))
  /\ (totalCount files u <= maxFiles -> totalCount files chosen <= maxFiles)
  /\ pendingFiles dropped
     = (if disabled || isUploading then pendingFiles u
        else pendingFiles chosen)
  /\ isDragging dropped = false
  /\ pendingFiles (handleRemovePending index u)
     = delete index (pendingFiles u)
  /\ handleRemoveUploaded index files = delete index files.
Proof.
  intros chosen dropped.
  assert (C : pendingFiles chosen
              = (pendingFiles u
                   ++ take (Z.to_nat (maxFiles - totalCount files u))
                        received)%list).
  { subst chosen. unfold handleFileChange.
    destruct received as [|x received].
    - cbn. by rewrite take_nil, app_nil_r.
    - cbn [length Nat.eqb]. apply add_pending_spec. }
  assert (T : totalCount files chosen
              = Z.max (totalCount files u)
                  (Z.min maxFiles
                     (totalCount files u + Z.of_nat (length received)))).
  { unfold totalCount at 1. rewrite C, length_app, length_take.
    unfold totalCount. lia. }
  split; [exact C|]. split; [exact T|]. split; [lia|].
  split.
  { subst dropped. unfold handleDrop.
    destruct (disabled || isUploading); [reflexivity|].
    rewrite C. apply (add_pending_spec _ _ _ (setIsDragging false u)). }
  split.
  { subst dropped. unfold handleDrop, add_pending.
    destruct (disabled || isUploading); [reflexivity|].
    by destruct (_ <=? 0). }
  split.
  - unfold handleRemovePending. cbn [pendingFiles setPendingFiles].
    apply (filter_index_delete index 0).
  - apply (filter_index_delete index 0).
Qed.

(** ** The gate *)

Lemma gate_mount_settled (stored : option string) (outcome : Validation) :
  gate_settled (gate_mount stored outcome).
Proof.
  unfold gate_mount, gate_settled.
  destruct (truthy_str stored) eqn:E.
  - destruct stored as [k|]; [|discriminate E].
    assert (N : k <> "").
    { cbn in E. apply negb_true_iff in E. by apply String.eqb_neq. }
    destruct outcome as [|e]; cbn.
    + split_and!; try done; [by repeat constructor | set_solver].
    + split_and!; try done. by repeat constructor.
  - cbn. split_and!; try done.
Qed.

Lemma gate_step_settled (act : GateAction) (g : GateClient) :
  gate_settled g -> gate_settled (gate_step act g).
Proof.
  intros S. pose proof S as (H1 & H2 & H3 & H4). unfold gate_step.
  destruct (isCheckingStored (gate g) || isValidated (gate g)) eqn:G;
    [exact S|].
  apply orb_false_iff in G as [_ G].
  destruct act as [value|outcome].
  - unfold gate_settled. cbn. by rewrite G in H4 |- *.
  - unfold gate_handleSubmit.
    destruct (String.eqb (trim (apiKey (gate g))) "") eqn:K.
    + unfold gate_settled. cbn. by rewrite G in H4 |- *.
    + apply String.eqb_neq in K.
      destruct (validated g) as [|k [|k' l]] eqn:V;
        [|destruct H4 as [H5 _]; congruence|done].
      destruct outcome as [|e]; unfold gate_settled; cbn.
      * split_and!; try done.
        -- apply Forall_app. split; [exact H3|]. by repeat constructor.
        -- apply elem_of_app. right. by apply list_elem_of_singleton.
      * destruct H4 as [H4 H5]. split_and!; try done.
        apply Forall_app. split; [exact H3|]. by repeat constructor.
Qed.

(** X22.  The gate opens only for a key that [validateApiKey] accepted.
    After the mount and any typing and submitting, the gate is not
    checking and not validating, and no empty key was sent for
    validation.  Either it is shut, [onApiKeyValidated] was not called and
    the storage holds no usable key: a stored key that was rejected at
    the mount is removed, and a rejected or blank submission stores
    nothing.  Or it is open, [onApiKeyValidated] was called once, with a
    key that is not empty, that was accepted and that is the stored one.
    Once open the gate takes no more submissions. *)
Theorem gate_opens_for_accepted_keys (stored : option string)
    (outcome : Validation) (acts : list GateAction) :
  let g := gate_run acts (gate_mount stored outcome) in
  gate_settled g
  /\ (isValidated (gate g) = true ->
      forall act, gate_step act g = g).
Proof.
  intros g. split.
  - subst g. generalize (gate_mount_settled stored outcome).
    generalize (gate_mount stored outcome). 
    induction acts as [|act acts IH]; intros g0 S; [exact S|].
    cbn. apply IH. by apply gate_step_settled.
  - intros V act. unfold gate_step. rewrite V. by rewrite orb_true_r.
Qed.


(** ** The status message when a turn ends *)

Lemma forget_status_finish (fin : StreamEnd) (c cq : Client) (t : Turn) :
  forget_status c = forget_status cq ->
  handleSendMessage_finish fin (c, t) = handleSendMessage_finish fin (cq, t).
Proof.
  intros H. destruct c as [p sv op], cq as [q svq opq].
  destruct p, q. unfold forget_status, on_page, setStatusMessage in H.
  cbn in H. simplify_eq.
  destruct fin as [|e s]; cbn [handleSendMessage_finish fst snd].
  - unfold handleSendMessage_end.
    destruct (newAppliedEdits t), (truthy_str (newAgentSessionId t)),
      (truthy_str (newUserSessionId t)); reflexivity.
  - reflexivity.
Qed.

Lemma event_queued_spec (s : Stamp) (event : StreamEvent.t) (c cq : Client)
    (t : Turn) (late : option string) :
  forget_status c = forget_status cq ->
  exists cq',
    handleSendMessage_event_queued s event (cq, t, late)
    = (cq', snd (handleSendMessage_event s event (c, t)),
       match nested_status (assistantMessage_id t) (createLogEntry s event)
               (page c) with
       | Some content => Some content
       | None => late
       end)
    /\ forget_status (fst (handleSendMessage_event s event (c, t)))
       = forget_status cq'.
Proof.
  intros H. destruct c as [p sv op], cq as [q svq opq].
  destruct p, q. unfold forget_status, on_page, setStatusMessage in H.
  cbn in H. simplify_eq.
  unfold handleSendMessage_event_queued, handleSendMessage_event,
    nested_status, fold_log, queue_log, on_page.
  cbn [page messages saved opened].
  match goal with
  | |- context [has_message ?i ?l] => set (found := has_message i l)
  end.
  destruct (createLogEntry s event) as [le|]; [destruct found|];
    destruct (StreamEvent.type event);
    try destruct (truthy_str (StreamEvent.pdf_bytes event));
    eexists; split; reflexivity.
Qed.

Lemma event_has_message (s : Stamp) (event : StreamEvent.t) (c : Client)
    (t : Turn) :
  has_message (assistantMessage_id t) (messages (page c)) = true ->
  has_message
    (assistantMessage_id (snd (handleSendMessage_event s event (c, t))))
    (messages (page (fst (handleSendMessage_event s event (c, t)))))
  = true.
Proof.
  intros H.
  pose proof (event_client s event c t) as (_ & _ & _ & M & _).
  pose proof (event_turn s event c t) as (_ & I & _).
  cbn zeta in M, I. rewrite M, I. rewrite has_message_map; [exact H|].
  intros m. by destruct (createLogEntry s event).
Qed.

Lemma loop_has_message (arrivals : list (Stamp * StreamEvent.t)) :
  forall (c : Client) (t : Turn),
    has_message (assistantMessage_id t) (messages (page c)) = true ->
    has_message
      (assistantMessage_id (snd (handleSendMessage_loop arrivals (c, t))))
      (messages (page (fst (handleSendMessage_loop arrivals (c, t)))))
    = true.
Proof.
  induction arrivals as [|[s event] arrivals IH]; intros c t H; [exact H|].
  rewrite loop_cons. cbn [fst snd].
  pose proof (event_has_message s event c t H) as H1.
  destruct (handleSendMessage_event s event (c, t)) as [c1 t1].
  by apply IH.
Qed.

Lemma loop_app (l1 l2 : list (Stamp * StreamEvent.t)) (ct : Client * Turn) :
  handleSendMessage_loop (l1 ++ l2) ct
  = handleSendMessage_loop l2 (handleSendMessage_loop l1 ct).
Proof. unfold handleSendMessage_loop. apply foldl_app. Qed.

Lemma loop_queued_spec (queued : list (Stamp * StreamEvent.t)) :
  forall (c cq : Client) (t : Turn) (late : option string),
    forget_status c = forget_status cq ->
    has_message (assistantMessage_id t) (messages (page c)) = true ->
    exists cq',
      handleSendMessage_loop_queued queued (cq, t, late)
      = (cq', snd (handleSendMessage_loop queued (c, t)),
         match last (turn_log queued) with
         | Some e => Some (AgentLogEntry.content e)
         | None => late
         end)
      /\ forget_status (fst (handleSendMessage_loop queued (c, t)))
         = forget_status cq'.
Proof.
  induction queued as [|[s event] queued IH]; intros c cq t late F H.
  - exists cq. by split.
  - destruct (event_queued_spec s event c cq t late F) as (cq1 & E & F1).
    pose proof (event_has_message s event c t H) as H1.
    change (handleSendMessage_loop_queued ((s, event) :: queued)
              (cq, t, late))
      with (handleSendMessage_loop_queued queued
              (handleSendMessage_event_queued s event (cq, t, late))).
    rewrite E, loop_cons. cbn [fst snd].
    destruct (handleSendMessage_event s event (c, t)) as [c1 t1].
    cbn [fst snd] in *.
    destruct (IH c1 cq1 t1
                (match nested_status (assistantMessage_id t)
                         (createLogEntry s event) (page c) with
                 | Some content => Some content
                 | None => late
                 end) F1 H1) as (cq' & E' & F').
    exists cq'. split; [|exact F']. rewrite E'. f_equal.
    unfold turn_log, nested_status. cbn [omap list_omap fst snd].
    rewrite H.
    destruct (createLogEntry s event) as [le|]; [|reflexivity].
    rewrite last_cons.
    by destruct (last (omap _ queued)).
Qed.

(** C10.  A turn that is started, because a file is loaded, ends with
    [isProcessing] false, whatever events arrive, whether the stream
    closes or the iteration throws, and whenever React runs the updaters
    of the loop.  The status message it ends with is empty only when no
    updater that is still queued at the end of the stream has an entry to
    mirror: otherwise it is the content of the last of these entries,
    which the render sets after the [finally] clause has emptied the
    status message.  Everything else is as when the updaters run in
    time. *)
Theorem turn_end_by_schedule (content : string) (su sa : Stamp)
    (timely queued : list (Stamp * StreamEvent.t)) (fin : StreamEnd)
    (c : Client) :
  is_Some (file (page c)) ->
  let c' := handleSendMessage_late content su sa timely queued fin c in
  isProcessing (page c') = false
  /\ statusMessage (page c')
     = from_option AgentLogEntry.content "" (last (turn_log queued))
  /\ c' = render (AgentLogEntry.content <$> last (turn_log queued))
            (handleSendMessage content su sa (timely ++ queued)%list fin c).
Proof.
  intros [f Hf] c'. subst c'. unfold handleSendMessage_late, handleSendMessage.
  destruct (start_with_file content su sa c f Hf)
    as (c1 & t & Hs & M & _ & _ & _ & _ & A & _).
  rewrite Hs.
  assert (H : has_message (assistantMessage_id t) (messages (page c1))
              = true).
  { rewrite M, A. unfold has_message. rewrite existsb_app. cbn.
    rewrite String.eqb_refl. by rewrite orb_true_r. }
  pose proof (loop_has_message timely c1 t H) as H1.
  rewrite loop_app.
  destruct (handleSendMessage_loop timely (c1, t)) as [c2 t2].
  cbn [fst snd] in H1.
  destruct (loop_queued_spec queued c2 c2 t2 None eq_refl H1)
    as (cq & E & F).
  rewrite E.
  destruct (handleSendMessage_loop queued (c2, t2)) as [c3 t3].
  cbn [fst snd] in *.
  rewrite <- (forget_status_finish fin c3 cq t3 F).
  pose proof (finish_idle fin (c3, t3)) as [P S].
  destruct (last (turn_log queued)) as [e|]; cbn [render fmap option_fmap
    option_map from_option];
    repeat split; try assumption; reflexivity.
Qed.

End Orchestrator.

(** * Concrete runs *)

(** ** Instances of the general statements *)


Lemma sample_client_has_file : is_Some (file (page sample_client)).
Proof. exists sample_file. reflexivity. Defined.

(** C10 at a stream of two events whose second event and end arrive
    together: the updater of the [complete] event is still queued when
    the [finally] clause runs, and the status message ends as the content
    of its entry. *)
Lemma turn_end_by_schedule_witness :
  is_Some (file (page sample_client))
  /\ isProcessing
       (page (handleSendMessage_late no_decoder "My name is John Doe"
                (stamp "u1") (stamp "a1")
                [(stamp "e0", status_event "Reading the form")]
                [(stamp "e1",
                  complete_event 1 (Some name_edit) (Some "abc") None)]
                Closed sample_client)) = false
  /\ statusMessage
       (page (handleSendMessage_late no_decoder "My name is John Doe"
                (stamp "u1") (stamp "a1")
                [(stamp "e0", status_event "Reading the form")]
                [(stamp "e1",
                  complete_event 1 (Some name_edit) (Some "abc") None)]
                Closed sample_client))
     = "Completed - filled 1 fields".
Proof.
  split; [exact sample_client_has_file|].
  pose proof (turn_end_by_schedule no_decoder "My name is John Doe"
                (stamp "u1") (stamp "a1")
                [(stamp "e0", status_event "Reading the form")]
                [(stamp "e1",
                  complete_event 1 (Some name_edit) (Some "abc") None)]
                Closed sample_client sample_client_has_file) as R.
  cbv zeta in R. destruct R as (P & S & _).
  split; [exact P|].
  etransitivity; [exact S|]. vm_compute. reflexivity.
Defined.

(** A fault with no event before it: the log is the one error entry. *)
Lemma fault_finalizes_error_witness :
  is_Some (file (page sample_client))
  /\ exists m,
       placeholder
         (handleSendMessage no_decoder "My name is John Doe"
            (stamp "u1") (stamp "a1") [] (Failed OtherValue (stamp "x1"))
            sample_client) = Some m
       /\ ChatMessage.status m = Some Status.error
       /\ ChatMessage.content m = "Error: Unknown error"
       /\ ChatMessage.agentLog m
          = Some [log_entry (stamp "x1") LogType.error "Unknown error" None]
       /\ error_entries (default [] (ChatMessage.agentLog m)) = 1%nat.
Proof.
  split; [exact sample_client_has_file|].
  pose proof (fault_finalizes_error no_decoder "My name is John Doe"
                (stamp "u1") (stamp "a1") [] OtherValue (stamp "x1")
                sample_client sample_client_has_file) as R.
  vm_compute in R. vm_compute. exact R.
Defined.

Lemma appliedEdits_replaced_by_report_witness :
  is_Some (file (page sample_client))
  /\ appliedEdits
       (page (handleSendMessage no_decoder "My name is John Doe"
                (stamp "u1") (stamp "a1")
                [(stamp "e1",
                  complete_event 1 (Some name_edit) (Some "abc") None)]
                Closed sample_client))
     = Some name_edit.
Proof.
  split; [exact sample_client_has_file|].
  pose proof (proj1 (appliedEdits_replaced_by_report no_decoder
                       "My name is John Doe" (stamp "u1") (stamp "a1")
                       [(stamp "e1",
                         complete_event 1 (Some name_edit) (Some "abc") None)]
                       sample_client sample_client_has_file)) as R.
  vm_compute in R. vm_compute. exact R.
Defined.

(** A [complete] event that returns both identifiers: both are adopted
    and the handler saves once, with the user session id. *)
Lemma backend_identifiers_adopted_witness :
  is_Some (file (page sample_client))
  /\ agentSessionId
       (page (handleSendMessage no_decoder "My name is John Doe"
                (stamp "u1") (stamp "a1")
                [(stamp "e1",
                  complete_event 1 None (Some "abc") (Some "usr-1"))]
                Closed sample_client))
     = Some "abc"
  /\ userSessionId
       (page (handleSendMessage no_decoder "My name is John Doe"
                (stamp "u1") (stamp "a1")
                [(stamp "e1",
                  complete_event 1 None (Some "abc") (Some "usr-1"))]
                Closed sample_client))
     = Some "usr-1"
  /\ saved
       (handleSendMessage no_decoder "My name is John Doe"
          (stamp "u1") (stamp "a1")
          [(stamp "e1", complete_event 1 None (Some "abc") (Some "usr-1"))]
          Closed sample_client)
     = [{| saved_session :=
             {| Session.id := "s1";
                Session.originalPdf := Some sample_file;
                Session.filledPdfBytes := None;
                Session.fields := [sample_field];
                Session.messages := [];
                Session.isProcessing := false |};
           saved_userSessionId := Some "usr-1" |}].
Proof.
  split; [exact sample_client_has_file|].
  pose proof (backend_identifiers_adopted no_decoder "My name is John Doe"
                (stamp "u1") (stamp "a1")
                [(stamp "e1",
                  complete_event 1 None (Some "abc") (Some "usr-1"))]
                sample_client sample_client_has_file) as (A & U & S & _).
  vm_compute in A, U, S. vm_compute. exact (conj A (conj U S)).
Defined.

(** A restore where the fetch of the original document fails: the filled
    document and the context files are applied all the same. *)
Lemma restore_applies_each_fetch_witness :
  truthy_str (Some "s1") = true
  /\ truthy_str (Some "usr-1") = true
  /\ let p :=
       restore_fetched (fetch_promise (Fetched []))
         (fetch_promise FetchFailed)
         (fetch_promise
            (Fetched [{| filename := "notes.txt"; cf_content := "born 1990";
                         was_parsed := true |}]))
         (mount (Some "s1")
            (Some {| stored_fields := Some [sample_field];
                     stored_messages := None;
                     stored_userSessionId := Some "usr-1" |})
            "s2" initial_page) in
     filledPdfBytes p = Some []
     /\ pdfDisplayMode p = filled
     /\ originalPdfBytes p = None
     /\ contextFiles p
        = [{| filename := "notes.txt"; cf_content := "born 1990";
              was_parsed := true |}]
     /\ sessionId p = "s1"
     /\ fields p = [sample_field]
     /\ messages p = []
     /\ userSessionId p = Some "usr-1".
Proof.
  split; [reflexivity|]. split; [reflexivity|].
  pose proof (proj2 (restore_applies_each_fetch (Some "s1")
                       {| stored_fields := Some [sample_field];
                          stored_messages := None;
                          stored_userSessionId := Some "usr-1" |}
                       "s2" (Fetched []) FetchFailed
                       (Fetched [{| filename := "notes.txt";
                                    cf_content := "born 1990";
                                    was_parsed := true |}])
                       eq_refl eq_refl)) as R.
  vm_compute in R. vm_compute. exact R.
Defined.

Lemma app_in_flight_reachable :
  reachable no_decoder
    (step no_decoder (SetInput "Also fill the date")
       (app_in_flight no_decoder)).
Proof.
  unfold app_in_flight, app_loaded. do 5 apply reachable_step.
  apply reachable_mounted.
Defined.

Lemma app_after_turn_reachable :
  reachable no_decoder (app_after_turn no_decoder).
Proof.
  unfold app_after_turn, app_in_flight, app_loaded.
  do 6 apply reachable_step. apply reachable_mounted.
Defined.

Lemma app_with_document_reachable :
  reachable no_decoder (app_with_document no_decoder).
Proof.
  unfold app_with_document, app_in_flight, app_loaded.
  do 7 apply reachable_step. apply reachable_mounted.
Defined.

(** A second instruction submitted while the first turn is in flight:
    nothing changes, the text stays in the input. *)
Lemma one_turn_in_flight_witness :
  reachable no_decoder
    (step no_decoder (SetInput "Also fill the date")
       (app_in_flight no_decoder))
  /\ isProcessing
       (page (client (step no_decoder (SetInput "Also fill the date")
                        (app_in_flight no_decoder)))) = true
  /\ step no_decoder (Submit (stamp "u2") (stamp "a2"))
       (step no_decoder (SetInput "Also fill the date")
          (app_in_flight no_decoder))
     = step no_decoder (SetInput "Also fill the date")
         (app_in_flight no_decoder).
Proof.
  split; [exact app_in_flight_reachable|].
  assert (P : isProcessing
                (page (client (step no_decoder
                                 (SetInput "Also fill the date")
                                 (app_in_flight no_decoder)))) = true)
    by (vm_compute; reflexivity).
  split; [exact P|].
  exact (proj1 (proj2 (proj2 (one_turn_in_flight no_decoder _
                                app_in_flight_reachable)))
           (stamp "u2") (stamp "a2") (or_intror (or_intror P))).
Defined.

(** A second turn on a session that holds an agent session id and a
    filled document: the turn is a continuation and the document is
    passed. *)
Lemma continuation_decision_witness :
  reachable no_decoder (app_with_document no_decoder)
  /\ file (page (client (app_with_document no_decoder))) = Some sample_file
  /\ exists c1 t,
       handleSendMessage_start "Also fill the date" (stamp "u2") (stamp "a2")
         (client (app_with_document no_decoder)) = (c1, Some t)
       /\ isContinuation t = true
       /\ opened c1
          = (opened (client (app_with_document no_decoder))
               ++ [{| FillRequest.file := sample_file;
                      FillRequest.instructions := "Also fill the date";
                      FillRequest.filledPdfBytes := Some [];
                      FillRequest.isContinuation := true;
                      FillRequest.previousEdits := Some name_edit;
                      FillRequest.resumeSessionId := Some "abc";
                      FillRequest.userSessionId := None |}])%list.
Proof.
  split; [exact app_with_document_reachable|].
  assert (F : file (page (client (app_with_document no_decoder)))
              = Some sample_file) by (vm_compute; reflexivity).
  split; [exact F|].
  pose proof (continuation_decision no_decoder
                (app_with_document no_decoder) "Also fill the date"
                (stamp "u2") (stamp "a2") sample_file
                app_with_document_reachable F) as R.
  vm_compute in R. vm_compute. exact R.
Defined.

(** ** Where the code departs from the specification *)

(** C1.  A stream that delivers an [error] event and then closes, with or
    without a [complete] event before it: the placeholder is finalized
    with status [complete], its content being the text of the error. *)
Theorem error_event_finalized_complete :
  placeholder
    (handleSendMessage no_decoder "My name is John Doe"
       (stamp "u1") (stamp "a1") [(stamp "e1", error_event "boom")]
       Closed sample_client)
  = Some {| ChatMessage.id := "a1";
            ChatMessage.role := Role.assistant;
            ChatMessage.content := "boom";
            ChatMessage.timestamp := 0;
            ChatMessage.status := Some Status.complete;
            ChatMessage.agentLog :=
              Some [log_entry (stamp "e1") LogType.error "boom" None] |}
  /\ placeholder
       (handleSendMessage no_decoder "My name is John Doe"
          (stamp "u1") (stamp "a1")
          [(stamp "e1", complete_event 1 None None None);
           (stamp "e2", error_event "boom")]
          Closed sample_client)
     = Some {| ChatMessage.id := "a1";
               ChatMessage.role := Role.assistant;
               ChatMessage.content := "boom";
               ChatMessage.timestamp := 0;
               ChatMessage.status := Some Status.complete;
               ChatMessage.agentLog :=
                 Some [log_entry (stamp "e1") LogType.complete
                         "Completed - filled 1 fields" None;
                       log_entry (stamp "e2") LogType.error "boom" None] |}.
Proof. repeat apply conj; vm_compute; reflexivity. Qed.

(** Against C2 as stated: after a first turn that returned an agent
    session id and edits but no document, the next turn is not a
    continuation, and yet the stream is opened with the agent session id
    and with the applied edits. *)
Lemma fresh_turn_passes_session_and_edits :
  reachable no_decoder (app_after_turn no_decoder)
  /\ last (opened
             (fst (handleSendMessage_start "Also fill the date"
                     (stamp "u2") (stamp "a2")
                     (client (app_after_turn no_decoder)))))
     = Some {| FillRequest.file := sample_file;
               FillRequest.instructions := "Also fill the date";
               FillRequest.filledPdfBytes := None;
               FillRequest.isContinuation := false;
               FillRequest.previousEdits := Some name_edit;
               FillRequest.resumeSessionId := Some "abc";
               FillRequest.userSessionId := None |}.
Proof.
  split; [exact app_after_turn_reachable|].
  vm_compute. reflexivity.
Qed.

(** Against C5 as stated: a fault after an [error] event was folded.  The
    log had an error entry before the fault, and the handler appends a
    second one. *)
Lemma fault_after_error_event_duplicates :
  error_entries (turn_log [(stamp "e1", error_event "boom")]) = 1%nat
  /\ ChatMessage.agentLog
       <$> placeholder
             (handleSendMessage no_decoder "My name is John Doe"
                (stamp "u1") (stamp "a1") [(stamp "e1", error_event "boom")]
                (Failed (ErrorObject "connection lost") (stamp "x1"))
                sample_client)
     = Some (Some [log_entry (stamp "e1") LogType.error "boom" None;
                   log_entry (stamp "x1") LogType.error "connection lost"
                     None])
  /\ error_entries
       [log_entry (stamp "e1") LogType.error "boom" None;
        log_entry (stamp "x1") LogType.error "connection lost" None]
     = 2%nat.
Proof. repeat apply conj; vm_compute; reflexivity. Qed.

(** Against C6 as stated: a second turn whose [complete] event reports
    only the edit of that turn.  The key of the first turn is held before
    the turn and is gone after it. *)
Lemma second_turn_drops_key :
  appliedEdits (page (client (app_after_turn no_decoder))) = Some name_edit
  /\ appliedEdits
       (page (handleSendMessage no_decoder "Also fill the date"
                (stamp "u2") (stamp "a2")
                [(stamp "e2",
                  complete_event 1 (Some date_edit) (Some "abc") None)]
                Closed (client (app_after_turn no_decoder))))
     = Some date_edit
  /\ "name" ∈ edit_keys (Some name_edit)
  /\ "name" ∉ edit_keys (Some date_edit).
Proof.
  split; [vm_compute; reflexivity|]. split; [vm_compute; reflexivity|].
  unfold edit_keys, name_edit, date_edit. rewrite !dom_singleton_L.
  set_solver.
Qed.

(** Against C7 as stated: a reset after a completed turn clears the two
    backend identifiers and the file, keeps the [sessionId] it had and
    keeps all the messages. *)
Lemma reset_keeps_session_and_messages :
  agentSessionId (page (client (app_after_turn no_decoder))) = Some "abc"
  /\ agentSessionId
       (page (client (step no_decoder Reset (app_after_turn no_decoder))))
     = None
  /\ file (page (client (step no_decoder Reset (app_after_turn no_decoder))))
     = None
  /\ sessionId (page (client (app_after_turn no_decoder))) = "s1"
  /\ sessionId
       (page (client (step no_decoder Reset (app_after_turn no_decoder))))
     = "s1"
  /\ messages
       (page (client (step no_decoder Reset (app_after_turn no_decoder))))
     = messages (page (client (app_after_turn no_decoder)))
  /\ length
       (messages
          (page (client (step no_decoder Reset (app_after_turn no_decoder)))))
     = 3%nat.
Proof. repeat apply conj; vm_compute; reflexivity. Qed.

(** Against C8 as stated: a turn whose [complete] event returns an agent
    session id and no user session id.  The id is adopted, and the handler
    returns without having saved anything. *)
Lemma agent_session_adopted_without_save :
  agentSessionId
    (page (handleSendMessage no_decoder "My name is John Doe"
             (stamp "u1") (stamp "a1")
             [(stamp "e1",
               complete_event 1 (Some name_edit) (Some "abc") None)]
             Closed sample_client))
  = Some "abc"
  /\ saved
       (handleSendMessage no_decoder "My name is John Doe"
          (stamp "u1") (stamp "a1")
          [(stamp "e1", complete_event 1 (Some name_edit) (Some "abc") None)]
          Closed sample_client)
     = [].
Proof. repeat apply conj; vm_compute; reflexivity. Qed.

(** ** Concrete runs of the further properties *)

(** A first turn whose stream reports one edit and closes. *)
Lemma closed_turn_content_witness :
  is_Some (file (page sample_client))
  /\ exists m,
       placeholder
         (handleSendMessage no_decoder "My name is John Doe"
            (stamp "u1") (stamp "a1") sample_arrivals Closed sample_client)
       = Some m
       /\ ChatMessage.content m = "Successfully filled 1 form fields.".
Proof.
  split; [exact sample_client_has_file|].
  destruct (closed_turn_content no_decoder "My name is John Doe"
              (stamp "u1") (stamp "a1") sample_arrivals sample_client
              sample_client_has_file) as (m & P & C & _).
  exists m. split; [exact P|].
  etransitivity; [exact C|]. vm_compute. reflexivity.
Defined.

(** The same turn when the iteration throws after the events: the two
    messages it adds to the empty list. *)
Lemma turn_messages_exact_witness :
  is_Some (file (page sample_client))
  /\ (fresh_id (stamp "a1")
      ∉ (ChatMessage.id <$> messages (page sample_client)))
  /\ fresh_id (stamp "a1") <> fresh_id (stamp "u1")
  /\ messages
       (page (handleSendMessage no_decoder "My name is John Doe"
                (stamp "u1") (stamp "a1") sample_arrivals
                (Failed (ErrorObject "connection lost") (stamp "x1"))
                sample_client))
     = (messages (page sample_client)
          ++ [createMessage (stamp "u1") Role.user "My name is John Doe" None;
              finalized (stamp "a1")
                (truthy_str (agentSessionId (page sample_client))
                 && truthy_obj (filledPdfBytes (page sample_client)))
                sample_arrivals
                (Failed (ErrorObject "connection lost") (stamp "x1"))])%list.
Proof.
  assert (H1 : fresh_id (stamp "a1")
               ∉ (ChatMessage.id <$> messages (page sample_client))).
  { change (fresh_id (stamp "a1") ∉ ([] : list string)).
    apply not_elem_of_nil. }
  assert (H2 : fresh_id (stamp "a1") <> fresh_id (stamp "u1")).
  { intros H. discriminate H. }
  split; [exact sample_client_has_file|]. split; [exact H1|].
  split; [exact H2|].
  exact (turn_messages_exact no_decoder "My name is John Doe"
           (stamp "u1") (stamp "a1") sample_arrivals
           (Failed (ErrorObject "connection lost") (stamp "x1"))
           sample_client sample_client_has_file H1 H2).
Defined.


(** The status message after the two events of that stream. *)
Lemma status_message_follows_log_witness :
  is_Some (file (page sample_client))
  /\ exists c1 t,
       handleSendMessage_start "My name is John Doe" (stamp "u1")
         (stamp "a1") sample_client = (c1, Some t)
       /\ isProcessing
            (page (fst (handleSendMessage_loop no_decoder sample_arrivals
                          (c1, t))))
          = true
       /\ statusMessage
            (page (fst (handleSendMessage_loop no_decoder sample_arrivals
                          (c1, t))))
          = from_option AgentLogEntry.content "Starting agent..."
              (last (turn_log sample_arrivals)).
Proof.
  split; [exact sample_client_has_file|].
  exact (status_message_follows_log no_decoder "My name is John Doe"
           (stamp "u1") (stamp "a1") sample_arrivals sample_client
           sample_client_has_file).
Defined.

(** A session restored with its filled document only. *)
Lemma restored_document_is_read_only_witness :
  ((exists b : Uint8Array, Fetched ([] : Uint8Array) = Fetched b)
   \/ (exists b : Uint8Array, @FetchFailed Uint8Array = Fetched b))
  /\ chat_disabled
       (page (client
                (step no_decoder
                   (Restored (fetch_promise (Fetched ([] : Uint8Array)))
                      (fetch_promise (@FetchFailed Uint8Array))
                      (fetch_promise (@FetchFailed (list ContextFile))))
                   (mounted None None "s1"))))
     = true
  /\ upload_enabled
       (page (client
                (step no_decoder
                   (Restored (fetch_promise (Fetched ([] : Uint8Array)))
                      (fetch_promise (@FetchFailed Uint8Array))
                      (fetch_promise (@FetchFailed (list ContextFile))))
                   (mounted None None "s1"))))
     = false.
Proof.
  assert (H : (exists b : Uint8Array, Fetched ([] : Uint8Array) = Fetched b)
              \/ (exists b : Uint8Array,
                    @FetchFailed Uint8Array = Fetched b)).
  { left. exists []. reflexivity. }
  split; [exact H|].
  pose proof (restored_document_is_read_only no_decoder None None "s1"
                (Fetched ([] : Uint8Array)) FetchFailed FetchFailed H) as R.
  cbv zeta in R. destruct R as (_ & C & U & _).
  split; [exact C | exact U].
Defined.

(** The first submission on a loaded form, of an input with white space
    beyond ASCII around it: the instruction is the input without it. *)
Lemma accepted_submit_starts_turn_witness :
  submit_accepted
    (step no_decoder (SetInput padded_input) (app_loaded no_decoder)) = true
  /\ trim padded_input = "Fill in my name"
  /\ input
       (step no_decoder (Submit (stamp "u1") (stamp "a1"))
          (step no_decoder (SetInput padded_input)
             (app_loaded no_decoder))) = ""
  /\ isProcessing
       (page (client
                (step no_decoder (Submit (stamp "u1") (stamp "a1"))
                   (step no_decoder (SetInput padded_input)
                      (app_loaded no_decoder))))) = true
  /\ FillRequest.instructions
       <$> opened
             (client
                (step no_decoder (Submit (stamp "u1") (stamp "a1"))
                   (step no_decoder (SetInput padded_input)
                      (app_loaded no_decoder))))
     = ["Fill in my name"].
Proof.
  assert (H : submit_accepted
                (step no_decoder (SetInput padded_input)
                   (app_loaded no_decoder)) = true)
    by (vm_compute; reflexivity).
  assert (T : trim padded_input = "Fill in my name")
    by (vm_compute; reflexivity).
  split; [exact H|]. split; [exact T|].
  pose proof (accepted_submit_starts_turn no_decoder (stamp "u1")
                (stamp "a1") _ H) as R.
  cbv zeta in R. destruct R as (_ & I & _ & P & _ & _ & f & t & _ & _ & _ & _ & O).
  split; [exact I|]. split; [exact P|].
  etransitivity; [exact (f_equal (fmap FillRequest.instructions) O)|].
  vm_compute. reflexivity.
Defined.


(** The placeholder of a turn that threw: both blocks show the fault. *)
Lemma ended_turn_rendering_witness :
  is_Some (file (page sample_client))
  /\ exists m b,
       placeholder
         (handleSendMessage no_decoder "My name is John Doe"
            (stamp "u1") (stamp "a1") sample_arrivals
            (Failed (ErrorObject "connection lost") (stamp "x1"))
            sample_client)
       = Some m
       /\ ChatMessage_render false m = AssistantMessage b
       /\ response b = Some (ChatMessage.content m)
       /\ error_block b = Some "Error: connection lost".
Proof.
  split; [exact sample_client_has_file|].
  destruct (ended_turn_rendering no_decoder "My name is John Doe"
              (stamp "u1") (stamp "a1") sample_arrivals
              (Failed (ErrorObject "connection lost") (stamp "x1"))
              sample_client false sample_client_has_file)
    as (m & b & P & R & Resp & _ & _ & EB & _).
  exists m, b. split; [exact P|]. split; [exact R|].
  split; [exact Resp | exact EB].
Defined.

(** The placeholder while the events of the stream arrive. *)
Lemma streaming_turn_rendering_witness :
  is_Some (file (page sample_client))
  /\ exists c1 t m v,
       handleSendMessage_start "My name is John Doe" (stamp "u1")
         (stamp "a1") sample_client = (c1, Some t)
       /\ placeholder
            (fst (handleSendMessage_loop no_decoder sample_arrivals (c1, t)))
          = Some m
       /\ ChatMessage_render true m
          = AssistantMessage
              {| activity := Some v; response := None;
                 error_block := None |}
       /\ displayStatus v = "Processing your request..."
       /\ rows v = turn_log sample_arrivals.
Proof.
  split; [exact sample_client_has_file|].
  destruct (streaming_turn_rendering no_decoder "My name is John Doe"
              (stamp "u1") (stamp "a1") sample_arrivals sample_client true
              sample_client_has_file)
    as (c1 & t & m & v & S & P & R & _ & _ & D & W & _).
  exists c1, t, m, v. split; [exact S|]. split; [exact P|].
  split; [exact R|]. split; [exact D | exact W].
Defined.

